(** * The test session lifecycle of the NEET test front end

    A shallow embedding of the React components that drive one test
    attempt:

    - [Timer]                 (components/Timer.jsx)
    - [TestInterface]         (pages/TestInterface.jsx)
    - [TestResults]           (pages/TestResults.jsx, the score breakdown
                               and the colours of the header)
    - [TestProvider]          (context/TestContext.jsx)
    - [TestSelection]         (pages/TestSelection.jsx)
    - [TestHistory]           (pages/TestHistory.jsx, the list, the colours
                               and the trend)

    React state is modelled by explicit state passing.  A handler created
    during a render reads the state variables of THAT render (its closure)
    and the live value of every [useRef] cell; its [setX] calls write the
    pending state.  Handlers are therefore functions of a closure and of the
    live session.  Console output is not modelled. *)

From stdpp Require Import gmap strings list fin_maps pretty.
From Stdlib Require Import ZArith QArith Qminmax Qabs Qround Lia Lqa Ascii.

Local Open Scope Z_scope.

(** ** JavaScript values used as identifiers *)

(** Identifiers come from the database as numbers; a missing field reads as
    [undefined], which is [None] here. *)
Module JS.

Definition value := option Z.

(** Truthiness of a number or [undefined]. *)
Definition truthy (v : value) : bool :=
  match v with
  | Some n => negb (n =? 0)
  | None => false
  end.

(** [a || b] *)
Definition or (a b : value) : value := if truthy a then a else b.

(** Property-key coercion, [String(v)]. *)
Definition toKey (v : value) : string :=
  match v with
  | Some n => pretty n
  | None => "undefined"
  end.

End JS.

(** ** Data *)

Record Question := {
  q_question_id : JS.value;
  q_id : JS.value
}.

Record Answer := {
  ans_question_id : JS.value;
  ans_answer : string;
  ans_time_taken : Z
}.

#[global] Instance Answer_eq_dec : EqDecision Answer.
Proof. solve_decision. Defined.

#[global] Instance Question_eq_dec : EqDecision Question.
Proof. solve_decision. Defined.

(** [question.question_id || question.id] *)
Definition questionIdOf (q : Question) : JS.value :=
  JS.or (q_question_id q) (q_id q).

(** The [answers] object: a map from property keys to [Answer]s. *)
Abbreviation AnswerMap := (gmap string Answer).

(** ** The submission payload

    [questions.map(question => { ... })] of [handleSubmitTest]. *)
Definition answerFor (answers : AnswerMap) (question : Question) : Answer :=
  let questionId := questionIdOf question in
  match answers !! JS.toKey questionId with
  | Some userAnswer => userAnswer
  | None => {| ans_question_id := questionId;
               ans_answer := "";
               ans_time_taken := 0 |}
  end.

Definition answersArray (questions : list Question) (answers : AnswerMap)
  : list Answer :=
  answerFor answers <$> questions.

(** Every entry of the [answers] object was stored under the key of the
    identifier it carries; [handleAnswerSelect] is the only writer. *)
Definition answers_keyed (answers : AnswerMap) : Prop :=
  ∀ k a, answers !! k = Some a → JS.toKey (ans_question_id a) = k.

(** ** Timer.jsx *)

Module Timer.

(** [timeLeft] is the [useState] cell, [timeUpCalledRef] the [useRef] latch. *)
Record state := {
  timeLeft : Z;
  timeUpCalledRef : bool
}.

(** [useState(duration)], then the effect on [duration]. *)
Definition mount (duration : Z) : state :=
  {| timeLeft := duration; timeUpCalledRef := false |}.

(** The effect on [duration]: [setTimeLeft(duration)] and the latch reset. *)
Definition setDuration (duration : Z) (t : state) : state :=
  {| timeLeft := duration; timeUpCalledRef := false |}.

(** One run of the interval callback, that is of the updater given to
    [setTimeLeft].  The boolean tells whether [onTimeUp()] was called. *)
Definition tick (t : state) : state * bool :=
  if (timeLeft t <=? 1) && negb (timeUpCalledRef t) then
    ({| timeLeft := 0; timeUpCalledRef := true |}, true)
  else if timeLeft t <=? 1 then
    ({| timeLeft := 0; timeUpCalledRef := timeUpCalledRef t |}, false)
  else
    ({| timeLeft := timeLeft t - 1; timeUpCalledRef := timeUpCalledRef t |},
     false).

(** [n] runs of the callback; the number counts the [onTimeUp()] calls. *)
Fixpoint ticks (n : nat) (t : state) : state * nat :=
  match n with
  | O => (t, O)
  | S n' =>
      let '(t1, fired) := tick t in
      let '(t2, calls) := ticks n' t1 in
      (t2, ((if fired then 1 else 0) + calls)%nat)
  end.

End Timer.

(** ** TestInterface.jsx: state *)

(** The [currentTest] object of the context. *)
Record TestData := {
  td_questions : list Question;
  td_start_time : Z;          (* [new Date(start_time).getTime()] *)
  td_timer_seconds : Z
}.

(** The [useState] cells of one render, together with [testId] of
    [useParams]; also the closure that the handlers of that render see. *)
Record RState := {
  testId : string;
  questions : list Question;
  currentQuestionIndex : Z;
  answers : AnswerMap;
  testData : option TestData;
  timeUp : bool;
  testSubmitted : bool;
  warningCount : Z;
  isSubmitting : bool
}.

Inductive Message :=
| MsgFirstWarningSwitch   (* Warning: Don't switch windows during test! (1/2 warnings) *)
| MsgFinalWarningSwitch   (* Final warning: Switching windows again will auto-submit! (2/2 warnings) *)
| MsgAutoSubmittedSwitch  (* Test auto-submitted due to repeated window switching! *)
| MsgFirstWarningFocus    (* Warning: Stay focused on the test! (1/2 warnings) *)
| MsgFinalWarningFocus    (* Final warning: Losing focus again will auto-submit! (2/2 warnings) *)
| MsgAutoSubmittedFocus   (* Test auto-submitted due to repeated focus loss! *)
| MsgTimeIsUp             (* Time is up! Auto-submitting test... *)
| MsgAnswerAtLeastOne     (* Please answer at least one question before submitting *)
| MsgFailedToSubmit       (* Failed to submit test *)
| MsgServer (m : string)  (* response.data.message *)
| MsgAutoSubmitFailed     (* Auto-submit failed, but showing your results *)
| MsgSubmitted.           (* Test submitted successfully! *)

Inductive Toast :=
| ToastError (m : Message)
| ToastSuccess (m : Message).

(** [response.data] of [testAPI.submitTest]. *)
Record ResponseData := {
  success : bool;
  message : option string
}.

(** How the awaited promise settles. *)
Inductive Response :=
| Resolved (data : ResponseData)
| Thrown.

(** One call [testAPI.submitTest(testId, answersArray, questions)]. *)
Record Request := {
  req_testId : string;
  req_answers : list Answer;
  req_questions : list Question
}.

Inductive Route :=
| TestPage
| ResultsPage (test : string).

(** The live session: pending React state, the ref cell, what the component
    has done to the outside so far, and what the last render installed. *)
Record Session := {
  st : RState;                    (* pending state, written by the setters *)
  submissionStartedRef : bool;    (* [submissionStartedRef.current] *)
  toasts : list Toast;            (* oldest first *)
  submitCalls : list Request;     (* every [testAPI.submitTest] call, oldest first *)
  awaiting : list bool;           (* [autoSubmit] of each suspended [handleSubmitTest] *)
  route : Route;
  contextResults : option ResponseData;   (* SET_TEST_RESULTS *)
  rendered : RState;              (* closure of the last render *)
  listener : option RState        (* closure of the installed focus listeners *)
}.

(** ** State setters *)

Definition setCurrentQuestionIndex (f : Z → Z) (r : RState) : RState :=
  {| testId := testId r; questions := questions r;
     currentQuestionIndex := f (currentQuestionIndex r);
     answers := answers r; testData := testData r; timeUp := timeUp r;
     testSubmitted := testSubmitted r; warningCount := warningCount r;
     isSubmitting := isSubmitting r |}.

Definition setAnswers (f : AnswerMap → AnswerMap) (r : RState) : RState :=
  {| testId := testId r; questions := questions r;
     currentQuestionIndex := currentQuestionIndex r;
     answers := f (answers r); testData := testData r; timeUp := timeUp r;
     testSubmitted := testSubmitted r; warningCount := warningCount r;
     isSubmitting := isSubmitting r |}.

Definition setTimeUp (b : bool) (r : RState) : RState :=
  {| testId := testId r; questions := questions r;
     currentQuestionIndex := currentQuestionIndex r;
     answers := answers r; testData := testData r; timeUp := b;
     testSubmitted := testSubmitted r; warningCount := warningCount r;
     isSubmitting := isSubmitting r |}.

Definition setTestSubmitted (b : bool) (r : RState) : RState :=
  {| testId := testId r; questions := questions r;
     currentQuestionIndex := currentQuestionIndex r;
     answers := answers r; testData := testData r; timeUp := timeUp r;
     testSubmitted := b; warningCount := warningCount r;
     isSubmitting := isSubmitting r |}.

Definition setWarningCount (n : Z) (r : RState) : RState :=
  {| testId := testId r; questions := questions r;
     currentQuestionIndex := currentQuestionIndex r;
     answers := answers r; testData := testData r; timeUp := timeUp r;
     testSubmitted := testSubmitted r; warningCount := n;
     isSubmitting := isSubmitting r |}.

Definition setIsSubmitting (b : bool) (r : RState) : RState :=
  {| testId := testId r; questions := questions r;
     currentQuestionIndex := currentQuestionIndex r;
     answers := answers r; testData := testData r; timeUp := timeUp r;
     testSubmitted := testSubmitted r; warningCount := warningCount r;
     isSubmitting := b |}.

(** A setter call inside a handler: the pending state changes, the closure
    the handler reads from does not. *)
Definition write (f : RState → RState) (s : Session) : Session :=
  {| st := f (st s); submissionStartedRef := submissionStartedRef s;
     toasts := toasts s; submitCalls := submitCalls s;
     awaiting := awaiting s; route := route s;
     contextResults := contextResults s; rendered := rendered s;
     listener := listener s |}.

(** [submissionStartedRef.current = b] *)
Definition setSubmissionStarted (b : bool) (s : Session) : Session :=
  {| st := st s; submissionStartedRef := b;
     toasts := toasts s; submitCalls := submitCalls s;
     awaiting := awaiting s; route := route s;
     contextResults := contextResults s; rendered := rendered s;
     listener := listener s |}.

Definition toast (t : Toast) (s : Session) : Session :=
  {| st := st s; submissionStartedRef := submissionStartedRef s;
     toasts := toasts s ++ [t]; submitCalls := submitCalls s;
     awaiting := awaiting s; route := route s;
     contextResults := contextResults s; rendered := rendered s;
     listener := listener s |}.

(** [await testAPI.submitTest(...)]: the call goes out and the rest of
    [handleSubmitTest] is suspended, remembering its [autoSubmit]. *)
Definition submitTest (req : Request) (autoSubmit : bool) (s : Session)
  : Session :=
  {| st := st s; submissionStartedRef := submissionStartedRef s;
     toasts := toasts s; submitCalls := submitCalls s ++ [req];
     awaiting := awaiting s ++ [autoSubmit]; route := route s;
     contextResults := contextResults s; rendered := rendered s;
     listener := listener s |}.

Definition setAwaiting (l : list bool) (s : Session) : Session :=
  {| st := st s; submissionStartedRef := submissionStartedRef s;
     toasts := toasts s; submitCalls := submitCalls s;
     awaiting := l; route := route s;
     contextResults := contextResults s; rendered := rendered s;
     listener := listener s |}.

Definition navigate (to : Route) (s : Session) : Session :=
  {| st := st s; submissionStartedRef := submissionStartedRef s;
     toasts := toasts s; submitCalls := submitCalls s;
     awaiting := awaiting s; route := to;
     contextResults := contextResults s; rendered := rendered s;
     listener := listener s |}.

(** [dispatch({ type: 'SET_TEST_RESULTS', payload })] *)
Definition dispatchResults (payload : ResponseData) (s : Session) : Session :=
  {| st := st s; submissionStartedRef := submissionStartedRef s;
     toasts := toasts s; submitCalls := submitCalls s;
     awaiting := awaiting s; route := route s;
     contextResults := Some payload; rendered := rendered s;
     listener := listener s |}.

(** ** TestInterface.jsx: handlers

    The first argument [c] of a handler is the closure of the render that
    created it. *)

(** [questions[currentQuestionIndex]]; [None] is [undefined]. *)
Definition currentQuestion (c : RState) : option Question :=
  if 0 <=? currentQuestionIndex c
  then questions c !! Z.to_nat (currentQuestionIndex c)
  else None.

(** [testData ? new Date(testData.start_time).getTime() : Date.now()],
    evaluated during the render, when the clock showed [renderNow]. *)
Definition testStartTime (c : RState) (renderNow : Z) : Z :=
  match testData c with
  | Some d => td_start_time d
  | None => renderNow
  end.

(** [handleAnswerSelect(optionKey)] at clock reading [now].  [None] is the
    TypeError of reading a property of an undefined [currentQuestion]. *)
Definition handleAnswerSelect (c : RState) (renderNow now : Z)
    (optionKey : string) (s : Session) : option Session :=
  match currentQuestion c with
  | None => None
  | Some q =>
      let questionId := questionIdOf q in
      Some (write (setAnswers (λ prev,
        <[JS.toKey questionId :=
            {| ans_question_id := questionId;
               ans_answer := optionKey;
               ans_time_taken := (now - testStartTime c renderNow) / 1000 |}]>
          prev)) s)
  end.

Definition handleClearAnswer (c : RState) (s : Session) : option Session :=
  match currentQuestion c with
  | None => None
  | Some q =>
      let questionId := questionIdOf q in
      Some (write (setAnswers (λ prev, delete (JS.toKey questionId) prev)) s)
  end.

Definition handleNext (c : RState) (s : Session) : Session :=
  if currentQuestionIndex c <? Z.of_nat (length (questions c)) - 1
  then write (setCurrentQuestionIndex (λ prev, prev + 1)) s
  else s.

Definition handlePrevious (c : RState) (s : Session) : Session :=
  if currentQuestionIndex c >? 0
  then write (setCurrentQuestionIndex (λ prev, prev - 1)) s
  else s.

Definition handleQuestionJump (index : Z) (s : Session) : Session :=
  write (setCurrentQuestionIndex (λ _, index)) s.

(** [handleSubmitTest(autoSubmit)] up to its [await].  [confirmed] is what
    [window.confirm] answers when it is asked. *)
Definition handleSubmitTest (c : RState) (autoSubmit confirmed : bool)
    (s : Session) : Session :=
  if isSubmitting c || testSubmitted c || submissionStartedRef s then s
  else if negb autoSubmit && (size (answers c) =? 0)%nat then
    toast (ToastError MsgAnswerAtLeastOne) s
  else if negb autoSubmit && negb confirmed then s
  else
    let s1 := setSubmissionStarted true s in
    let s2 := write (setIsSubmitting true) s1 in
    submitTest {| req_testId := testId c;
                  req_answers := answersArray (questions c) (answers c);
                  req_questions := questions c |} autoSubmit s2.

(** [response.data.message || 'Failed to submit test'] *)
Definition failureMessage (data : ResponseData) : Message :=
  match message data with
  | Some m => if decide (m = "") then MsgFailedToSubmit else MsgServer m
  | None => MsgFailedToSubmit
  end.

(** The rest of [handleSubmitTest(autoSubmit)] once the promise settles. *)
Definition resumeSubmitTest (c : RState) (autoSubmit : bool) (r : Response)
    (s : Session) : Session :=
  match r with
  | Resolved data =>
      if success data then
        let s1 := write (setTestSubmitted true) s in
        let s2 := dispatchResults data s1 in
        let s3 := toast (ToastSuccess MsgSubmitted) s2 in
        navigate (ResultsPage (testId c)) s3
      else
        let s1 := toast (ToastError (failureMessage data)) s in
        let s2 := write (setIsSubmitting false) s1 in
        setSubmissionStarted false s2
  | Thrown =>
      if autoSubmit then
        let s1 := toast (ToastError MsgAutoSubmitFailed) s in
        let s2 := write (setTestSubmitted true) s1 in
        navigate (ResultsPage (testId c)) s2
      else
        let s1 := toast (ToastError MsgFailedToSubmit) s in
        let s2 := write (setIsSubmitting false) s1 in
        setSubmissionStarted false s2
  end.

Definition handleTimeUp (c : RState) (s : Session) : Session :=
  if timeUp c || isSubmitting c || testSubmitted c || submissionStartedRef s
  then s
  else
    let s1 := write (setTimeUp true) s in
    let s2 := write (setIsSubmitting true) s1 in
    let s3 := toast (ToastError MsgTimeIsUp) s2 in
    handleSubmitTest c true false s3.

Definition MAX_WARNINGS : Z := 2.

(** The [visibilitychange] listener; [hidden] is [document.hidden]. *)
Definition handleVisibilityChange (c : RState) (hidden : bool) (s : Session)
  : Session :=
  if hidden && negb (isSubmitting c) && negb (testSubmitted c) then
    let newWarningCount := warningCount c + 1 in
    let s1 := write (setWarningCount newWarningCount) s in
    if newWarningCount =? 1 then
      toast (ToastError MsgFirstWarningSwitch) s1
    else if newWarningCount =? 2 then
      toast (ToastError MsgFinalWarningSwitch) s1
    else if newWarningCount >? MAX_WARNINGS then
      handleSubmitTest c true false
        (toast (ToastError MsgAutoSubmittedSwitch) s1)
    else s1
  else s.

(** The [blur] listener of the window. *)
Definition handleBlur (c : RState) (hidden : bool) (s : Session) : Session :=
  if negb hidden && negb (isSubmitting c) && negb (testSubmitted c) then
    let newWarningCount := warningCount c + 1 in
    let s1 := write (setWarningCount newWarningCount) s in
    if newWarningCount =? 1 then
      toast (ToastError MsgFirstWarningFocus) s1
    else if newWarningCount =? 2 then
      toast (ToastError MsgFinalWarningFocus) s1
    else if newWarningCount >? MAX_WARNINGS then
      handleSubmitTest c true false
        (toast (ToastError MsgAutoSubmittedFocus) s1)
    else s1
  else s.

(** ** TestInterface.jsx: renders, effects and the event loop *)

(** The first render, before the test is loaded. *)
Definition firstRender (tid : string) : RState :=
  {| testId := tid; questions := []; currentQuestionIndex := 0;
     answers := ∅; testData := None; timeUp := false;
     testSubmitted := false; warningCount := 0; isSubmitting := false |}.

(** The loading effect when [currentTest] matches [testId]:
    [setTestData(currentTest); setQuestions(currentTest.questions || [])]. *)
Definition loadTest (currentTest : TestData) (r : RState) : RState :=
  {| testId := testId r; questions := td_questions currentTest;
     currentQuestionIndex := currentQuestionIndex r;
     answers := answers r; testData := Some currentTest; timeUp := timeUp r;
     testSubmitted := testSubmitted r; warningCount := warningCount r;
     isSubmitting := isSubmitting r |}.

(** Dependency array of the focus effect:
    [[testSubmitted, warningCount, isSubmitting]]. *)
Definition focusDeps (r : RState) : bool * Z * bool :=
  (testSubmitted r, warningCount r, isSubmitting r).

(** Body of the focus effect: it returns at once when the test is submitted
    or submitting, and otherwise registers listeners that close over the
    render [r]. *)
Definition installListeners (r : RState) : option RState :=
  if testSubmitted r || isSubmitting r then None else Some r.

(** A re-render.  The focus effect runs again only when one of its
    dependencies changed; otherwise the listeners of an earlier render stay
    registered, with the closure of that render. *)
Definition commit (s : Session) : Session :=
  {| st := st s; submissionStartedRef := submissionStartedRef s;
     toasts := toasts s; submitCalls := submitCalls s;
     awaiting := awaiting s; route := route s;
     contextResults := contextResults s; rendered := st s;
     listener := if decide (focusDeps (st s) = focusDeps (rendered s))
                 then listener s
                 else installListeners (st s) |}.

(** Mounting the page for a test found in the context. *)
Definition mount (tid : string) (currentTest : TestData) : Session :=
  let r0 := firstRender tid in
  commit {| st := loadTest currentTest r0; submissionStartedRef := false;
            toasts := []; submitCalls := []; awaiting := [];
            route := TestPage; contextResults := None; rendered := r0;
            listener := installListeners r0 |}.

Inductive Event :=
| AnswerSelect (renderNow now : Z) (optionKey : string)
| ClearAnswer
| Next
| Previous
| QuestionJump (index : Z)
| SubmitClick (confirmed : bool)       (* the Submit Test button *)
| TimeUp                               (* [onTimeUp] of the Timer *)
| VisibilityChange (hidden : bool)
| Blur (hidden : bool)
| Settled (r : Response).              (* the awaited promise settles *)

(** One event, handled by the handlers of the last render (the focus
    listeners: by whatever render registered them).  A handler that throws
    has written nothing.  Leaving the page is recorded in [route]; the
    handlers stay defined on every session. *)
Definition handle (ev : Event) (s : Session) : Session :=
  match ev with
  | AnswerSelect renderNow now optionKey =>
      default s (handleAnswerSelect (rendered s) renderNow now optionKey s)
  | ClearAnswer => default s (handleClearAnswer (rendered s) s)
  | Next => handleNext (rendered s) s
  | Previous => handlePrevious (rendered s) s
  | QuestionJump index => handleQuestionJump index s
  | SubmitClick confirmed => handleSubmitTest (rendered s) false confirmed s
  | TimeUp => handleTimeUp (rendered s) s
  | VisibilityChange hidden =>
      match listener s with
      | Some c => handleVisibilityChange c hidden s
      | None => s
      end
  | Blur hidden =>
      match listener s with
      | Some c => handleBlur c hidden s
      | None => s
      end
  | Settled r =>
      match awaiting s with
      | autoSubmit :: rest =>
          resumeSubmitTest (rendered s) autoSubmit r (setAwaiting rest s)
      | [] => s
      end
  end.

Definition step (ev : Event) (s : Session) : Session := commit (handle ev s).

Definition run (evs : list Event) (s : Session) : Session :=
  foldl (λ acc ev, step ev acc) s evs.

(** The sessions a mounted page can be in. *)
Inductive reachable (tid : string) (currentTest : TestData)
  : Session → Prop :=
| reachable_mount : reachable tid currentTest (mount tid currentTest)
| reachable_step ev s :
    reachable tid currentTest s → reachable tid currentTest (step ev s).

(** ** Submit triggers

    The three ways [submit] is entered, each with the closure of whatever
    render created the handler that fires. *)
Inductive Trigger :=
| Manual (confirmed : bool)
| Timeout
| ForcedViolation.

Definition fire (ct : RState * Trigger) (s : Session) : Session :=
  match ct with
  | (c, Manual confirmed) => handleSubmitTest c false confirmed s
  | (c, Timeout) => handleTimeUp c s
  | (c, ForcedViolation) => handleSubmitTest c true false s
  end.

Definition fireAll (l : list (RState * Trigger)) (s : Session) : Session :=
  foldl (λ acc ct, fire ct acc) s l.

(** A focus-loss event: the tab gets hidden, or the window loses focus
    while the tab stays visible. *)
Definition focusLoss (ev : Event) : bool :=
  match ev with
  | VisibilityChange hidden => hidden
  | Blur hidden => negb hidden
  | _ => false
  end.

Definition focusEvent (ev : Event) : bool :=
  match ev with
  | VisibilityChange _ | Blur _ => true
  | _ => false
  end.

(** ** TestResults.jsx: the score breakdown *)

Module Results.

(** [results.results] as the page receives it.  The fields read through
    [||] may be missing. *)
Record TestResultsData := {
  correct_answers : Z;
  wrong_answers : JS.value;
  not_attempted : JS.value;
  total_questions : Z;
  neet_score : JS.value;
  max_score : JS.value;
  score_percentage : option Q
}.

(** [a || b] where [b] is a number. *)
Definition orNum (a : JS.value) (b : Z) : Z :=
  match JS.or a (Some b) with
  | Some n => n
  | None => b
  end.

(** [testResults.wrong_answers || (testResults.total_questions -
    testResults.correct_answers - (testResults.not_attempted || 0))] *)
Definition shownWrong (r : TestResultsData) : Z :=
  orNum (wrong_answers r)
        (total_questions r - correct_answers r - orNum (not_attempted r) 0).

(** The "Total Score" line:
    [testResults.neet_score || (testResults.correct_answers * 4 - wrong)]. *)
Definition shownScore (r : TestResultsData) : Z :=
  orNum (neet_score r) (correct_answers r * 4 - shownWrong r).

(** [testResults.max_score || (testResults.total_questions * 4)] *)
Definition shownMaxScore (r : TestResultsData) : Z :=
  orNum (max_score r) (total_questions r * 4).

(** [testResults.score_percentage?.toFixed(1) || '0.0'], before rounding to
    one decimal. *)
Definition shownPercentage (r : TestResultsData) : Q :=
  default 0%Q (score_percentage r).

End Results.

(** ** The Scoring Engine *)

Module Scoring.

(** Modelled from the spec: the Scoring Engine [score(questions, answers)]
    runs on the server, whose code is not part of the front end.  A question
    carries its identifier and its correct option label. *)
Record SQuestion := {
  sq_id : JS.value;
  sq_correct : string
}.

(** Modelled from the spec: how one question was answered. *)
Inductive Outcome := Correct | Wrong | NotAttempted.

#[global] Instance Outcome_eq_dec : EqDecision Outcome.
Proof. solve_decision. Defined.

(** Modelled from the spec: the letter grades. *)
Inductive Grade := Excellent | Good | Average | BelowAverage | Poor.

(** Modelled from the spec: the TestResult, without the per-question detail
    and the time taken. *)
Record TestResult := {
  correct : Z;
  wrong : Z;
  notAttempted : Z;
  total : Z;
  rawScore : Z;
  maxScore : Z;
  percentage : Q;
  grade : Grade
}.

(** Modelled from the spec: the selection submitted for a question, empty
    when the payload has no entry for it. *)
Definition selectionOf (answers : list Answer) (q : SQuestion) : string :=
  match List.find (λ a, bool_decide (ans_question_id a = sq_id q)) answers with
  | Some a => ans_answer a
  | None => ""
  end.

(** Modelled from the spec: empty selection is not attempted, the correct
    option is correct, anything else is wrong. *)
Definition judge (answers : list Answer) (q : SQuestion) : Outcome :=
  let selection := selectionOf answers q in
  if decide (selection = "") then NotAttempted
  else if decide (selection = sq_correct q) then Correct
  else Wrong.

(** Modelled from the spec: how many questions had the outcome [o]. *)
Definition count (o : Outcome) (l : list Outcome) : Z :=
  Z.of_nat (length (filter (λ x, x = o) l)).

(** Modelled from the spec: +4 for a correct answer, -1 for a wrong one. *)
Definition marks (o : Outcome) : Z :=
  match o with
  | Correct => 4
  | Wrong => -1
  | NotAttempted => 0
  end.

(** Modelled from the spec: the marks of all questions together. *)
Definition totalMarks (l : list Outcome) : Z :=
  foldr (λ o acc, marks o + acc) 0 l.

(** Modelled from the spec:
    [percentage = max(raw_score,0) / (questions.length*4) * 100]. *)
Definition percentageOf (raw : Z) (k : Z) : Q :=
  (Qmax (inject_Z raw) 0 / inject_Z (k * 4) * 100)%Q.

(** Modelled from the spec: bands with inclusive lower bounds. *)
Definition gradeOf (p : Q) : Grade :=
  if Qle_bool 90 p then Excellent
  else if Qle_bool 75 p then Good
  else if Qle_bool 60 p then Average
  else if Qle_bool 40 p then BelowAverage
  else Poor.

(** Modelled from the spec: [score(questions, answers)]. *)
Definition score (questions : list SQuestion) (answers : list Answer)
  : TestResult :=
  let outcomes := judge answers <$> questions in
  let c := count Correct outcomes in
  let w := count Wrong outcomes in
  let k := Z.of_nat (length questions) in
  let raw := 4 * c - 1 * w in
  {| correct := c; wrong := w; notAttempted := count NotAttempted outcomes;
     total := k; rawScore := raw; maxScore := k * 4;
     percentage := percentageOf raw k;
     grade := gradeOf (percentageOf raw k) |}.

(** Modelled from the spec: the result as the submission transport returns
    it to the results page. *)
Definition toPage (r : TestResult) : Results.TestResultsData :=
  {| Results.correct_answers := correct r;
     Results.wrong_answers := Some (wrong r);
     Results.not_attempted := Some (notAttempted r);
     Results.total_questions := total r;
     Results.neet_score := Some (rawScore r);
     Results.max_score := Some (maxScore r);
     Results.score_percentage := Some (percentage r) |}.

End Scoring.

(** ** Warnings of the focus listeners *)

Definition firstWarning (ev : Event) : Toast :=
  match ev with
  | VisibilityChange _ => ToastError MsgFirstWarningSwitch
  | _ => ToastError MsgFirstWarningFocus
  end.

Definition finalWarning (ev : Event) : Toast :=
  match ev with
  | VisibilityChange _ => ToastError MsgFinalWarningSwitch
  | _ => ToastError MsgFinalWarningFocus
  end.

Definition autoSubmitNotice (ev : Event) : Toast :=
  match ev with
  | VisibilityChange _ => ToastError MsgAutoSubmittedSwitch
  | _ => ToastError MsgAutoSubmittedFocus
  end.

(** The question cursor points at a question. *)
Definition inRange (r : RState) : Prop :=
  0 ≤ currentQuestionIndex r ≤ Z.of_nat (length (questions r)) - 1.

(** The entry that an unanswered question gets in the payload. *)
Definition unanswered (q : Question) : Answer :=
  {| ans_question_id := questionIdOf q; ans_answer := ""; ans_time_taken := 0 |}.

(** ** A sample session *)

Definition sampleQuestion (n : Z) : Question :=
  {| q_question_id := Some n; q_id := None |}.

Definition sampleTest : TestData :=
  {| td_questions := [sampleQuestion 1; sampleQuestion 2; sampleQuestion 3];
     td_start_time := 0;
     td_timer_seconds := 180 |}.

Definition sampleSession : Session := mount "42" sampleTest.

Definition accepted : Response :=
  Resolved {| success := true; message := None |}.

Definition refused : Response :=
  Resolved {| success := false; message := None |}.

(** The first question answered with A, the test submitted by hand and
    accepted by the server. *)
Definition submittedSession : Session :=
  run [AnswerSelect 0 5000 "A"; SubmitClick true; Settled accepted]
      sampleSession.

(** The first question answered with A and the test submitted by hand,
    the answer of the server still outstanding. *)
Definition submittingSession : Session :=
  run [AnswerSelect 0 5000 "A"; SubmitClick true] sampleSession.

(** The first question answered with A, nothing submitted yet. *)
Definition answeredSession : Session :=
  step (AnswerSelect 0 5000 "A") sampleSession.

(** ** Invariant of the sessions of a mounted page *)

(** What holds between the handlers of an event and the re-render that
    follows: the ref cell and [isSubmitting] agree, a submitted test is still
    marked submitting, exactly the submission that is neither settled nor
    rolled back is awaited, the answers are stored under their own keys, and
    the registered focus listeners stem from a render with the dependencies of
    the last render. *)
Record coherent (s : Session) : Prop := {
  coherent_ref : submissionStartedRef s = isSubmitting (st s);
  coherent_submitted :
    testSubmitted (st s) = true → isSubmitting (st s) = true;
  coherent_awaiting :
    length (awaiting s)
    = if isSubmitting (st s) && negb (testSubmitted (st s))
      then 1%nat else 0%nat;
  coherent_keyed : answers_keyed (answers (st s));
  coherent_listener :
    match listener s with
    | Some c => focusDeps c = focusDeps (rendered s)
                ∧ isSubmitting c = false ∧ testSubmitted c = false
                ∧ answers_keyed (answers c)
    | None => isSubmitting (rendered s) = true
    end
}.

(** Between two events the last render shows the pending state. *)
Definition stable (s : Session) : Prop :=
  coherent s ∧ rendered s = st s.

(** The event that resumes a suspended [handleSubmitTest]. *)
Definition settles (ev : Event) : bool :=
  match ev with
  | Settled _ => true
  | _ => false
  end.

(** Two warnings, then the first question answered with A, then a third
    focus loss. *)
Definition forcedSession : Session :=
  run [Blur false; VisibilityChange true; AnswerSelect 0 5000 "A";
       Blur false] sampleSession.

(** The same session before the third focus loss: two warnings given, the
    first question answered with A. *)
Definition warnedSession : Session :=
  run [Blur false; VisibilityChange true; AnswerSelect 0 5000 "A"]
      sampleSession.

(** The request that [handleSubmitTest] of the render [c] sends. *)
Definition requestOf (c : RState) : Request :=
  {| req_testId := testId c;
     req_answers := answersArray (questions c) (answers c);
     req_questions := questions c |}.

(** A payload with one entry per question sent along, in order, carrying
    that question's identifier. *)
Definition payload_ok (req : Request) : Prop :=
  ans_question_id <$> req_answers req = questionIdOf <$> req_questions req.

(** ** Sample results *)

(** Ten questions whose correct option is A. *)
Definition tenQuestions : list Scoring.SQuestion :=
  (λ n, {| Scoring.sq_id := Some n; Scoring.sq_correct := "A" |})
    <$> [1; 2; 3; 4; 5; 6; 7; 8; 9; 10].

(** All ten answered with B. *)
Definition tenWrong : list Answer :=
  (λ n, {| ans_question_id := Some n; ans_answer := "B";
           ans_time_taken := 30 |})
    <$> [1; 2; 3; 4; 5; 6; 7; 8; 9; 10].

(** Six answered correctly, two wrongly, two left empty. *)
Definition sixTwoTwo : list Answer :=
  (λ '(n, a), {| ans_question_id := Some n; ans_answer := a;
                 ans_time_taken := 30 |})
    <$> [(1, "A"); (2, "A"); (3, "A"); (4, "A"); (5, "A"); (6, "A");
         (7, "B"); (8, "C"); (9, ""); (10, "")].

(** ** TestInterface.jsx: what the page shows *)

Inductive QuestionStatus := IsAnswered | IsUnanswered.

#[global] Instance QuestionStatus_eq_dec : EqDecision QuestionStatus.
Proof. solve_decision. Defined.

(** [getQuestionStatus(questionId)] *)
Definition getQuestionStatus (c : RState) (questionId : JS.value)
  : QuestionStatus :=
  match answers c !! JS.toKey questionId with
  | Some _ => IsAnswered
  | None => IsUnanswered
  end.

(** [Object.keys(answers).length] *)
Definition answeredCount (c : RState) : Z := Z.of_nat (size (answers c)).

(** [questions.length - answeredCount] *)
Definition unansweredCount (c : RState) : Z :=
  Z.of_nat (length (questions c)) - answeredCount c.

(** The condition of the Clear Answer button, [answers[currentQuestion.id]],
    on a page that has a current question. *)
Definition clearAnswerShown (c : RState) : bool :=
  match currentQuestion c with
  | Some q => bool_decide (is_Some (answers c !! JS.toKey (q_id q)))
  | None => false
  end.

(** Selecting, clearing and moving between questions. *)
Definition quiet (ev : Event) : bool :=
  match ev with
  | AnswerSelect _ _ _ | ClearAnswer | Next | Previous | QuestionJump _ => true
  | _ => false
  end.

(** Every key of the [answers] object is the key of a question of the
    test. *)
Definition answers_within (r : RState) : Prop :=
  ∀ k, is_Some (answers r !! k) →
       ∃ q, q ∈ questions r ∧ JS.toKey (questionIdOf q) = k.

(** ** Timer.jsx: what the timer shows *)

Module TimerView.

(** [s.padStart(2, '0')] *)
Definition padStart2 (s : string) : string :=
  match String.length s with
  | O => "00" +:+ s
  | S O => "0" +:+ s
  | _ => s
  end.

(** [n.toString().padStart(2, '0')] *)
Definition pad2 (n : Z) : string := padStart2 (pretty n).

(** [Math.floor(seconds / 3600)] *)
Definition hours (seconds : Z) : Z := seconds / 3600.

(** [Math.floor((seconds % 3600) / 60)] *)
Definition minutes (seconds : Z) : Z := Z.rem seconds 3600 / 60.

(** [seconds % 60] *)
Definition secs (seconds : Z) : Z := Z.rem seconds 60.

Definition formatTime (seconds : Z) : string :=
  if hours seconds >? 0 then
    pad2 (hours seconds) +:+ ":" +:+ pad2 (minutes seconds)
      +:+ ":" +:+ pad2 (secs seconds)
  else
    pad2 (minutes seconds) +:+ ":" +:+ pad2 (secs seconds).

(** [timeLeft <= 300], the five minutes warning *)
Definition isWarning (timeLeft : Z) : bool := timeLeft <=? 300.

(** [timeLeft <= 60], the last minute *)
Definition isCritical (timeLeft : Z) : bool := timeLeft <=? 60.

Inductive Icon := AlertTriangle | Clock.

Definition icon (timeLeft : Z) : Icon :=
  if isCritical timeLeft then AlertTriangle else Clock.

(** The line under the clock: none, 'Hurry up!' or 'Time almost up!'. *)
Inductive Hint := NoHint | HurryUp | TimeAlmostUp.

Definition hint (timeLeft : Z) : Hint :=
  if isWarning timeLeft then
    if isCritical timeLeft then TimeAlmostUp else HurryUp
  else NoHint.

(** The decimal digit of a number below ten. *)
Definition digit (n : Z) : ascii := pretty_N_char (Z.to_N n).

(** Two decimal digits. *)
Definition twoDigits (n : Z) : string :=
  String (digit (n / 10)) (String (digit (n mod 10)) "").

End TimerView.

(** ** TestInterface.jsx: the page with its timer *)

(** Whether the page renders the [Timer], and with which [duration].  The
    page returns early, before the JSX of the [Timer], while [loading] holds
    and when [currentQuestion] is undefined; [loading] is false from the
    loading effect on.  So a mounted page renders the [Timer] when it has a
    current question and [testData?.timer_seconds && !timeUp] holds. *)
Definition timerDuration (r : RState) : option Z :=
  match currentQuestion r with
  | None => None
  | Some _ =>
      match testData r with
      | Some d =>
          if negb (td_timer_seconds d =? 0) && negb (timeUp r)
          then Some (td_timer_seconds d)
          else None
      | None => None
      end
  end.

(** The page: the session and, while the [Timer] is mounted, the duration
    it was last rendered with and its state. *)
Record Page := {
  session : Session;
  timer : option (Z * Timer.state)
}.

(** The [Timer] after a render of the page: unmounted when the page does
    not render it (also when the page returns before it for want of a
    current question), mounted with a fresh state when it is new, reset by
    its effect when the duration changed, and otherwise as it was. *)
Definition renderTimer (s : Session) (old : option (Z * Timer.state))
  : option (Z * Timer.state) :=
  match timerDuration (rendered s) with
  | None => None
  | Some d =>
      match old with
      | None => Some (d, Timer.mount d)
      | Some (d0, t) =>
          if d0 =? d then Some (d0, t) else Some (d, Timer.setDuration d t)
      end
  end.

Definition mountPage (tid : string) (currentTest : TestData) : Page :=
  let s := mount tid currentTest in
  {| session := s; timer := renderTimer s None |}.

Inductive PageEvent :=
| Tick                      (* the interval of the Timer fires *)
| OnPage (ev : Event).

(** One event of the page.  The interval exists only while the [Timer] is
    mounted and [isActive], that is [!isSubmitting]; its callback runs the
    updater, which calls [onTimeUp], the [handleTimeUp] of the page. *)
Definition pageStep (pev : PageEvent) (p : Page) : Page :=
  match pev with
  | OnPage ev =>
      let s := step ev (session p) in
      {| session := s; timer := renderTimer s (timer p) |}
  | Tick =>
      match timer p with
      | None => p
      | Some (d, t) =>
          if isSubmitting (rendered (session p)) then p
          else
            let '(t', fired) := Timer.tick t in
            let s := if fired then step TimeUp (session p) else session p in
            {| session := s; timer := renderTimer s (Some (d, t')) |}
      end
  end.

Definition runPage (pevs : list PageEvent) (p : Page) : Page :=
  foldl (λ acc pev, pageStep pev acc) p pevs.

(** Ticks, and what the page of a test with [k] questions offers besides
    submitting: selecting and clearing an answer, Next, Previous, and the
    buttons of the palette, one per question. *)
Definition calm (k : nat) (pev : PageEvent) : bool :=
  match pev with
  | Tick => true
  | OnPage (QuestionJump index) => (0 <=? index) && (index <? Z.of_nat k)
  | OnPage ev => quiet ev
  end.

Fixpoint ticksIn (pevs : list PageEvent) : nat :=
  match pevs with
  | [] => O
  | Tick :: rest => S (ticksIn rest)
  | OnPage _ :: rest => ticksIn rest
  end.

(** ** TestContext.jsx *)

Module TestContext.

Record User := {
  username : string
}.

Record Subject := {
  sb_id : Z;
  sb_name : string
}.

Record Topic := {
  tp_id : Z;
  tp_name : string
}.

#[global] Instance User_eq_dec : EqDecision User.
Proof. solve_decision. Defined.

#[global] Instance Subject_eq_dec : EqDecision Subject.
Proof. solve_decision. Defined.

#[global] Instance Topic_eq_dec : EqDecision Topic.
Proof. solve_decision. Defined.

(** The state of the reducer; [None] is [null]. *)
Record State := {
  user : option User;
  subjects : list Subject;
  topics : list Topic;
  selectedSubject : option Subject;
  selectedTopic : option Topic;
  questionCount : Z;
  testType : string;
  currentTest : option TestData;
  testResults : option ResponseData
}.

Inductive Action :=
| SET_USER (payload : option User)
| SET_SUBJECTS (payload : list Subject)
| SET_TOPICS (payload : list Topic)
| SET_SELECTED_SUBJECT (payload : option Subject)
| SET_SELECTED_TOPIC (payload : option Topic)
| SET_QUESTION_COUNT (payload : Z)
| SET_TEST_TYPE (payload : string)
| SET_CURRENT_TEST (payload : option TestData)
| SET_TEST_RESULTS (payload : option ResponseData)
| RESET_TEST
| OTHER (ty : string).       (* any other [action.type] *)

Definition testReducer (state : State) (action : Action) : State :=
  match action with
  | SET_USER payload =>
      {| user := payload; subjects := subjects state;
         topics := topics state; selectedSubject := selectedSubject state;
         selectedTopic := selectedTopic state;
         questionCount := questionCount state; testType := testType state;
         currentTest := currentTest state;
         testResults := testResults state |}
  | SET_SUBJECTS payload =>
      {| user := user state; subjects := payload;
         topics := topics state; selectedSubject := selectedSubject state;
         selectedTopic := selectedTopic state;
         questionCount := questionCount state; testType := testType state;
         currentTest := currentTest state;
         testResults := testResults state |}
  | SET_TOPICS payload =>
      {| user := user state; subjects := subjects state;
         topics := payload; selectedSubject := selectedSubject state;
         selectedTopic := selectedTopic state;
         questionCount := questionCount state; testType := testType state;
         currentTest := currentTest state;
         testResults := testResults state |}
  | SET_SELECTED_SUBJECT payload =>
      {| user := user state; subjects := subjects state;
         topics := topics state; selectedSubject := payload;
         selectedTopic := None;
         questionCount := questionCount state; testType := testType state;
         currentTest := currentTest state;
         testResults := testResults state |}
  | SET_SELECTED_TOPIC payload =>
      {| user := user state; subjects := subjects state;
         topics := topics state; selectedSubject := selectedSubject state;
         selectedTopic := payload;
         questionCount := questionCount state; testType := testType state;
         currentTest := currentTest state;
         testResults := testResults state |}
  | SET_QUESTION_COUNT payload =>
      {| user := user state; subjects := subjects state;
         topics := topics state; selectedSubject := selectedSubject state;
         selectedTopic := selectedTopic state;
         questionCount := payload; testType := testType state;
         currentTest := currentTest state;
         testResults := testResults state |}
  | SET_TEST_TYPE payload =>
      {| user := user state; subjects := subjects state;
         topics := topics state; selectedSubject := selectedSubject state;
         selectedTopic := selectedTopic state;
         questionCount := questionCount state; testType := payload;
         currentTest := currentTest state;
         testResults := testResults state |}
  | SET_CURRENT_TEST payload =>
      {| user := user state; subjects := subjects state;
         topics := topics state; selectedSubject := selectedSubject state;
         selectedTopic := selectedTopic state;
         questionCount := questionCount state; testType := testType state;
         currentTest := payload;
         testResults := testResults state |}
  | SET_TEST_RESULTS payload =>
      {| user := user state; subjects := subjects state;
         topics := topics state; selectedSubject := selectedSubject state;
         selectedTopic := selectedTopic state;
         questionCount := questionCount state; testType := testType state;
         currentTest := currentTest state;
         testResults := payload |}
  | RESET_TEST =>
      {| user := user state; subjects := subjects state;
         topics := topics state; selectedSubject := None;
         selectedTopic := None;
         questionCount := 10; testType := "topic";
         currentTest := None;
         testResults := None |}
  | OTHER _ => state
  end.

Definition initialState : State :=
  {| user := None; subjects := []; topics := [];
     selectedSubject := None; selectedTopic := None;
     questionCount := 10; testType := "topic";
     currentTest := None; testResults := None |}.

(** The reducer over a list of dispatched actions. *)
Definition dispatchAll (actions : list Action) (state : State) : State :=
  foldl testReducer state actions.

(** The actions that [RESET_TEST] does not undo. *)
Definition catalogue (action : Action) : bool :=
  match action with
  | SET_USER _ | SET_SUBJECTS _ | SET_TOPICS _ => true
  | _ => false
  end.

(** The provider: the reducer state, its [loading] cell and the ['token']
    entry of [localStorage]. *)
Record Provider := {
  state : State;
  loading : bool;
  token : option string
}.

Definition dispatch (action : Action) (p : Provider) : Provider :=
  {| state := testReducer (state p) action; loading := loading p;
     token := token p |}.

Definition setLoading (b : bool) (p : Provider) : Provider :=
  {| state := state p; loading := b; token := token p |}.

(** [localStorage.setItem('token', token)] *)
Definition setItem (tok : string) (p : Provider) : Provider :=
  {| state := state p; loading := loading p; token := Some tok |}.

(** [localStorage.removeItem('token')] *)
Definition removeItem (p : Provider) : Provider :=
  {| state := state p; loading := loading p; token := None |}.

(** [if (token)] on what [localStorage.getItem] returned: an entry that is
    present and not the empty string. *)
Definition tokenFound (tok : option string) : bool :=
  match tok with
  | Some t => negb (bool_decide (t = ""))
  | None => false
  end.

(** How [testAPI.getCurrentUser()] settles: [response.data.success] with
    [response.data.user], [response.data.success] falsy, or a rejection. *)
Inductive AuthReply :=
| Authenticated (u : option User)
| Rejected
| Failed.

(** The provider when the application starts with [tok] stored. *)
Definition boot (tok : option string) : Provider :=
  {| state := initialState; loading := true; token := tok |}.

(** [validateToken], with the reply of the back end to the request it makes
    when a token is found.  On success it reads [response.data.user.username]
    before it dispatches, which throws when the reply names no user; the
    [catch] block then runs as for a rejection. *)
Definition validateToken (reply : AuthReply) (p : Provider) : Provider :=
  setLoading false
    (if tokenFound (token p) then
       match reply with
       | Authenticated (Some u) => dispatch (SET_USER (Some u)) p
       | Authenticated None => dispatch (SET_USER None) (removeItem p)
       | Rejected => dispatch (SET_USER None) (removeItem p)
       | Failed => dispatch (SET_USER None) (removeItem p)
       end
     else dispatch (SET_USER None) p).

Definition login (userData : option User) (tok : string) (p : Provider)
  : Provider :=
  dispatch (SET_USER userData) (setItem tok p).

Definition logout (p : Provider) : Provider :=
  dispatch (SET_CURRENT_TEST None) (dispatch (SET_USER None) (removeItem p)).

(** What the components do to the provider: they call [login] and [logout]
    and dispatch actions other than [SET_USER]. *)
Inductive Op :=
| Login (userData : option User) (tok : string)
| Logout
| Dispatch (action : Action).

Definition byComponent (op : Op) : bool :=
  match op with
  | Dispatch (SET_USER _) => false
  | _ => true
  end.

Definition applyOp (op : Op) (p : Provider) : Provider :=
  match op with
  | Login userData tok => login userData tok p
  | Logout => logout p
  | Dispatch action => dispatch action p
  end.

Definition applyAll (ops : list Op) (p : Provider) : Provider :=
  foldl (λ acc op, applyOp op acc) p ops.

End TestContext.

(** ** TestSelection.jsx *)

Module Selection.

Import TestContext.

Definition handleSubjectSelect (subject : Subject) (s : State) : State :=
  testReducer (testReducer s (SET_SELECTED_SUBJECT (Some subject)))
              (SET_TEST_TYPE "topic").

Definition handleTopicSelect (topic : Topic) (s : State) : State :=
  testReducer s (SET_SELECTED_TOPIC (Some topic)).

Definition handleTestTypeChange (testType : string) (s : State) : State :=
  let s1 := testReducer s (SET_TEST_TYPE testType) in
  if bool_decide (testType ≠ "topic")
  then testReducer s1 (SET_SELECTED_TOPIC None)
  else s1.

Definition handleQuestionCountChange (count : Z) (s : State) : State :=
  testReducer s (SET_QUESTION_COUNT count).

(** The [testData] object passed to [testAPI.startTest]; [topic_id] is a
    property only when it was assigned. *)
Record StartRequest := {
  subject_id : Z;
  question_count : Z;
  topic_id : option Z
}.

(** [startTest] up to its request: the validation message it toasts, or
    the request it sends.  [c] is the render whose button was clicked. *)
Inductive Started :=
| Toasted (m : string)
| Requested (r : StartRequest).

Definition startTest (c : State) : Started :=
  match selectedSubject c with
  | None => Toasted "Please select a subject"
  | Some subject =>
      if bool_decide (testType c = "topic")
         && negb (bool_decide (is_Some (selectedTopic c)))
      then Toasted "Please select a topic"
      else
        Requested
          {| subject_id := sb_id subject;
             question_count := questionCount c;
             topic_id :=
               if bool_decide (testType c = "topic")
               then tp_id <$> selectedTopic c
               else None |}
  end.

(** The counts of the "Number of Questions" buttons. *)
Definition questionCounts : list Z := [5; 10; 15; 20; 25; 30].

(** [selectedSubject && (testType === 'subject' || selectedTopic)]: the
    condition under which the count buttons and the Start button are
    rendered. *)
Definition startShown (s : State) : bool :=
  bool_decide (is_Some (selectedSubject s))
  && (bool_decide (testType s = "subject")
      || bool_decide (is_Some (selectedTopic s))).

(** What happens on the page: the two lists arrive, and the user clicks. *)
Inductive SelEvent :=
| SubjectsLoaded (l : list Subject)
| TopicsLoaded (l : list Topic)
| SubjectClick (subject : Subject)
| TypeClick (testType : string)
| TopicClick (topic : Topic)
| CountClick (count : Z).

(** Whether the page rendered from [s] has the element that is clicked. *)
Definition offered (s : State) (ev : SelEvent) : bool :=
  match ev with
  | SubjectsLoaded _ => true
  | TopicsLoaded _ => true
  | SubjectClick subject => bool_decide (subject ∈ subjects s)
  | TypeClick ty =>
      bool_decide (is_Some (selectedSubject s))
      && bool_decide (ty ∈ ["topic"; "subject"])
  | TopicClick topic =>
      bool_decide (is_Some (selectedSubject s))
      && bool_decide (testType s = "topic")
      && bool_decide (topic ∈ topics s)
  | CountClick count =>
      startShown s && bool_decide (count ∈ questionCounts)
  end.

Definition perform (ev : SelEvent) (s : State) : State :=
  match ev with
  | SubjectsLoaded l => testReducer s (SET_SUBJECTS l)
  | TopicsLoaded l => testReducer s (SET_TOPICS l)
  | SubjectClick subject => handleSubjectSelect subject s
  | TypeClick ty => handleTestTypeChange ty s
  | TopicClick topic => handleTopicSelect topic s
  | CountClick count => handleQuestionCountChange count s
  end.

(** The actions dispatched outside this page: by the provider, by
    [TestInterface], by [TestResults], and by [startTest] when the test was
    created. *)
Definition elsewhere (action : Action) : bool :=
  match action with
  | SET_USER _ | SET_CURRENT_TEST _ | SET_TEST_RESULTS _ | RESET_TEST => true
  | _ => false
  end.

(** The states of the context that the application can be in. *)
Inductive attainable : State → Prop :=
| attainable_initial : attainable initialState
| attainable_event s ev :
    attainable s → offered s ev = true → attainable (perform ev s)
| attainable_elsewhere s action :
    attainable s → elsewhere action = true →
    attainable (testReducer s action).

(** What holds of the selection in every such state. *)
Record consistent (s : State) : Prop := {
  type_known : testType s = "topic" ∨ testType s = "subject";
  count_known : questionCount s ∈ questionCounts;
  topic_needs_subject :
    is_Some (selectedTopic s) →
    is_Some (selectedSubject s) ∧ testType s = "topic"
}.

Definition physics : Subject := {| sb_id := 1; sb_name := "Physics" |}.
Definition chemistry : Subject := {| sb_id := 2; sb_name := "Chemistry" |}.
Definition optics : Topic := {| tp_id := 11; tp_name := "Optics" |}.
Definition mechanics : Topic := {| tp_id := 12; tp_name := "Mechanics" |}.

(** Both subjects are listed, and the topics of Physics have arrived. *)
Definition physicsChosen : State :=
  perform (TopicsLoaded [optics; mechanics])
    (perform (SubjectClick physics)
       (perform (SubjectsLoaded [physics; chemistry]) initialState)).

End Selection.

(** ** TestResults.jsx and TestHistory.jsx: colours *)

(** [percentage >= k] for a percentage that may be missing ([undefined],
    [null] or [NaN]): against the positive thresholds of the two pages the
    comparison is then false. *)
Definition atLeast (percentage : option Q) (k : Z) : bool :=
  match percentage with
  | Some p => Qle_bool (inject_Z k) p
  | None => false
  end.

Module ResultsView.

Definition getScoreColor (percentage : option Q) : string :=
  if atLeast percentage 90 then "text-green-600"
  else if atLeast percentage 75 then "text-blue-600"
  else if atLeast percentage 60 then "text-yellow-600"
  else if atLeast percentage 40 then "text-orange-600"
  else "text-red-600".

(** The class of the circle in the header. *)
Definition headerBackground (scorePercentage : option Q) : string :=
  if atLeast scorePercentage 75 then "bg-green-100"
  else if atLeast scorePercentage 60 then "bg-yellow-100"
  else "bg-red-100".

Inductive HeaderIcon := Trophy | Target.

(** The icon inside the circle. *)
Definition headerIcon (scorePercentage : option Q) : HeaderIcon :=
  if atLeast scorePercentage 75 then Trophy else Target.

End ResultsView.

(** ** TestHistory.jsx *)

Module History.

Definition getGradeColor (percentage : option Q) : string :=
  if atLeast percentage 90 then "text-green-600 bg-green-50"
  else if atLeast percentage 80 then "text-blue-600 bg-blue-50"
  else if atLeast percentage 70 then "text-yellow-600 bg-yellow-50"
  else if atLeast percentage 60 then "text-orange-600 bg-orange-50"
  else "text-red-600 bg-red-50".

(** [s.split(' ')[0]] *)
Fixpoint firstWord (s : string) : string :=
  match s with
  | EmptyString => EmptyString
  | String c rest =>
      if Ascii.eqb c " " then EmptyString else String c (firstWord rest)
  end.

(** The class of the percentage on a card of the list:
    [getGradeColor(test.score_percentage).split(' ')[0]]. *)
Definition scoreClass (percentage : option Q) : string :=
  firstWord (getGradeColor percentage).

(** [analytics], as far as [getPerformanceTrend] reads it. *)
Record Analytics := {
  recent_scores : option (list Q)
}.

(** [x.toFixed(1)] of a number below [1e21]: the sign, then the digits of
    the integer [n] for which [n / 10] is nearest to the magnitude, the
    larger one of two that are equally near, with the point before the last
    digit. *)
Definition fixedDigits (x : Q) : string :=
  let n := Qfloor (x * 10 + (1 # 2)) in
  pretty (n / 10) +:+ "." +:+ pretty (n mod 10).

Definition toFixed1 (x : Q) : string :=
  if Qle_bool 0 x then fixedDigits x else "-" +:+ fixedDigits (- x).

(** The trend; [value] is the string [Math.abs(trend).toFixed(1)]. *)
Record Trend := {
  value : string;
  direction : string;
  color : string
}.

Definition getPerformanceTrend (analytics : option Analytics)
  : option Trend :=
  match analytics with
  | None => None
  | Some a =>
      match recent_scores a with
      | None => None
      | Some recent =>
          if (length recent <? 2)%nat then None
          else
            match recent !! (length recent - 1)%nat,
                  recent !! (length recent - 2)%nat with
            | Some lastScore, Some prevScore =>
                let trend := (lastScore - prevScore)%Q in
                let up := negb (Qle_bool trend 0) in
                let down := negb (Qle_bool 0 trend) in
                Some {| value := toFixed1 (Qabs trend);
                        direction :=
                          if up then "up"
                          else if down then "down" else "stable";
                        color :=
                          if up then "text-green-600"
                          else if down then "text-red-600"
                          else "text-gray-600" |}
            | _, _ => None
            end
      end
  end.



(** An entry of [testHistory], as far as the filter reads it. *)
Record HistoryTest := {
  test_name : option string;
  subject : option string;
  score_percentage : option Q
}.

(** [s.includes(sub)] *)
Fixpoint includes (s sub : string) : bool :=
  String.prefix sub s
  || match s with
     | EmptyString => false
     | String _ rest => includes rest sub
     end.

(** [toLowerCase] on text of the ASCII range. *)
Definition lowerChar (c : ascii) : ascii :=
  let n := nat_of_ascii c in
  if (65 <=? n)%nat && (n <=? 90)%nat then ascii_of_nat (n + 32) else c.

Fixpoint asciiLowerCase (s : string) : string :=
  match s with
  | EmptyString => EmptyString
  | String c rest => String (lowerChar c) (asciiLowerCase rest)
  end.

Section Filter.

(** [String.prototype.toLowerCase] *)
Variable toLowerCase : string → string.

Definition matchesFilter (filter : string) (test : HistoryTest) : bool :=
  bool_decide (filter = "all")
  || match subject test with
     | Some sj => bool_decide (toLowerCase sj = toLowerCase filter)
     | None => false
     end.

Definition matchesSearch (searchTerm : string) (test : HistoryTest) : bool :=
  match test_name test with
  | Some name => includes (toLowerCase name) (toLowerCase searchTerm)
  | None => false
  end
  || match subject test with
     | Some sj => includes (toLowerCase sj) (toLowerCase searchTerm)
     | None => false
     end.

Definition filteredTests (filter searchTerm : string)
    (testHistory : list HistoryTest) : list HistoryTest :=
  List.filter
    (λ test, matchesFilter filter test && matchesSearch searchTerm test)
    testHistory.

End Filter.

Definition sampleHistory : list HistoryTest :=
  [ {| test_name := Some "Optics Drill"; subject := Some "Physics";
       score_percentage := Some (82 # 1) |};
    {| test_name := None; subject := None;
       score_percentage := Some (65 # 1) |};
    {| test_name := None; subject := Some "Chemistry";
       score_percentage := None |} ].

End History.

(** * Proofs *)

(** ** Property keys *)

Lemma pretty_N_go_head_not_u (x : N) (s : string) :
  (∀ t, s ≠ String "u"%char t) → ∀ t, pretty_N_go x s ≠ String "u"%char t.
Proof.
  revert s. induction (N.lt_wf_0 x) as [x _ IH]; intros s Hs t.
  destruct (decide (x = 0)%N) as [->|Hx].
  - rewrite pretty_N_go_0. apply Hs.
  - rewrite pretty_N_go_step by lia. apply IH.
    + apply N.div_lt; lia.
    + intros t'. unfold pretty_N_char. by repeat case_match.
Qed.

Lemma pretty_Z_not_undefined (n : Z) : pretty n ≠ "undefined".
Proof.
  destruct n as [|p|p]; [done| |done].
  unfold pretty, pretty_Z, pretty, pretty_positive, pretty, pretty_N.
  case_decide; [done|].
  apply pretty_N_go_head_not_u. done.
Qed.

Lemma toKey_inj (a b : JS.value) : JS.toKey a = JS.toKey b → a = b.
Proof.
  destruct a as [x|], b as [y|]; simpl; intros H.
  - f_equal. by apply (inj pretty).
  - by apply pretty_Z_not_undefined in H.
  - symmetry in H. by apply pretty_Z_not_undefined in H.
  - done.
Qed.

(** ** The payload *)

Lemma answerFor_id (answers : AnswerMap) (q : Question) :
  answers_keyed answers →
  ans_question_id (answerFor answers q) = questionIdOf q.
Proof.
  intros Hk. unfold answerFor.
  destruct (answers !! JS.toKey (questionIdOf q)) as [a|] eqn:E; [|done].
  apply toKey_inj. by apply Hk.
Qed.

Lemma answersArray_ids (questions : list Question) (answers : AnswerMap) :
  answers_keyed answers →
  ans_question_id <$> answersArray questions answers
  = questionIdOf <$> questions.
Proof.
  intros Hk. unfold answersArray. rewrite <- list_fmap_compose.
  apply list_fmap_ext. intros i q _. by apply answerFor_id.
Qed.

Lemma answers_keyed_empty : answers_keyed ∅.
Proof. intros k a H. by rewrite lookup_empty in H. Qed.

Lemma answers_keyed_insert (answers : AnswerMap) (a : Answer) :
  answers_keyed answers →
  answers_keyed (<[JS.toKey (ans_question_id a) := a]> answers).
Proof.
  intros Hk k b H. apply lookup_insert_Some in H as [[<- <-]|[_ H]]; [done|].
  by apply Hk.
Qed.

Lemma answers_keyed_delete (answers : AnswerMap) (k : string) :
  answers_keyed answers → answers_keyed (delete k answers).
Proof.
  intros Hk k' b H. apply lookup_delete_Some in H as [_ H]. by apply Hk.
Qed.

(** The array that [questions.map] builds from a list of questions and an
    answers object has exactly one entry per question, in order, carrying
    that question's identifier; with pairwise distinct identifiers no
    identifier occurs twice; a question without an entry in the object is
    present with answer [''] and time_taken [0]; a question with an entry
    carries that entry. *)
Lemma answersArray_one_entry_per_question
    (questions : list Question) (answers : AnswerMap) :
  answers_keyed answers →
  let payload := answersArray questions answers in
  length payload = length questions
  ∧ ans_question_id <$> payload = questionIdOf <$> questions
  ∧ (NoDup (questionIdOf <$> questions) → NoDup (ans_question_id <$> payload))
  ∧ (∀ (i : nat) q, questions !! i = Some q →
       answers !! JS.toKey (questionIdOf q) = None →
       payload !! i = Some {| ans_question_id := questionIdOf q;
                              ans_answer := "";
                              ans_time_taken := 0 |})
  ∧ (∀ (i : nat) q a, questions !! i = Some q →
       answers !! JS.toKey (questionIdOf q) = Some a →
       payload !! i = Some a).
Proof.
  intros Hk payload. subst payload. repeat split.
  - unfold answersArray. by rewrite length_fmap.
  - by apply answersArray_ids.
  - intros Hnd. by rewrite answersArray_ids.
  - intros i q Hq Hnone. unfold answersArray.
    rewrite list_lookup_fmap, Hq. simpl. unfold answerFor. by rewrite Hnone.
  - intros i q a Hq Hsome. unfold answersArray.
    rewrite list_lookup_fmap, Hq. simpl. unfold answerFor. by rewrite Hsome.
Qed.

(** ** The timer *)

Section TimerFacts.
Import Timer.

Lemma tick_latched (t : state) :
  timeUpCalledRef t = true →
  snd (tick t) = false ∧ timeUpCalledRef (fst (tick t)) = true.
Proof.
  intros H. unfold tick. rewrite H, andb_false_r.
  destruct (timeLeft t <=? 1); split; (reflexivity || exact H).
Qed.

Lemma ticks_S (n : nat) (t : state) :
  ticks (S n) t
  = (fst (ticks n (fst (tick t))),
     ((if snd (tick t) then 1 else 0) + snd (ticks n (fst (tick t))))%nat).
Proof.
  cbn [ticks]. destruct (tick t) as [t1 f]. cbn [fst snd].
  destruct (ticks n t1); reflexivity.
Qed.

Lemma ticks_latched (n : nat) (t : state) :
  timeUpCalledRef t = true → snd (ticks n t) = 0%nat.
Proof.
  revert t. induction n as [|n IH]; intros t H; [done|].
  rewrite ticks_S. destruct (tick_latched t H) as [Hf Hl].
  cbn [snd]. by rewrite Hf, (IH _ Hl).
Qed.

Lemma tick_timeLeft (t : state) :
  timeLeft (fst (tick t)) = if timeLeft t <=? 1 then 0 else timeLeft t - 1.
Proof.
  unfold tick. destruct (timeLeft t <=? 1), (timeUpCalledRef t); reflexivity.
Qed.

Lemma tick_fires (t : state) :
  timeUpCalledRef t = false →
  snd (tick t) = (timeLeft t <=? 1)
  ∧ timeUpCalledRef (fst (tick t)) = (timeLeft t <=? 1).
Proof.
  intros H. unfold tick. rewrite H. destruct (timeLeft t <=? 1); split; reflexivity.
Qed.

Lemma ticks_count (n : nat) (t : state) :
  timeUpCalledRef t = false → 1 ≤ timeLeft t →
  snd (ticks n t) = if timeLeft t <=? Z.of_nat n then 1%nat else 0%nat.
Proof.
  revert t. induction n as [|n IH]; intros t Hl Hd.
  - cbn [ticks snd]. destruct (Z.leb_spec (timeLeft t) (Z.of_nat 0)); [lia|done].
  - rewrite ticks_S. cbn [snd]. destruct (tick_fires t Hl) as [Hf Hr].
    pose proof (tick_timeLeft t) as Ht. rewrite Hf.
    destruct (Z.leb_spec (timeLeft t) 1) as [H1|H1].
    + rewrite (ticks_latched n _ Hr).
      destruct (Z.leb_spec (timeLeft t) (Z.of_nat (S n))); [done|lia].
    + rewrite (IH _ Hr) by lia. rewrite Ht.
      destruct (Z.leb_spec (timeLeft t - 1) (Z.of_nat n)),
        (Z.leb_spec (timeLeft t) (Z.of_nat (S n))); (done || lia).
Qed.

Lemma ticks_timeLeft (n : nat) (t : state) :
  0 ≤ timeLeft t →
  timeLeft (fst (ticks n t)) = Z.max 0 (timeLeft t - Z.of_nat n).
Proof.
  revert t. induction n as [|n IH]; intros t H.
  - cbn [ticks fst]. lia.
  - rewrite ticks_S. cbn [fst]. pose proof (tick_timeLeft t) as Ht.
    rewrite IH; rewrite Ht; destruct (Z.leb_spec (timeLeft t) 1); lia.
Qed.

End TimerFacts.

(** C5.  A timer mounted with a duration [d >= 1] calls [onTimeUp] exactly
    once: after [n] runs of the interval callback the number of calls is 1
    when [n >= d] and 0 before.  With duration 1 the first run sets
    [timeLeft] to 0 and makes the call; once the latch [timeUpCalledRef] is
    set no number of further runs makes another call; the effect on
    [duration] clears the latch. *)
Theorem C5_timer_fires_exactly_once (d : Z) :
  1 ≤ d →
  (∀ n : nat, snd (Timer.ticks n (Timer.mount d))
              = if d <=? Z.of_nat n then 1%nat else 0%nat)
  ∧ Timer.tick (Timer.mount 1)
    = ({| Timer.timeLeft := 0; Timer.timeUpCalledRef := true |}, true)
  ∧ (∀ (t : Timer.state) (n : nat),
       Timer.timeUpCalledRef t = true → snd (Timer.ticks n t) = 0%nat)
  ∧ (∀ (d' : Z) (t : Timer.state),
       Timer.timeUpCalledRef (Timer.setDuration d' t) = false
       ∧ Timer.timeLeft (Timer.setDuration d' t) = d').
Proof.
  intros Hd. repeat split.
  - intros n. by apply (ticks_count n (Timer.mount d)).
  - intros t n. apply ticks_latched.
Qed.

Lemma C5_witness :
  1 ≤ 3 ∧ snd (Timer.ticks 2 (Timer.mount 3)) = 0%nat
  ∧ snd (Timer.ticks 3 (Timer.mount 3)) = 1%nat
  ∧ snd (Timer.ticks 9 (Timer.mount 3)) = 1%nat.
Proof.
  assert (1 ≤ 3) as H by lia.
  destruct (C5_timer_fires_exactly_once 3 H) as [Hn _].
  split; [exact H|].
  split; [exact (Hn 2%nat)|]. split; [exact (Hn 3%nat)|exact (Hn 9%nat)].
Defined.

(** C10.  Starting from a duration [d >= 0], [timeLeft] is never negative:
    after [n] runs of the interval callback it is [max 0 (d - n)].  A run on a
    non-negative [timeLeft] either decrements it by one or holds it at 0, and
    from 0 every later run leaves it at 0. *)
Theorem C10_timeLeft_never_negative (d : Z) :
  0 ≤ d →
  (∀ n : nat, 0 ≤ Timer.timeLeft (fst (Timer.ticks n (Timer.mount d))))
  ∧ (∀ n : nat, Timer.timeLeft (fst (Timer.ticks n (Timer.mount d)))
                = Z.max 0 (d - Z.of_nat n))
  ∧ (∀ t : Timer.state, 0 ≤ Timer.timeLeft t →
       let t' := fst (Timer.tick t) in
       0 ≤ Timer.timeLeft t'
       ∧ (Timer.timeLeft t' = Timer.timeLeft t - 1
          ∨ (Timer.timeLeft t = 0 ∧ Timer.timeLeft t' = 0)))
  ∧ (∀ (t : Timer.state) (n : nat), Timer.timeLeft t = 0 →
       Timer.timeLeft (fst (Timer.ticks n t)) = 0).
Proof.
  intros Hd. split; [|split; [|split]].
  - intros n. rewrite (ticks_timeLeft n (Timer.mount d)); simpl; lia.
  - intros n. by rewrite (ticks_timeLeft n (Timer.mount d)).
  - intros t Ht. simpl. rewrite tick_timeLeft.
    destruct (Z.leb_spec (Timer.timeLeft t) 1); lia.
  - intros t n Ht. rewrite ticks_timeLeft by lia. lia.
Qed.

Lemma C10_witness :
  0 ≤ 2 ∧ Timer.timeLeft (fst (Timer.ticks 5 (Timer.mount 2))) = 0.
Proof.
  assert (0 ≤ 2) as H by lia.
  destruct (C10_timeLeft_never_negative 2 H) as (_ & Hn & _).
  split; [exact H|exact (Hn 5%nat)].
Defined.

(** ** Submitting *)

Lemma handleSubmitTest_started c autoSubmit confirmed s :
  submissionStartedRef s = true →
  handleSubmitTest c autoSubmit confirmed s = s.
Proof.
  intros H. unfold handleSubmitTest. by rewrite H, !orb_true_r.
Qed.

Lemma handleTimeUp_started c s :
  submissionStartedRef s = true → handleTimeUp c s = s.
Proof. intros H. unfold handleTimeUp. by rewrite H, !orb_true_r. Qed.

Lemma fire_started ct s : submissionStartedRef s = true → fire ct s = s.
Proof.
  intros H. destruct ct as [c [confirmed| |]]; simpl;
    auto using handleSubmitTest_started, handleTimeUp_started.
Qed.

(** What a call of [handleSubmitTest] can do: nothing to the calls made, or
    one more call with the flag raised in the same synchronous run. *)
Lemma handleSubmitTest_calls c autoSubmit confirmed s :
  let s' := handleSubmitTest c autoSubmit confirmed s in
  (submitCalls s' = submitCalls s
   ∧ submissionStartedRef s' = submissionStartedRef s)
  ∨ (submissionStartedRef s = false
     ∧ submissionStartedRef s' = true
     ∧ isSubmitting (st s') = true
     ∧ submitCalls s'
       = submitCalls s ++ [{| req_testId := testId c;
                              req_answers := answersArray (questions c) (answers c);
                              req_questions := questions c |}]
     ∧ awaiting s' = awaiting s ++ [autoSubmit]).
Proof.
  unfold handleSubmitTest.
  destruct (isSubmitting c || testSubmitted c || submissionStartedRef s) eqn:G;
    [by left|].
  destruct (negb autoSubmit && (size (answers c) =? 0)%nat); [by left|].
  destruct (negb autoSubmit && negb confirmed); [by left|].
  right. apply orb_false_iff in G as [_ G]. by rewrite G.
Qed.

Lemma fire_calls ct s :
  submitCalls (fire ct s) = submitCalls s
  ∨ (submissionStartedRef s = false
     ∧ submissionStartedRef (fire ct s) = true
     ∧ isSubmitting (st (fire ct s)) = true
     ∧ length (submitCalls (fire ct s)) = S (length (submitCalls s))).
Proof.
  destruct ct as [c [confirmed| |]]; simpl.
  - destruct (handleSubmitTest_calls c false confirmed s) as [[H _]|(?&?&?&H&?)];
      [by left|right]. rewrite H, length_app. simpl. repeat split; (done || lia).
  - unfold handleTimeUp.
    destruct (timeUp c || isSubmitting c || testSubmitted c
              || submissionStartedRef s) eqn:G; [by left|].
    apply orb_false_iff in G as [_ G].
    match goal with |- context [handleSubmitTest c true false ?s0] =>
      destruct (handleSubmitTest_calls c true false s0) as [[H _]|(?&?&?&H&?)] end;
      [by left|right]. rewrite H, length_app. simpl. repeat split; (done || lia).
  - destruct (handleSubmitTest_calls c true false s) as [[H _]|(?&?&?&H&?)];
      [by left|right]. rewrite H, length_app. simpl. repeat split; (done || lia).
Qed.

Lemma fireAll_started l s : submissionStartedRef s = true → fireAll l s = s.
Proof.
  revert s. induction l as [|ct l IH]; intros s H; [done|].
  unfold fireAll in *. simpl. rewrite (fire_started ct s H). by apply IH.
Qed.

Lemma fireAll_calls l s :
  (length (submitCalls (fireAll l s)) ≤ S (length (submitCalls s)))%nat.
Proof.
  revert s. induction l as [|ct l IH]; intros s; [simpl; lia|].
  change (fireAll (ct :: l) s) with (fireAll l (fire ct s)).
  destruct (fire_calls ct s) as [H|(_ & Hr & _ & H)].
  - specialize (IH (fire ct s)). by rewrite H in IH.
  - rewrite (fireAll_started l _ Hr). lia.
Qed.

(** C1.  Whatever submit triggers fire, in whatever order and from whatever
    renders their handlers stem, at most one more [testAPI.submitTest] call
    is made, and at most one in a session that has made none.  A trigger
    that makes the call has raised [submissionStartedRef] and [isSubmitting]
    in the same synchronous run, before the call is awaited; and a trigger
    that finds the flag raised returns without any effect. *)
Theorem C1_at_most_one_submission (l : list (RState * Trigger)) (s : Session) :
  (length (submitCalls (fireAll l s)) ≤ S (length (submitCalls s)))%nat
  ∧ (submitCalls s = [] → (length (submitCalls (fireAll l s)) ≤ 1)%nat)
  ∧ (∀ ct s0, submitCalls (fire ct s0) ≠ submitCalls s0 →
       submissionStartedRef (fire ct s0) = true
       ∧ isSubmitting (st (fire ct s0)) = true)
  ∧ (∀ ct s0, submissionStartedRef s0 = true → fire ct s0 = s0).
Proof.
  split; [apply fireAll_calls|]. split; [|split].
  - intros H. pose proof (fireAll_calls l s) as Hl. rewrite H in Hl. exact Hl.
  - intros ct s0 Hne. destruct (fire_calls ct s0) as [H|(_ & ? & ? & _)]; done.
  - apply fire_started.
Qed.

Lemma C1_witness :
  submitCalls answeredSession = []
  ∧ (length (submitCalls
       (fireAll [(st answeredSession, Manual true);
                 (st answeredSession, Timeout);
                 (st sampleSession, ForcedViolation);
                 (st answeredSession, Manual true)] answeredSession)) ≤ 1)%nat.
Proof.
  split; [reflexivity|].
  apply (C1_at_most_one_submission _ answeredSession). reflexivity.
Defined.




(** ** Settling the submission *)

(** A failed manual submission, thrown or refused, rolls the flags back and
    leaves the session on the test page, not submitted. *)
Lemma resumeSubmitTest_manual_failure c r s :
  (∀ d, r = Resolved d → success d = false) →
  let s' := resumeSubmitTest c false r s in
  submissionStartedRef s' = false
  ∧ isSubmitting (st s') = false
  ∧ testSubmitted (st s') = testSubmitted (st s)
  ∧ route s' = route s
  ∧ submitCalls s' = submitCalls s.
Proof.
  intros Hd. destruct r as [d|]; simpl; [|done].
  by rewrite (Hd d eq_refl).
Qed.

(** An automatic submission whose call throws still ends on the results
    page, submitted, with the flag left raised. *)
Lemma resumeSubmitTest_auto_thrown c s :
  let s' := resumeSubmitTest c true Thrown s in
  submissionStartedRef s' = submissionStartedRef s
  ∧ isSubmitting (st s') = isSubmitting (st s)
  ∧ testSubmitted (st s') = true
  ∧ route s' = ResultsPage (testId c).
Proof. done. Qed.

(** C3, at the failing input.  When the server answers an automatic
    submission with [success: false], the [else] branch runs whatever
    [autoSubmit] is: the flag and [isSubmitting] are rolled back, the test
    is not marked submitted and the page is not left.  So after the timer
    ran out and the server refused, the session sits on the test page with
    [timeUp] set, not submitting and not submitted. *)
Theorem C3_refused_auto_submit_rolls_back
    (c : RState) (m : option string) (s : Session) :
  (let s' := resumeSubmitTest c true
               (Resolved {| success := false; message := m |}) s in
   submissionStartedRef s' = false
   ∧ isSubmitting (st s') = false
   ∧ testSubmitted (st s') = testSubmitted (st s)
   ∧ route s' = route s)
  ∧ (let s' := run [TimeUp; Settled refused] sampleSession in
     submissionStartedRef s' = false
     ∧ isSubmitting (st s') = false
     ∧ testSubmitted (st s') = false
     ∧ timeUp (st s') = true
     ∧ route s' = TestPage
     ∧ length (submitCalls s') = 1%nat).
Proof. split; [done|]. vm_compute. done. Qed.

(** ** Selecting answers and moving the cursor *)

(** C7, as the code has it.  [handleAnswerSelect] does not look at
    [testSubmitted] or [isSubmitting]: whenever the current question exists
    it stores the chosen option under that question's key, replacing any
    earlier choice, and changes nothing else; the answers of the other
    questions stay as they are.  Selecting again for the same question
    leaves only the later option. *)
Theorem C7_select_answer_upserts
    (c : RState) (renderNow now : Z) (optionKey : string) (q : Question)
    (s : Session) :
  currentQuestion c = Some q →
  let key := JS.toKey (questionIdOf q) in
  let chosen := {| ans_question_id := questionIdOf q;
                   ans_answer := optionKey;
                   ans_time_taken := (now - testStartTime c renderNow) / 1000 |} in
  ∃ s', handleAnswerSelect c renderNow now optionKey s = Some s'
    ∧ answers (st s') !! key = Some chosen
    ∧ (∀ k, k ≠ key → answers (st s') !! k = answers (st s) !! k)
    ∧ st s' = setAnswers (λ _, <[key := chosen]> (answers (st s))) (st s)
    ∧ write (λ _, st s) s' = s
    ∧ (∀ renderNow2 now2 optionKey2 s'',
         handleAnswerSelect c renderNow2 now2 optionKey2 s' = Some s'' →
         ans_answer <$> answers (st s'') !! key = Some optionKey2).
Proof.
  intros Hq key chosen. unfold handleAnswerSelect. rewrite Hq.
  eexists. split; [reflexivity|]. simpl. repeat split.
  - apply lookup_insert_eq.
  - intros k Hk. by apply lookup_insert_ne.
  - by destruct s.
  - intros r2 n2 k2 s'' [= <-]. simpl. by rewrite lookup_insert_eq.
Qed.

Lemma C7_witness :
  currentQuestion (rendered answeredSession) = Some (sampleQuestion 1)
  ∧ ∃ s', handleAnswerSelect (rendered answeredSession) 0 9000 "B"
            answeredSession = Some s'
          ∧ ans_answer <$> answers (st s') !! "1" = Some "B".
Proof.
  split; [reflexivity|].
  destruct (C7_select_answer_upserts (rendered answeredSession) 0 9000 "B"
              (sampleQuestion 1) answeredSession eq_refl)
    as (s' & H1 & H2 & _).
  exists s'. split; [exact H1|].
  change "1" with (JS.toKey (questionIdOf (sampleQuestion 1))).
  rewrite H2. reflexivity.
Defined.

(** C7 fails as stated: in a submitted session, selecting B for the first
    question replaces the recorded A.  The same happens on the test page
    while the submission is awaited. *)
Lemma C7_counterexample :
  testSubmitted (st submittedSession) = true
  ∧ ans_answer <$> answers (st submittedSession) !! "1" = Some "A"
  ∧ ans_answer <$>
      answers (st (step (AnswerSelect 0 9000 "B") submittedSession)) !! "1"
    = Some "B"
  ∧ answers (st (step (AnswerSelect 0 9000 "B") submittedSession))
    ≠ answers (st submittedSession)
  ∧ isSubmitting (st submittingSession) = true
  ∧ route submittingSession = TestPage
  ∧ ans_answer <$>
      answers (st (step (AnswerSelect 0 9000 "B") submittingSession)) !! "1"
    = Some "B".
Proof.
  split; [reflexivity|]. split; [reflexivity|]. split; [reflexivity|].
  split; [|repeat split; reflexivity].
  intros H. apply (f_equal (λ m : AnswerMap, ans_answer <$> m !! "1")) in H.
  vm_compute in H. discriminate H.
Qed.

Lemma handleNext_inRange (s : Session) :
  inRange (st s) → inRange (st (handleNext (st s) s)).
Proof.
  unfold inRange, handleNext.
  destruct (Z.ltb_spec (currentQuestionIndex (st s))
              (Z.of_nat (length (questions (st s))) - 1)); simpl; lia.
Qed.

Lemma handlePrevious_inRange (s : Session) :
  inRange (st s) → inRange (st (handlePrevious (st s) s)).
Proof.
  unfold inRange, handlePrevious.
  destruct (Z.gtb_spec (currentQuestionIndex (st s)) 0); simpl; lia.
Qed.

(** C8, as the code has it.  Navigation moves the question cursor and
    nothing else, so the answers are never touched.  [handleQuestionJump]
    stores the index it is given, unclamped: the cursor is in range afterwards
    exactly when the index was.  [handleNext] and [handlePrevious] keep a
    cursor that is in range in range. *)
Theorem C8_navigation_moves_only_the_cursor (index : Z) (s : Session) :
  (∀ s', s' = handleQuestionJump index s ∨ s' = handleNext (st s) s
         ∨ s' = handlePrevious (st s) s →
     answers (st s') = answers (st s)
     ∧ write (setCurrentQuestionIndex (λ _, currentQuestionIndex (st s))) s'
       = s)
  ∧ currentQuestionIndex (st (handleQuestionJump index s)) = index
  ∧ (inRange (st (handleQuestionJump index s))
     ↔ 0 ≤ index ≤ Z.of_nat (length (questions (st s))) - 1)
  ∧ (inRange (st s) →
     inRange (st (handleNext (st s) s))
     ∧ inRange (st (handlePrevious (st s) s))).
Proof.
  split; [|split; [done|split; [done|]]].
  - intros s' [->|[->| ->]]; unfold handleQuestionJump, handleNext, handlePrevious;
      repeat case_match; by destruct s as [[] ? ? ? ? ? ? ? ?].
  - intros H. split; [by apply handleNext_inRange|by apply handlePrevious_inRange].
Qed.

Lemma C8_witness :
  inRange (st sampleSession)
  ∧ inRange (st (handleNext (st sampleSession) sampleSession))
  ∧ inRange (st (handlePrevious (st sampleSession) sampleSession)).
Proof.
  assert (inRange (st sampleSession)) as H by (vm_compute; split; discriminate).
  split; [exact H|].
  apply (C8_navigation_moves_only_the_cursor 0 sampleSession). exact H.
Defined.

(** C8 fails as stated: jumping to index 7 in a test of three questions
    leaves the cursor at 7, outside [0, 2]. *)
Lemma C8_counterexample :
  length (questions (st sampleSession)) = 3%nat
  ∧ currentQuestionIndex (st (handleQuestionJump 7 sampleSession)) = 7
  ∧ ¬ inRange (st (handleQuestionJump 7 sampleSession)).
Proof.
  split; [reflexivity|]. split; [reflexivity|].
  unfold inRange. vm_compute. intros [_ H]. by apply H.
Qed.

(** ** The invariant *)

Lemma commit_stable s :
  coherent s → answers_keyed (answers (rendered s)) → stable (commit s).
Proof.
  intros [Hr Hs Ha Hk Hl] Hkr. split; [|done].
  split; simpl; try done.
  case_decide as Hd.
  - destruct (listener s) as [c|].
    + destruct Hl as (Hc & ? & ? & ?). repeat split; try done. congruence.
    + unfold focusDeps in Hd. congruence.
  - unfold installListeners.
    destruct (testSubmitted (st s)) eqn:Et, (isSubmitting (st s)) eqn:Ei;
      simpl; try done. by apply Hs.
Qed.

Lemma mount_stable tid currentTest : stable (mount tid currentTest).
Proof.
  unfold mount. apply commit_stable; [|apply answers_keyed_empty].
  split; simpl; done.
Qed.

(** Handlers do not touch what the last render installed. *)
Lemma handle_rendered ev s :
  rendered (handle ev s) = rendered s ∧ listener (handle ev s) = listener s.
Proof.
  destruct ev; simpl;
    unfold handleAnswerSelect, handleClearAnswer, handleNext, handlePrevious,
      handleQuestionJump, handleTimeUp, handleVisibilityChange, handleBlur,
      resumeSubmitTest, handleSubmitTest;
    repeat case_match; simplify_eq/=; done.
Qed.

Lemma handleSubmitTest_coherent c autoSubmit confirmed s :
  coherent s →
  isSubmitting c = isSubmitting (st s) →
  testSubmitted c = testSubmitted (st s) →
  coherent (handleSubmitTest c autoSubmit confirmed s).
Proof.
  intros Hc Hi Ht. pose proof Hc as [Hr Hs Ha Hk Hl]. unfold handleSubmitTest.
  rewrite Hi, Ht, Hr.
  destruct (isSubmitting (st s)) eqn:Ei; [done|].
  destruct (testSubmitted (st s)) eqn:Et; [by specialize (Hs eq_refl)|].
  simpl.
  destruct (negb autoSubmit && (size (answers c) =? 0)%nat).
  { split; simpl; rewrite ?Ei, ?Et; done. }
  destruct (negb autoSubmit && negb confirmed); [done|].
  split; simpl; rewrite ?Et; try done.
  rewrite length_app, Ha. done.
Qed.

Lemma focus_coherent (viaBlur : bool) c hidden s :
  coherent s → listener s = Some c → rendered s = st s →
  coherent ((if viaBlur then handleBlur else handleVisibilityChange)
              c hidden s).
Proof.
  intros Hc Hl Hrs.
  pose proof (coherent_listener s Hc) as Hlis. rewrite Hl, Hrs in Hlis.
  destruct Hlis as (Hdeps & Hi & Ht & _).
  assert (isSubmitting (st s) = false ∧ testSubmitted (st s) = false)
    as [Hi' Ht'] by (unfold focusDeps in Hdeps; split; congruence).
  assert (∀ n t, coherent (toast t (write (setWarningCount n) s))) as Hw.
  { intros n t. destruct Hc. split; simpl; done. }
  assert (∀ n, coherent (write (setWarningCount n) s)) as Hw'.
  { intros n. destruct Hc. split; simpl; done. }
  destruct viaBlur; unfold handleVisibilityChange, handleBlur.
  all: match goal with |- coherent (if ?b then _ else _) =>
         destruct b; [|done] end.
  all: destruct (warningCount c + 1 =? 1); [apply Hw|].
  all: destruct (warningCount c + 1 =? 2); [apply Hw|].
  all: destruct (warningCount c + 1 >? MAX_WARNINGS); [|apply Hw'].
  all: apply handleSubmitTest_coherent; [apply Hw|simpl; congruence..].
Qed.

Lemma handle_coherent ev s : stable s → coherent (handle ev s).
Proof.
  intros [Hc Hrs]. pose proof Hc as [Hr Hs Ha Hk Hl].
  destruct ev; simpl.
  - (* AnswerSelect *)
    unfold handleAnswerSelect. destruct (currentQuestion (rendered s)); [|done].
    simpl. split; simpl; try done.
    match goal with |- answers_keyed (<[_ := ?a]> _) =>
      apply (answers_keyed_insert _ a Hk) end.
  - (* ClearAnswer *)
    unfold handleClearAnswer. destruct (currentQuestion (rendered s)); [|done].
    simpl. split; simpl; try done. by apply answers_keyed_delete.
  - unfold handleNext. destruct (_ <? _); [|done]. split; simpl; done.
  - unfold handlePrevious. destruct (_ >? _); [|done]. split; simpl; done.
  - unfold handleQuestionJump. split; simpl; done.
  - apply handleSubmitTest_coherent; [done|by rewrite Hrs..].
  - (* TimeUp *)
    unfold handleTimeUp, handleSubmitTest. rewrite Hrs, Hr.
    destruct (timeUp (st s)); [done|].
    destruct (isSubmitting (st s)) eqn:Ei; [done|].
    destruct (testSubmitted (st s)) eqn:Et; [by specialize (Hs eq_refl)|].
    simpl. rewrite Hr. split; simpl; try done.
    by rewrite Et, length_app, Ha.
  - destruct (listener s) as [c|] eqn:El; [|done].
    by apply (focus_coherent false).
  - destruct (listener s) as [c|] eqn:El; [|done].
    by apply (focus_coherent true).
  - (* Settled *)
    destruct (awaiting s) as [|autoSubmit rest] eqn:Ea; [done|].
    simpl in Ha.
    destruct (isSubmitting (st s)) eqn:Ei; [|done].
    destruct (testSubmitted (st s)) eqn:Et; [done|].
    simpl in Ha. assert (rest = []) as -> by by destruct rest.
    unfold resumeSubmitTest.
    destruct r as [d|]; [destruct (success d)|destruct autoSubmit];
      split; simpl; try done; try (by rewrite Ei); by rewrite Et.
Qed.

Lemma step_stable ev s : stable s → stable (step ev s).
Proof.
  intros H. unfold step. apply commit_stable; [by apply handle_coherent|].
  destruct (handle_rendered ev s) as [-> _]. destruct H as [Hc ->].
  apply Hc.
Qed.

Lemma reachable_stable tid currentTest s :
  reachable tid currentTest s → stable s.
Proof.
  induction 1; [apply mount_stable|by apply step_stable].
Qed.

(** A re-render without any change re-registers nothing. *)
Lemma commit_id s : rendered s = st s → commit s = s.
Proof.
  intros H. unfold commit. destruct s; simpl in *; subst.
  by rewrite decide_True.
Qed.

(** ** The focus listeners *)

(** While a submission is under way or done, no focus listener is
    registered. *)
Lemma submitting_no_listener s :
  stable s → isSubmitting (st s) = true ∨ testSubmitted (st s) = true →
  listener s = None.
Proof.
  intros [Hc Hrs] H.
  assert (isSubmitting (st s) = true) as Hi.
  { destruct H as [H|H]; [done|by apply (coherent_submitted s Hc)]. }
  pose proof (coherent_listener s Hc) as Hl.
  destruct (listener s) as [c|]; [|done].
  destruct Hl as (Hd & Hic & _). rewrite Hrs in Hd.
  unfold focusDeps in Hd. congruence.
Qed.

Lemma focus_frozen s evs :
  stable s → isSubmitting (st s) = true ∨ testSubmitted (st s) = true →
  Forall (λ e, focusEvent e = true) evs → run evs s = s.
Proof.
  intros Hs H Hevs. induction Hevs as [|ev evs Hev _ IH]; [done|].
  assert (step ev s = s) as Hstep.
  { unfold step. pose proof (submitting_no_listener s Hs H) as Hl.
    destruct ev; try done; simpl; rewrite Hl; apply commit_id, Hs. }
  unfold run in *. simpl. by rewrite Hstep.
Qed.

(** While the test is in progress, the registered listeners stem from a
    render with the current warning count. *)
Lemma monitoring_listener s :
  stable s → isSubmitting (st s) = false → testSubmitted (st s) = false →
  ∃ c, listener s = Some c
       ∧ warningCount c = warningCount (st s)
       ∧ isSubmitting c = false ∧ testSubmitted c = false
       ∧ submissionStartedRef s = false.
Proof.
  intros [Hc Hrs] Hi Ht.
  pose proof (coherent_listener s Hc) as Hl.
  pose proof (coherent_ref s Hc) as Hr.
  destruct (listener s) as [c|]; [|congruence].
  destruct Hl as (Hd & Hic & Htc & _). rewrite Hrs in Hd.
  exists c. unfold focusDeps in Hd. repeat split; congruence.
Qed.

(** A focus loss while the test is in progress. *)
Lemma focus_loss_step s ev :
  stable s → focusLoss ev = true →
  isSubmitting (st s) = false → testSubmitted (st s) = false →
  let s' := step ev s in
  let n := warningCount (st s) + 1 in
  warningCount (st s') = n
  ∧ (n = 1 → toasts s' = toasts s ++ [firstWarning ev]
             ∧ submitCalls s' = submitCalls s
             ∧ isSubmitting (st s') = false ∧ testSubmitted (st s') = false)
  ∧ (n = 2 → toasts s' = toasts s ++ [finalWarning ev]
             ∧ submitCalls s' = submitCalls s
             ∧ isSubmitting (st s') = false ∧ testSubmitted (st s') = false)
  ∧ (n > 2 → toasts s' = toasts s ++ [autoSubmitNotice ev]
             ∧ length (submitCalls s') = S (length (submitCalls s))
             ∧ isSubmitting (st s') = true
             ∧ submissionStartedRef s' = true
             ∧ testSubmitted (st s') = false).
Proof.
  intros Hs Hev Hi Ht.
  destruct (monitoring_listener s Hs Hi Ht) as (c & Hl & Hw & Hic & Htc & Hr).
  assert (∃ (viaBlur hidden : bool),
    handle ev s = (if viaBlur then handleBlur else handleVisibilityChange)
                    c hidden s
    ∧ (if viaBlur then negb hidden else hidden) = true
    ∧ firstWarning ev = ToastError (if viaBlur then MsgFirstWarningFocus
                                    else MsgFirstWarningSwitch)
    ∧ finalWarning ev = ToastError (if viaBlur then MsgFinalWarningFocus
                                    else MsgFinalWarningSwitch)
    ∧ autoSubmitNotice ev = ToastError (if viaBlur then MsgAutoSubmittedFocus
                                        else MsgAutoSubmittedSwitch))
    as (viaBlur & hidden & Hh & Hhid & -> & -> & ->).
  { destruct ev; try done; simpl in *; rewrite Hl.
    - by exists false, hidden.
    - by exists true, hidden. }
  simpl. unfold step. rewrite Hh. clear Hh.
  destruct viaBlur; unfold handleBlur, handleVisibilityChange, handleSubmitTest;
    rewrite Hhid, Hic, Htc, Hw; simpl;
    destruct (Z.eqb_spec (warningCount (st s) + 1) 1) as [E1|E1];
    destruct (Z.eqb_spec (warningCount (st s) + 1) 2) as [E2|E2];
    unfold MAX_WARNINGS;
    destruct (Z.gtb_spec (warningCount (st s) + 1) 2) as [E3|E3];
    simpl; rewrite ?Hr; simpl; rewrite ?length_app; simpl;
    repeat split; intros; try done; try lia.
Qed.

(** Three focus losses on a fresh page, then any number of focus events. *)
Lemma three_focus_losses tid currentTest e1 e2 e3 evs :
  focusLoss e1 = true → focusLoss e2 = true → focusLoss e3 = true →
  Forall (λ e, focusEvent e = true) evs →
  let s3 := run (e1 :: e2 :: e3 :: evs) (mount tid currentTest) in
  warningCount (st s3) = 3
  ∧ toasts s3 = [firstWarning e1; finalWarning e2; autoSubmitNotice e3]
  ∧ length (submitCalls s3) = 1%nat
  ∧ isSubmitting (st s3) = true.
Proof.
  intros H1 H2 H3 Hevs.
  set (s0 := mount tid currentTest).
  assert (stable s0) as Hs0 by apply mount_stable.
  destruct (focus_loss_step s0 e1 Hs0 H1 eq_refl eq_refl)
    as (Hw1 & Hn1 & _).
  destruct (Hn1 eq_refl) as (Ht1 & Hc1 & Hi1 & Hts1).
  pose proof (step_stable e1 s0 Hs0) as Hs1.
  destruct (focus_loss_step _ e2 Hs1 H2 Hi1 Hts1) as (Hw2 & _ & Hn2 & _).
  rewrite Hw1 in Hw2, Hn2.
  destruct (Hn2 eq_refl) as (Ht2 & Hc2 & Hi2 & Hts2).
  pose proof (step_stable e2 _ Hs1) as Hs2.
  destruct (focus_loss_step _ e3 Hs2 H3 Hi2 Hts2) as (Hw3 & _ & _ & Hn3).
  rewrite Hw2 in Hw3, Hn3.
  destruct (Hn3 ltac:(simpl; lia)) as (Ht3 & Hc3 & Hi3 & _).
  pose proof (step_stable e3 _ Hs2) as Hs3.
  intros s3. subst s3.
  change (run (e1 :: e2 :: e3 :: evs) s0)
    with (run evs (step e3 (step e2 (step e1 s0)))).
  rewrite (focus_frozen _ evs Hs3 (or_introl Hi3) Hevs).
  rewrite Hw3, Ht3, Ht2, Ht1, Hc3, Hc2, Hc1. done.
Qed.

(** C4.  The warning count starts at 0.  In a session that is in progress
    and not submitting, every focus loss raises the count by one: when the
    new count is 1 exactly the first warning is shown, when it is 2 exactly
    the final warning, in both cases without any submission; when it is
    above 2 the automatic submission is made, once, and the session is
    submitting.  From the moment a submission is under way or done, focus
    events change nothing, so the count stays where it is.  On a fresh page
    three focus losses followed by any focus events give the two warnings,
    one submission and a count of 3. *)
Theorem C4_violation_monitor tid currentTest s ev :
  reachable tid currentTest s → focusLoss ev = true →
  warningCount (st (mount tid currentTest)) = 0
  ∧ (isSubmitting (st s) = false → testSubmitted (st s) = false →
     let s' := step ev s in
     let n := warningCount (st s) + 1 in
     warningCount (st s') = n
     ∧ (n = 1 → toasts s' = toasts s ++ [firstWarning ev]
                ∧ submitCalls s' = submitCalls s
                ∧ isSubmitting (st s') = false
                ∧ testSubmitted (st s') = false)
     ∧ (n = 2 → toasts s' = toasts s ++ [finalWarning ev]
                ∧ submitCalls s' = submitCalls s
                ∧ isSubmitting (st s') = false
                ∧ testSubmitted (st s') = false)
     ∧ (n > 2 → toasts s' = toasts s ++ [autoSubmitNotice ev]
                ∧ length (submitCalls s') = S (length (submitCalls s))
                ∧ isSubmitting (st s') = true
                ∧ ∀ evs, Forall (λ e, focusEvent e = true) evs →
                         run evs s' = s'))
  ∧ (isSubmitting (st s) = true ∨ testSubmitted (st s) = true →
     ∀ evs, Forall (λ e, focusEvent e = true) evs → run evs s = s)
  ∧ (∀ e1 e2 evs,
       focusLoss e1 = true → focusLoss e2 = true →
       Forall (λ e, focusEvent e = true) evs →
       let s3 := run (e1 :: e2 :: ev :: evs) (mount tid currentTest) in
       warningCount (st s3) = 3
       ∧ toasts s3 = [firstWarning e1; finalWarning e2; autoSubmitNotice ev]
       ∧ length (submitCalls s3) = 1%nat
       ∧ isSubmitting (st s3) = true).
Proof.
  intros Hreach Hev.
  pose proof (reachable_stable _ _ _ Hreach) as Hs.
  split; [done|]. split; [|split].
  - intros Hi Ht.
    destruct (focus_loss_step s ev Hs Hev Hi Ht) as (Hw & H1 & H2 & H3).
    split; [exact Hw|]. split; [exact H1|]. split; [exact H2|].
    intros Hn. destruct (H3 Hn) as (? & ? & Hi' & _).
    repeat split; try done.
    intros evs Hevs. apply focus_frozen; [by apply step_stable|by left|done].
  - intros H evs Hevs. by apply focus_frozen.
  - intros e1 e2 evs H1 H2 Hevs. by apply three_focus_losses.
Qed.

Lemma C4_witness :
  focusLoss (Blur false) = true
  ∧ warningCount (st (step (Blur false) answeredSession)) = 1
  ∧ (let s3 := run [VisibilityChange true; Blur false; Blur false;
                    Blur false; VisibilityChange true] sampleSession in
     warningCount (st s3) = 3 ∧ length (submitCalls s3) = 1%nat).
Proof.
  assert (reachable "42" sampleTest answeredSession) as Hr.
  { apply reachable_step, reachable_mount. }
  destruct (C4_violation_monitor "42" sampleTest answeredSession (Blur false)
              Hr eq_refl) as (_ & Hstep & _ & Hrun).
  split; [reflexivity|]. split.
  - exact (proj1 (Hstep eq_refl eq_refl)).
  - destruct (Hrun (VisibilityChange true) (Blur false)
                [Blur false; VisibilityChange true] eq_refl eq_refl)
      as (Hw & _ & Hc & _).
    + repeat constructor.
    + split; [exact Hw|exact Hc].
Defined.

(** ** Submissions over whole runs *)

Lemma focus_handler_calls (viaBlur : bool) c hidden s :
  let s' := (if viaBlur then handleBlur else handleVisibilityChange)
              c hidden s in
  (submitCalls s' = submitCalls s
   ∧ submissionStartedRef s' = submissionStartedRef s)
  ∨ (submissionStartedRef s = false ∧ submissionStartedRef s' = true
     ∧ length (submitCalls s') = S (length (submitCalls s))).
Proof.
  destruct viaBlur; unfold handleBlur, handleVisibilityChange; simpl;
    [destruct (negb hidden && negb (isSubmitting c) && negb (testSubmitted c))
    |destruct (hidden && negb (isSubmitting c) && negb (testSubmitted c))];
    try (by left).
  all: destruct (warningCount c + 1 =? 1); [by left|].
  all: destruct (warningCount c + 1 =? 2); [by left|].
  all: destruct (warningCount c + 1 >? MAX_WARNINGS); [|by left].
  all: unfold handleSubmitTest; simpl;
    destruct (isSubmitting c || testSubmitted c || submissionStartedRef s)
      eqn:G; [by left|right].
  all: apply orb_false_iff in G as [_ G]; simpl.
  all: rewrite length_app; simpl; repeat split; (done || lia).
Qed.

Lemma step_calls ev s :
  settles ev = false →
  (submitCalls (step ev s) = submitCalls s
   ∧ submissionStartedRef (step ev s) = submissionStartedRef s)
  ∨ (submissionStartedRef s = false
     ∧ submissionStartedRef (step ev s) = true
     ∧ length (submitCalls (step ev s)) = S (length (submitCalls s))).
Proof.
  intros Hev. unfold step.
  change (submitCalls (commit ?x)) with (submitCalls x).
  change (submissionStartedRef (commit ?x)) with (submissionStartedRef x).
  destruct ev; try done; simpl.
  - unfold handleAnswerSelect. destruct (currentQuestion _); by left.
  - unfold handleClearAnswer. destruct (currentQuestion _); by left.
  - unfold handleNext. destruct (_ <? _); by left.
  - unfold handlePrevious. destruct (_ >? _); by left.
  - by left.
  - destruct (handleSubmitTest_calls (rendered s) false confirmed s)
      as [H|(Hr & Hr' & _ & Hc & _)]; [by left|right].
    rewrite Hc, length_app. simpl. repeat split; (done || lia).
  - destruct (submissionStartedRef s) eqn:Hr.
    + left. by rewrite (handleTimeUp_started _ _ Hr).
    + unfold handleTimeUp, handleSubmitTest. rewrite Hr.
      destruct (timeUp _ || isSubmitting _ || testSubmitted _ || false) eqn:G;
        [by left|].
      apply orb_false_iff in G as [G _]. apply orb_false_iff in G as [G G3].
      apply orb_false_iff in G as [_ G2]. rewrite G2, G3. simpl.
      right. rewrite Hr. simpl. rewrite length_app. simpl. repeat split; (done || lia).
  - destruct (listener s) as [c|]; [|by left].
    apply (focus_handler_calls false).
  - destruct (listener s) as [c|]; [|by left].
    apply (focus_handler_calls true).
Qed.

(** Until a response arrives, a whole run of events (answers, navigation,
    clicks on Submit, the timer, focus events) makes at most one call, and
    none once the flag is raised. *)
Lemma run_calls evs s :
  Forall (λ e, settles e = false) evs →
  (length (submitCalls (run evs s)) ≤ S (length (submitCalls s)))%nat
  ∧ (submissionStartedRef s = true → submitCalls (run evs s) = submitCalls s).
Proof.
  intros Hevs. revert s.
  induction Hevs as [|ev evs Hev _ IH]; intros s; [simpl; split; [lia|done]|].
  change (run (ev :: evs) s) with (run evs (step ev s)).
  destruct (IH (step ev s)) as [IH1 IH2].
  destruct (step_calls ev s Hev) as [[Hc Hr]|(Hr & Hr' & Hl)].
  - rewrite Hc, Hr in *. split; [done|]. by intros H; rewrite IH2.
  - split; [|congruence]. rewrite (IH2 Hr'). lia.
Qed.

(** ** What the focus listeners submit *)

(** The focus effect does not depend on [answers].  The listeners
    registered after the second warning keep the [handleSubmitTest] of that
    render, so an answer recorded afterwards is in the state but not in the
    payload of the forced submission. *)
Lemma forced_submit_uses_listener_closure :
  ans_answer <$> answers (st forcedSession) !! "1" = Some "A"
  ∧ (req_answers <$> submitCalls forcedSession)
    = [unanswered <$> questions (st forcedSession)].
Proof. split; reflexivity. Qed.

(** C2.  The payload of the forced submission on a test with three
    questions.  After two focus losses the first question is answered with
    A, and a third focus loss submits.  The answer is in the state of the
    page and nothing has been sent yet; the forced call, made by the
    [handleSubmitTest] of the render that registered the listeners, sends
    every question, the first one included, with answer [''] and time_taken
    [0].  From the same session the expiry of the timer and a confirmed
    click on Submit send the recorded answer. *)
Theorem C2_forced_submit_omits_recorded_answer :
  forcedSession = step (Blur false) warnedSession
  ∧ ans_answer <$> answers (st warnedSession)
                     !! JS.toKey (questionIdOf (sampleQuestion 1))
    = Some "A"
  ∧ submitCalls warnedSession = []
  ∧ (req_answers <$> submitCalls forcedSession)
    = [unanswered <$> td_questions sampleTest]
  ∧ (fmap ans_answer <$>
       (req_answers <$> submitCalls (step TimeUp warnedSession)))
    = [["A"; ""; ""]]
  ∧ (fmap ans_answer <$>
       (req_answers <$> submitCalls (step (SubmitClick true) warnedSession)))
    = [["A"; ""; ""]].
Proof.
  split; [reflexivity|]. split; [reflexivity|]. split; [reflexivity|].
  split; [reflexivity|]. split; vm_compute; reflexivity.
Qed.

(** ** Every payload a page sends *)

Lemma handleSubmitTest_request c autoSubmit confirmed s :
  submitCalls (handleSubmitTest c autoSubmit confirmed s) = submitCalls s
  ∨ submitCalls (handleSubmitTest c autoSubmit confirmed s)
    = submitCalls s ++ [requestOf c].
Proof.
  destruct (handleSubmitTest_calls c autoSubmit confirmed s)
    as [[H _]|(_ & _ & _ & H & _)]; [by left|by right].
Qed.

Lemma handle_request ev s :
  submitCalls (handle ev s) = submitCalls s
  ∨ ∃ c, (c = rendered s ∨ listener s = Some c)
         ∧ submitCalls (handle ev s) = submitCalls s ++ [requestOf c].
Proof.
  destruct ev; simpl.
  - unfold handleAnswerSelect. destruct (currentQuestion _); by left.
  - unfold handleClearAnswer. destruct (currentQuestion _); by left.
  - unfold handleNext. destruct (_ <? _); by left.
  - unfold handlePrevious. destruct (_ >? _); by left.
  - by left.
  - destruct (handleSubmitTest_request (rendered s) false confirmed s) as [H|H];
      [by left|right; eauto].
  - unfold handleTimeUp. destruct (_ || _); [by left|].
    match goal with |- context [handleSubmitTest ?c true false ?s0] =>
      destruct (handleSubmitTest_request c true false s0) as [H|H] end;
      [by left|right; eauto].
  - destruct (listener s) as [c|] eqn:El; [|by left].
    unfold handleVisibilityChange.
    destruct (_ && _); [|by left]. destruct (_ =? 1); [by left|].
    destruct (_ =? 2); [by left|]. destruct (_ >? _); [|by left].
    match goal with |- context [handleSubmitTest c true false ?s0] =>
      destruct (handleSubmitTest_request c true false s0) as [H|H] end;
      [by left|right; eauto].
  - destruct (listener s) as [c|] eqn:El; [|by left].
    unfold handleBlur.
    destruct (_ && _); [|by left]. destruct (_ =? 1); [by left|].
    destruct (_ =? 2); [by left|]. destruct (_ >? _); [|by left].
    match goal with |- context [handleSubmitTest c true false ?s0] =>
      destruct (handleSubmitTest_request c true false s0) as [H|H] end;
      [by left|right; eauto].
  - destruct (awaiting s) as [|autoSubmit rest]; [by left|].
    unfold resumeSubmitTest. left.
    destruct r as [d|]; [destruct (success d)|destruct autoSubmit]; done.
Qed.

(** Whatever happens on a mounted page, every payload it has sent has one
    entry per question, in order, with that question's identifier. *)
Lemma reachable_payloads tid currentTest s :
  reachable tid currentTest s → Forall payload_ok (submitCalls s).
Proof.
  induction 1 as [|ev s Hreach IH]; [by constructor|].
  pose proof (reachable_stable _ _ _ Hreach) as [Hc Hrs].
  unfold step. change (submitCalls (commit ?x)) with (submitCalls x).
  destruct (handle_request ev s) as [->|(c & Hcl & ->)]; [done|].
  apply Forall_app. split; [done|]. constructor; [|constructor].
  unfold payload_ok, requestOf. simpl. apply answersArray_ids.
  destruct Hcl as [->|Hl].
  - rewrite Hrs. apply Hc.
  - pose proof (coherent_listener s Hc) as H. rewrite Hl in H. apply H.
Qed.

(** The answers object of a mounted page is keyed by the identifiers of
    its entries. *)
Lemma reachable_answers_keyed tid currentTest s :
  reachable tid currentTest s → answers_keyed (answers (st s)).
Proof. intros H. apply (reachable_stable _ _ _ H). Qed.

Lemma answersArray_of_answeredSession :
  answers_keyed (answers (st answeredSession))
  ∧ length (answersArray (questions (st answeredSession))
                         (answers (st answeredSession))) = 3%nat
  ∧ ans_question_id <$> answersArray (questions (st answeredSession))
                                     (answers (st answeredSession))
    = [Some 1; Some 2; Some 3].
Proof.
  assert (answers_keyed (answers (st answeredSession))) as Hk.
  { apply (reachable_answers_keyed "42" sampleTest).
    apply reachable_step, reachable_mount. }
  destruct (answersArray_one_entry_per_question (questions (st answeredSession))
              (answers (st answeredSession)) Hk) as (Hlen & Hids & _).
  split; [exact Hk|]. split; [exact Hlen|exact Hids].
Qed.

(** ** After the submission *)

Lemma handleSubmitTest_testSubmitted c autoSubmit confirmed s :
  testSubmitted (st (handleSubmitTest c autoSubmit confirmed s))
  = testSubmitted (st s).
Proof.
  unfold handleSubmitTest.
  destruct (isSubmitting c || testSubmitted c || submissionStartedRef s);
    [done|].
  destruct (negb autoSubmit && (size (answers c) =? 0)%nat); [done|].
  by destruct (negb autoSubmit && negb confirmed).
Qed.

(** All but the settling of the promise leave [testSubmitted] alone. *)
Lemma handle_testSubmitted ev s :
  settles ev = false →
  testSubmitted (st (handle ev s)) = testSubmitted (st s).
Proof.
  intros Hev. destruct ev; try done; simpl.
  - unfold handleAnswerSelect. by destruct (currentQuestion _).
  - unfold handleClearAnswer. by destruct (currentQuestion _).
  - unfold handleNext. by destruct (_ <? _).
  - unfold handlePrevious. by destruct (_ >? _).
  - apply handleSubmitTest_testSubmitted.
  - unfold handleTimeUp. destruct (_ || _); [done|].
    by rewrite handleSubmitTest_testSubmitted.
  - destruct (listener s) as [c|]; [|done].
    unfold handleVisibilityChange.
    destruct (_ && _); [|done]. destruct (_ =? 1); [done|].
    destruct (_ =? 2); [done|]. destruct (_ >? _); [|done].
    by rewrite handleSubmitTest_testSubmitted.
  - destruct (listener s) as [c|]; [|done].
    unfold handleBlur.
    destruct (_ && _); [|done]. destruct (_ =? 1); [done|].
    destruct (_ =? 2); [done|]. destruct (_ >? _); [|done].
    by rewrite handleSubmitTest_testSubmitted.
Qed.

(** At most one submission is awaited at any time. *)
Lemma awaiting_at_most_one tid currentTest s :
  reachable tid currentTest s → (length (awaiting s) ≤ 1)%nat.
Proof.
  intros H. apply reachable_stable in H as [Hc _].
  rewrite (coherent_awaiting s Hc). case_match; lia.
Qed.

(** Once the test is marked submitted, no event makes another call. *)
Lemma submitted_is_final s evs :
  stable s → testSubmitted (st s) = true →
  submitCalls (run evs s) = submitCalls s
  ∧ testSubmitted (st (run evs s)) = true.
Proof.
  revert s. induction evs as [|ev evs IH]; intros s Hs Ht; [done|].
  change (run (ev :: evs) s) with (run evs (step ev s)).
  assert (submitCalls (step ev s) = submitCalls s
          ∧ testSubmitted (st (step ev s)) = true) as [Hc Ht'].
  { destruct (settles ev) eqn:Hev.
    - destruct ev; try done. destruct Hs as [Hc Hrs].
      pose proof (coherent_awaiting s Hc) as Ha.
      rewrite Ht, andb_false_r in Ha.
      unfold step. cbn [handle]. destruct (awaiting s); [|done].
      by rewrite commit_id.
    - split.
      + destruct (step_calls ev s Hev) as [[H _]|(Hr & _)]; [done|].
        destruct Hs as [Hc _]. rewrite (coherent_ref s Hc) in Hr.
        rewrite (coherent_submitted s Hc Ht) in Hr. done.
      + unfold step. change (st (commit ?x)) with (st x).
        by rewrite handle_testSubmitted. }
  destruct (IH (step ev s) (step_stable ev s Hs) Ht') as [IH1 IH2].
  split; [congruence|done].
Qed.

(** ** Scoring *)

Section ScoringFacts.
Import Scoring.

Lemma count_cons (o x : Outcome) (l : list Outcome) :
  count o (x :: l) = (if decide (x = o) then 1 else 0) + count o l.
Proof.
  unfold count. rewrite filter_cons. case_decide; simpl; lia.
Qed.

Lemma count_nonneg (o : Outcome) (l : list Outcome) : 0 ≤ count o l.
Proof. unfold count. lia. Qed.

Lemma counts_total (l : list Outcome) :
  count Correct l + count Wrong l + count NotAttempted l
  = Z.of_nat (length l).
Proof.
  induction l as [|x l IH]; [done|].
  rewrite !count_cons, length_cons, Nat2Z.inj_succ, <- IH.
  destruct x; repeat case_decide; try done; lia.
Qed.

Lemma totalMarks_counts (l : list Outcome) :
  totalMarks l = 4 * count Correct l - 1 * count Wrong l.
Proof.
  induction l as [|x l IH]; [done|].
  rewrite !count_cons. simpl. rewrite IH.
  destruct x; repeat case_decide; try done; simpl; lia.
Qed.

Lemma percentageOf_bounds (raw k : Z) :
  0 < k → raw ≤ 4 * k →
  (0 <= percentageOf raw k)%Q ∧ (percentageOf raw k <= 100)%Q.
Proof.
  intros Hk Hraw. unfold percentageOf.
  assert (0 < inject_Z (k * 4))%Q as Hd.
  { change 0%Q with (inject_Z 0). rewrite <- Zlt_Qlt. lia. }
  assert (0 <= Qmax (inject_Z raw) 0)%Q as Hm by apply Q.le_max_r.
  assert (Qmax (inject_Z raw) 0 <= inject_Z (k * 4))%Q as Hle.
  { apply Q.max_lub; [|by apply Qlt_le_weak].
    rewrite <- Zle_Qle. lia. }
  split.
  - apply Qmult_le_0_compat; [|done].
    apply Qle_shift_div_l; [done|]. by rewrite Qmult_0_l.
  - apply Qle_trans with (1 * 100)%Q; [|done].
    apply Qmult_le_compat_r; [|done].
    apply Qle_shift_div_r; [done|]. by rewrite Qmult_1_l.
Qed.

Lemma percentageOf_clamped (raw k : Z) :
  raw ≤ 0 → (percentageOf raw k == 0)%Q.
Proof.
  intros H. unfold percentageOf.
  assert (Qmax (inject_Z raw) 0 == 0)%Q as ->.
  { apply Q.max_r. change 0%Q with (inject_Z 0). by rewrite <- Zle_Qle. }
  unfold Qdiv. ring.
Qed.

Lemma orNum_some (n b : Z) : (n = 0 → b = 0) → Results.orNum (Some n) b = n.
Proof.
  intros H. unfold Results.orNum, JS.or. simpl.
  destruct (Z.eqb_spec n 0) as [->|]; simpl; [by rewrite H|done].
Qed.

End ScoringFacts.

(** C9.  For the result of scoring a non-empty question list: the counts
    of correct, wrong and not attempted questions add up to the number [K] of
    questions; the raw score is [4 * correct - 1 * wrong], which is the sum of
    the marks of the questions and lies between [-K] and [4 * K], so it can be
    negative; the maximum score is [K * 4]; the percentage is
    [max(raw, 0) / (K * 4) * 100], lies between 0 and 100 and is 0 whenever
    the raw score is not positive.  The results page shows exactly these
    numbers, also when it has to compute score and maximum itself because
    the server sent neither. *)
Theorem C9_score_and_percentage
    (questions : list Scoring.SQuestion) (answers : list Answer) :
  questions ≠ [] →
  let r := Scoring.score questions answers in
  let k := Z.of_nat (length questions) in
  Scoring.correct r + Scoring.wrong r + Scoring.notAttempted r = k
  ∧ Scoring.rawScore r = 4 * Scoring.correct r - 1 * Scoring.wrong r
  ∧ Scoring.rawScore r
    = Scoring.totalMarks (Scoring.judge answers <$> questions)
  ∧ - k ≤ Scoring.rawScore r ≤ 4 * k
  ∧ Scoring.maxScore r = k * 4
  ∧ (Scoring.percentage r
     == Qmax (inject_Z (Scoring.rawScore r)) 0 / inject_Z (k * 4) * 100)%Q
  ∧ (0 <= Scoring.percentage r)%Q
  ∧ (Scoring.percentage r <= 100)%Q
  ∧ (Scoring.rawScore r ≤ 0 → (Scoring.percentage r == 0)%Q)
  ∧ Results.shownScore (Scoring.toPage r) = Scoring.rawScore r
  ∧ Results.shownMaxScore (Scoring.toPage r) = k * 4
  ∧ Results.shownPercentage (Scoring.toPage r) = Scoring.percentage r
  ∧ (∀ p : Results.TestResultsData,
       Results.correct_answers p = Scoring.correct r →
       Results.wrong_answers p = Some (Scoring.wrong r) →
       Results.not_attempted p = Some (Scoring.notAttempted r) →
       Results.total_questions p = k →
       Results.neet_score p = None → Results.max_score p = None →
       Results.shownScore p = 4 * Scoring.correct r - 1 * Scoring.wrong r
       ∧ Results.shownMaxScore p = k * 4).
Proof.
  intros Hne r k.
  set (outcomes := Scoring.judge answers <$> questions).
  assert (Scoring.correct r + Scoring.wrong r + Scoring.notAttempted r = k)
    as Hsum.
  { subst r k. simpl. fold outcomes. rewrite counts_total.
    subst outcomes. by rewrite length_fmap. }
  assert (0 < k) as Hk.
  { subst k. destruct questions; [done|]. simpl. lia. }
  pose proof (count_nonneg Scoring.Correct outcomes) as Hc.
  pose proof (count_nonneg Scoring.Wrong outcomes) as Hw.
  pose proof (count_nonneg Scoring.NotAttempted outcomes) as Hn.
  assert (- k ≤ Scoring.rawScore r ≤ 4 * k) as Hraw.
  { subst r. simpl in *. fold outcomes in Hsum |- *. lia. }
  assert (∀ p : Results.TestResultsData,
       Results.correct_answers p = Scoring.correct r →
       Results.wrong_answers p = Some (Scoring.wrong r) →
       Results.not_attempted p = Some (Scoring.notAttempted r) →
       Results.total_questions p = k →
       Results.shownWrong p = Scoring.wrong r) as Hshown.
  { intros p Hpc Hpw Hpn Hpt. unfold Results.shownWrong.
    rewrite Hpc, Hpw, Hpn, Hpt, (orNum_some (Scoring.notAttempted r)) by done.
    apply orNum_some. lia. }
  split; [exact Hsum|]. split; [done|].
  split; [subst r; simpl; by rewrite totalMarks_counts|].
  split; [exact Hraw|]. split; [done|]. split; [reflexivity|].
  destruct (percentageOf_bounds (Scoring.rawScore r) k Hk (proj2 Hraw))
    as [Hp0 Hp100].
  split; [exact Hp0|]. split; [exact Hp100|].
  split; [apply percentageOf_clamped|].
  split; [|split; [|split; [done|]]].
  - unfold Results.shownScore.
    rewrite (Hshown (Scoring.toPage r)) by done.
    simpl. apply orNum_some. subst r. simpl. lia.
  - unfold Results.shownMaxScore. simpl. by apply orNum_some.
  - intros p Hpc Hpw Hpn Hpt Hps Hpm.
    unfold Results.shownScore, Results.shownMaxScore.
    rewrite (Hshown p) by done. rewrite Hps, Hpm, Hpc, Hpt.
    unfold Results.orNum, JS.or. cbn [JS.truthy]. split; [lia|done].
Qed.

Lemma C9_witness :
  tenQuestions ≠ []
  ∧ Scoring.rawScore (Scoring.score tenQuestions tenWrong) = -10
  ∧ Scoring.maxScore (Scoring.score tenQuestions tenWrong) = 40
  ∧ (Scoring.percentage (Scoring.score tenQuestions tenWrong) == 0)%Q
  ∧ Scoring.grade (Scoring.score tenQuestions tenWrong) = Scoring.Poor
  ∧ Scoring.rawScore (Scoring.score tenQuestions sixTwoTwo) = 22
  ∧ (Scoring.percentage (Scoring.score tenQuestions sixTwoTwo) == 55)%Q.
Proof.
  assert (tenQuestions ≠ []) as Hne by discriminate.
  destruct (C9_score_and_percentage tenQuestions tenWrong Hne)
    as (_ & Hraw & _ & _ & Hmax & _ & _ & _ & Hclamp & _).
  destruct (C9_score_and_percentage tenQuestions sixTwoTwo Hne)
    as (_ & Hraw2 & _ & _ & _ & Hpct2 & _).
  split; [exact Hne|]. split; [exact Hraw|]. split; [exact Hmax|].
  split; [apply Hclamp; discriminate|]. split; [reflexivity|].
  split; [exact Hraw2|]. rewrite Hpct2. reflexivity.
Defined.

(** * Further properties of the page *)

(** ** Clearing an answer *)

Lemma write_setAnswers_id (m : AnswerMap) (s : Session) :
  m = answers (st s) → write (setAnswers (λ _, m)) s = s.
Proof. intros ->. by destruct s as [[] ? ? ? ? ? ? ? ?]. Qed.

(** X1.  [handleClearAnswer] removes the answer of the current question and
    nothing else: the other answers and the rest of the session stay as they
    are, and the question is unanswered in a payload built afterwards.
    Clearing a question that has no answer changes nothing, and clearing
    right after a first selection gives back the session as it was. *)
Theorem X1_clear_answer_undoes_selection
    (c : RState) (q : Question) (s : Session) :
  currentQuestion c = Some q →
  let key := JS.toKey (questionIdOf q) in
  ∃ s', handleClearAnswer c s = Some s'
    ∧ answers (st s') !! key = None
    ∧ (∀ k, k ≠ key → answers (st s') !! k = answers (st s) !! k)
    ∧ write (λ _, st s) s' = s
    ∧ answerFor (answers (st s')) q = unanswered q
    ∧ (answers (st s) !! key = None → s' = s)
    ∧ (∀ renderNow now optionKey s1,
         answers (st s) !! key = None →
         handleAnswerSelect c renderNow now optionKey s = Some s1 →
         handleClearAnswer c s1 = Some s).
Proof.
  intros Hq key. unfold handleClearAnswer, handleAnswerSelect. rewrite Hq.
  eexists. split; [reflexivity|]. simpl. fold key.
  split; [apply lookup_delete_eq|].
  split; [intros k Hk; by apply lookup_delete_ne|].
  split; [by destruct s|].
  split; [unfold answerFor; fold key; by rewrite lookup_delete_eq|].
  split.
  - intros Hnone. rewrite <- (write_setAnswers_id (answers (st s)) s eq_refl) at 2.
    unfold write, setAnswers. simpl. by rewrite delete_id.
  - intros r n k s1 Hnone [= <-]. f_equal.
    rewrite <- (write_setAnswers_id (answers (st s)) s eq_refl) at 2.
    unfold write, setAnswers. simpl. by rewrite delete_insert_id.
Qed.

Lemma X1_witness :
  currentQuestion (rendered sampleSession) = Some (sampleQuestion 1)
  ∧ ∃ s1, handleAnswerSelect (rendered sampleSession) 0 5000 "A" sampleSession
          = Some s1
          ∧ handleClearAnswer (rendered sampleSession) s1 = Some sampleSession.
Proof.
  split; [reflexivity|].
  destruct (X1_clear_answer_undoes_selection (rendered sampleSession)
              (sampleQuestion 1) sampleSession eq_refl)
    as (s' & _ & _ & _ & _ & _ & _ & Hround).
  eexists. split; [reflexivity|].
  apply (Hround 0 5000 "A"); reflexivity.
Defined.

(** ** The answered and remaining counts *)

Lemma handleSubmitTest_st_answers c autoSubmit confirmed s :
  answers (st (handleSubmitTest c autoSubmit confirmed s)) = answers (st s)
  ∧ questions (st (handleSubmitTest c autoSubmit confirmed s))
    = questions (st s).
Proof.
  unfold handleSubmitTest.
  destruct (isSubmitting c || testSubmitted c || submissionStartedRef s);
    [done|].
  destruct (negb autoSubmit && (size (answers c) =? 0)%nat); [done|].
  by destruct (negb autoSubmit && negb confirmed).
Qed.

(** No handler replaces the questions. *)
Lemma handle_questions ev s :
  questions (st (handle ev s)) = questions (st s).
Proof.
  destruct ev; simpl.
  - unfold handleAnswerSelect. by destruct (currentQuestion _).
  - unfold handleClearAnswer. by destruct (currentQuestion _).
  - unfold handleNext. by destruct (_ <? _).
  - unfold handlePrevious. by destruct (_ >? _).
  - done.
  - apply handleSubmitTest_st_answers.
  - unfold handleTimeUp. destruct (_ || _); [done|].
    by rewrite (proj2 (handleSubmitTest_st_answers _ _ _ _)).
  - destruct (listener s) as [c|]; [|done]. unfold handleVisibilityChange.
    destruct (_ && _); [|done]. destruct (_ =? 1); [done|].
    destruct (_ =? 2); [done|]. destruct (_ >? _); [|done].
    by rewrite (proj2 (handleSubmitTest_st_answers _ _ _ _)).
  - destruct (listener s) as [c|]; [|done]. unfold handleBlur.
    destruct (_ && _); [|done]. destruct (_ =? 1); [done|].
    destruct (_ =? 2); [done|]. destruct (_ >? _); [|done].
    by rewrite (proj2 (handleSubmitTest_st_answers _ _ _ _)).
  - destruct (awaiting s) as [|a rest]; [done|]. unfold resumeSubmitTest.
    destruct r as [d|]; [destruct (success d)|destruct a]; done.
Qed.

(** Only selecting and clearing touch the answers. *)
Lemma handle_answers ev s :
  (∀ renderNow now optionKey, ev ≠ AnswerSelect renderNow now optionKey) →
  ev ≠ ClearAnswer →
  answers (st (handle ev s)) = answers (st s).
Proof.
  intros Hsel Hclr. destruct ev; simpl; try done.
  - by destruct (Hsel renderNow now optionKey).
  - unfold handleNext. by destruct (_ <? _).
  - unfold handlePrevious. by destruct (_ >? _).
  - apply handleSubmitTest_st_answers.
  - unfold handleTimeUp. destruct (_ || _); [done|].
    by rewrite (proj1 (handleSubmitTest_st_answers _ _ _ _)).
  - destruct (listener s) as [c|]; [|done]. unfold handleVisibilityChange.
    destruct (_ && _); [|done]. destruct (_ =? 1); [done|].
    destruct (_ =? 2); [done|]. destruct (_ >? _); [|done].
    by rewrite (proj1 (handleSubmitTest_st_answers _ _ _ _)).
  - destruct (listener s) as [c|]; [|done]. unfold handleBlur.
    destruct (_ && _); [|done]. destruct (_ =? 1); [done|].
    destruct (_ =? 2); [done|]. destruct (_ >? _); [|done].
    by rewrite (proj1 (handleSubmitTest_st_answers _ _ _ _)).
  - destruct (awaiting s) as [|a rest]; [done|]. unfold resumeSubmitTest.
    destruct r as [d|]; [destruct (success d)|destruct a]; done.
Qed.

Lemma currentQuestion_elem_of (c : RState) (q : Question) :
  currentQuestion c = Some q → q ∈ questions c.
Proof.
  unfold currentQuestion. destruct (0 <=? currentQuestionIndex c); [|done].
  apply list_elem_of_lookup_2.
Qed.

Lemma step_answers_within ev s :
  rendered s = st s → answers_within (st s) → answers_within (st (step ev s)).
Proof.
  intros Hrs Hin. unfold step. change (st (commit ?x)) with (st x).
  unfold answers_within. rewrite handle_questions.
  destruct ev;
    try (rewrite handle_answers by done; exact Hin); simpl; rewrite Hrs.
  - unfold handleAnswerSelect.
    destruct (currentQuestion (st s)) as [q|] eqn:Hq; [|exact Hin].
    simpl. intros k Hk. destruct (decide (k = JS.toKey (questionIdOf q))) as [->|Hne].
    + exists q. split; [by apply currentQuestion_elem_of|done].
    + rewrite lookup_insert_ne in Hk by done. by apply Hin.
  - unfold handleClearAnswer.
    destruct (currentQuestion (st s)) as [q|] eqn:Hq; [|exact Hin].
    simpl. intros k [a Hk]. apply lookup_delete_Some in Hk as [_ Hk].
    apply Hin. by exists a.
Qed.

(** On a mounted page the questions are those of the test, and answers
    exist only for them. *)
Lemma reachable_answers_within tid currentTest s :
  reachable tid currentTest s →
  questions (st s) = td_questions currentTest ∧ answers_within (st s).
Proof.
  induction 1 as [|ev s Hreach [IHq IHa]].
  - split; [done|]. intros k [a Hk]. simpl in Hk. by rewrite lookup_empty in Hk.
  - split.
    + unfold step. change (st (commit ?x)) with (st x).
      by rewrite handle_questions.
    + apply step_answers_within; [|done].
      apply (reachable_stable _ _ _ Hreach).
Qed.

Lemma answers_within_size (r : RState) :
  answers_within r → (size (answers r) ≤ length (questions r))%nat.
Proof.
  intros Hin. rewrite <- length_map_to_list.
  rewrite <- (length_fmap fst (map_to_list (answers r))).
  rewrite <- (length_fmap (λ q, JS.toKey (questionIdOf q)) (questions r)).
  apply submseteq_length, NoDup_submseteq; [apply NoDup_fst_map_to_list|].
  intros k Hk. apply list_elem_of_fmap in Hk as ([k' a] & -> & Hka).
  apply elem_of_map_to_list in Hka. simpl.
  destruct (Hin k' (ex_intro _ a Hka)) as (q & Hq & <-).
  by apply (list_elem_of_fmap_2 (λ q, JS.toKey (questionIdOf q))).
Qed.

Lemma answers_within_count (r : RState) :
  answers_within r → NoDup (questionIdOf <$> questions r) →
  size (answers r)
  = length (filter (λ q, getQuestionStatus r (questionIdOf q) = IsAnswered)
                   (questions r)).
Proof.
  intros Hin Hnd. rewrite <- length_map_to_list.
  rewrite <- (length_fmap fst (map_to_list (answers r))).
  rewrite <- (length_fmap (λ q, JS.toKey (questionIdOf q))
                (filter _ (questions r))).
  apply Permutation_length, NoDup_Permutation.
  - apply NoDup_fst_map_to_list.
  - apply NoDup_fmap_2_strong; [|by apply NoDup_filter, (NoDup_fmap_1 questionIdOf)].
    intros q1 q2 H1 H2 Hk. apply list_elem_of_filter in H1 as [_ H1].
    apply list_elem_of_filter in H2 as [_ H2].
    apply toKey_inj in Hk.
    apply (NoDup_fmap_1 questionIdOf) in Hnd as Hndq.
    destruct (list_elem_of_lookup_1 _ _ H1) as [i Hi].
    destruct (list_elem_of_lookup_1 _ _ H2) as [j Hj].
    assert (i = j) as ->.
    { apply (NoDup_lookup _ i j (questionIdOf q1) Hnd);
        rewrite list_lookup_fmap; [by rewrite Hi|by rewrite Hj, Hk]. }
    congruence.
  - intros k. split.
    + intros Hk. apply list_elem_of_fmap in Hk as ([k' a] & -> & Hka).
      apply elem_of_map_to_list in Hka. simpl.
      destruct (Hin k' (ex_intro _ a Hka)) as (q & Hq & <-).
      apply (list_elem_of_fmap_2 (λ q, JS.toKey (questionIdOf q))).
      apply list_elem_of_filter. split; [|done].
      unfold getQuestionStatus. by rewrite Hka.
    + intros Hk. apply list_elem_of_fmap in Hk as (q & -> & Hq).
      apply list_elem_of_filter in Hq as [Hst _].
      unfold getQuestionStatus in Hst.
      destruct (answers r !! JS.toKey (questionIdOf q)) as [a|] eqn:Ha; [|done].
      apply (list_elem_of_fmap_2' fst _ (JS.toKey (questionIdOf q), a));
        [by apply elem_of_map_to_list|done].
Qed.

Lemma length_filter_split {A} (P : A → Prop) `{∀ x, Decision (P x)}
    (l : list A) :
  (length (filter P l) + length (filter (λ x, ¬ P x) l) = length l)%nat.
Proof.
  induction l as [|x l IH]; [done|].
  rewrite !filter_cons. destruct (decide (P x)).
  - rewrite decide_False by tauto. simpl. lia.
  - rewrite decide_True by done. simpl. lia.
Qed.

(** X2.  On a mounted page the header counts are sound: the number of
    answered questions never exceeds the number of questions, so the
    remaining count is never negative and the two add up to the number of
    questions; every answer belongs to a question of the test.  When the
    questions have pairwise distinct identifiers, the answered count is the
    number of questions whose status is 'answered' and the remaining count
    the number of the others. *)
Theorem X2_answered_and_remaining_counts tid currentTest s :
  reachable tid currentTest s →
  let r := st s in
  questions r = td_questions currentTest
  ∧ 0 ≤ answeredCount r ≤ Z.of_nat (length (questions r))
  ∧ 0 ≤ unansweredCount r
  ∧ answeredCount r + unansweredCount r = Z.of_nat (length (questions r))
  ∧ (∀ k a, answers r !! k = Some a →
       ∃ q, q ∈ questions r ∧ questionIdOf q = ans_question_id a)
  ∧ (NoDup (questionIdOf <$> questions r) →
     answeredCount r
     = Z.of_nat (length (filter
         (λ q, getQuestionStatus r (questionIdOf q) = IsAnswered)
         (questions r)))
     ∧ unansweredCount r
       = Z.of_nat (length (filter
           (λ q, getQuestionStatus r (questionIdOf q) ≠ IsAnswered)
           (questions r)))).
Proof.
  intros Hreach r.
  destruct (reachable_answers_within _ _ _ Hreach) as [Hq Hin].
  pose proof (answers_within_size _ Hin) as Hsize.
  pose proof (reachable_answers_keyed _ _ _ Hreach) as Hkeyed.
  fold r in Hq, Hin, Hsize, Hkeyed.
  unfold unansweredCount, answeredCount.
  split; [exact Hq|]. split; [lia|]. split; [lia|]. split; [lia|]. split.
  - intros k a Hka. destruct (Hin k (ex_intro _ a Hka)) as (q & Hqin & Hk).
    exists q. split; [done|]. apply toKey_inj.
    by rewrite Hk, (Hkeyed k a Hka).
  - intros Hnd. rewrite (answers_within_count r Hin Hnd). split; [done|].
    pose proof (length_filter_split
                  (λ q, getQuestionStatus r (questionIdOf q) = IsAnswered)
                  (questions r)) as Hsplit.
    lia.
Qed.

Lemma X2_witness :
  reachable "42" sampleTest answeredSession
  ∧ 0 ≤ unansweredCount (st answeredSession)
  ∧ answeredCount (st answeredSession) + unansweredCount (st answeredSession)
    = 3.
Proof.
  assert (reachable "42" sampleTest answeredSession) as Hr.
  { apply reachable_step, reachable_mount. }
  destruct (X2_answered_and_remaining_counts "42" sampleTest answeredSession Hr)
    as (_ & _ & Hun & Hsum & _).
  split; [exact Hr|]. split; [exact Hun|exact Hsum].
Defined.

(** ** The Clear Answer button *)

(** X3.  The Clear Answer button is shown when [answers] has an entry
    under the key of [currentQuestion.id], whereas answers are stored under
    the key of [question_id || id].  For a current question without a truthy
    [question_id] the two agree: the button is shown exactly when the
    question is answered.  On a mounted page where no question is identified
    by the key of the current question's [id] field, the button is not
    shown, whether the question is answered or not. *)
Theorem X3_clear_button_keyed_by_id tid currentTest s q :
  reachable tid currentTest s → currentQuestion (st s) = Some q →
  (JS.truthy (q_question_id q) = false →
   (clearAnswerShown (st s) = true
    ↔ getQuestionStatus (st s) (questionIdOf q) = IsAnswered))
  ∧ ((∀ q', q' ∈ questions (st s) →
            JS.toKey (questionIdOf q') ≠ JS.toKey (q_id q)) →
     clearAnswerShown (st s) = false).
Proof.
  intros Hreach Hq. unfold clearAnswerShown. rewrite Hq. split.
  - intros Hf. unfold getQuestionStatus, questionIdOf, JS.or. rewrite Hf.
    rewrite bool_decide_eq_true.
    destruct (answers (st s) !! JS.toKey (q_id q)); split; intros H;
      try done; by destruct H.
  - intros Hno. apply bool_decide_eq_false. intros Hsome.
    destruct (reachable_answers_within _ _ _ Hreach) as [_ Hin].
    destruct (Hin _ Hsome) as (q' & Hq' & Hk). by apply (Hno q').
Qed.

Lemma X3_witness :
  reachable "42" sampleTest answeredSession
  ∧ currentQuestion (st answeredSession) = Some (sampleQuestion 1)
  ∧ getQuestionStatus (st answeredSession) (questionIdOf (sampleQuestion 1))
    = IsAnswered
  ∧ clearAnswerShown (st answeredSession) = false.
Proof.
  assert (reachable "42" sampleTest answeredSession) as Hr.
  { apply reachable_step, reachable_mount. }
  destruct (X3_clear_button_keyed_by_id "42" sampleTest answeredSession
              (sampleQuestion 1) Hr eq_refl) as [_ Hno].
  split; [exact Hr|]. split; [reflexivity|]. split; [reflexivity|].
  apply Hno. intros q' Hq'.
  apply list_elem_of_In in Hq'. simpl in Hq'.
  destruct Hq' as [<-|[<-|[<-|[]]]]; vm_compute; discriminate.
Defined.

(** ** Moving between the questions *)

Lemma step_jump_here s :
  stable s → step (QuestionJump (currentQuestionIndex (st s))) s = s.
Proof.
  intros [_ Hrs]. unfold step, handle, handleQuestionJump.
  assert (write (setCurrentQuestionIndex
            (λ _, currentQuestionIndex (st s))) s = s) as ->.
  { by destruct s as [[] ? ? ? ? ? ? ? ?]. }
  by apply commit_id.
Qed.

Lemma step_jump_jump i j s :
  stable s → step (QuestionJump j) (step (QuestionJump i) s)
             = step (QuestionJump j) s.
Proof.
  intros [_ Hrs]. unfold step, handle, handleQuestionJump, commit.
  destruct s as [[] ? ? ? ? ? ? r l]. simpl in *. subst r.
  unfold focusDeps. simpl. by rewrite !decide_True.
Qed.

Lemma step_next s :
  stable s →
  step Next s
  = if currentQuestionIndex (st s)
       <? Z.of_nat (length (questions (st s))) - 1
    then step (QuestionJump (currentQuestionIndex (st s) + 1)) s
    else s.
Proof.
  intros Hs. pose proof Hs as [_ Hrs].
  unfold step at 1. cbn [handle]. unfold handleNext. rewrite Hrs.
  destruct (_ <? _); [|by apply commit_id]. done.
Qed.

Lemma step_previous s :
  stable s →
  step Previous s
  = if currentQuestionIndex (st s) >? 0
    then step (QuestionJump (currentQuestionIndex (st s) - 1)) s
    else s.
Proof.
  intros Hs. pose proof Hs as [_ Hrs].
  unfold step at 1. cbn [handle]. unfold handlePrevious. rewrite Hrs.
  destruct (_ >? _); [|by apply commit_id]. done.
Qed.

Lemma run_next_index (k : nat) s :
  stable s → inRange (st s) →
  currentQuestionIndex (st (run (replicate k Next) s))
  = Z.min (currentQuestionIndex (st s) + Z.of_nat k)
          (Z.of_nat (length (questions (st s))) - 1).
Proof.
  revert s. induction k as [|k IH]; intros s Hs Hin.
  - unfold inRange in Hin. simpl. lia.
  - change (run (replicate (S k) Next) s)
      with (run (replicate k Next) (step Next s)).
    pose proof (step_stable Next s Hs) as Hs'.
    pose proof (step_next s Hs) as Hstep.
    assert (questions (st (step Next s)) = questions (st s)) as Hqs.
    { unfold step. change (st (commit ?x)) with (st x). apply handle_questions. }
    unfold inRange in *.
    destruct (Z.ltb_spec (currentQuestionIndex (st s))
                (Z.of_nat (length (questions (st s))) - 1)) as [Hlt|Hge].
    + assert (currentQuestionIndex (st (step Next s))
              = currentQuestionIndex (st s) + 1) as Hi by by rewrite Hstep.
      rewrite IH; [|done|rewrite Hqs, Hi; lia]. rewrite Hqs, Hi. lia.
    + rewrite Hstep. rewrite IH by done. lia.
Qed.

Lemma run_previous_index (k : nat) s :
  stable s → inRange (st s) →
  currentQuestionIndex (st (run (replicate k Previous) s))
  = Z.max (currentQuestionIndex (st s) - Z.of_nat k) 0.
Proof.
  revert s. induction k as [|k IH]; intros s Hs Hin.
  - unfold inRange in Hin. simpl. lia.
  - change (run (replicate (S k) Previous) s)
      with (run (replicate k Previous) (step Previous s)).
    pose proof (step_stable Previous s Hs) as Hs'.
    pose proof (step_previous s Hs) as Hstep.
    assert (questions (st (step Previous s)) = questions (st s)) as Hqs.
    { unfold step. change (st (commit ?x)) with (st x). apply handle_questions. }
    unfold inRange in *.
    destruct (Z.gtb_spec (currentQuestionIndex (st s)) 0) as [Hgt|Hle].
    + assert (currentQuestionIndex (st (step Previous s))
              = currentQuestionIndex (st s) - 1) as Hi by by rewrite Hstep.
      rewrite IH; [|done|rewrite Hqs, Hi; lia]. rewrite Hi. lia.
    + rewrite Hstep. rewrite IH by done. lia.
Qed.

(** X4.  On a mounted page with the cursor on a question of the test: Next followed by
    Previous, and Previous followed by Next, give back the session unless the
    first of the two was stopped at an end; Next on the last question and
    Previous on the first change nothing; [k] times Next moves the cursor [k]
    questions on but not past the last one, [k] times Previous moves it back
    but not before the first. *)
Theorem X4_next_and_previous tid currentTest s :
  reachable tid currentTest s → inRange (st s) →
  let i := currentQuestionIndex (st s) in
  let last := Z.of_nat (length (questions (st s))) - 1 in
  (i < last → step Previous (step Next s) = s)
  ∧ (0 < i → step Next (step Previous s) = s)
  ∧ (i = last → step Next s = s)
  ∧ (i = 0 → step Previous s = s)
  ∧ (∀ k : nat,
       currentQuestionIndex (st (run (replicate k Next) s))
       = Z.min (i + Z.of_nat k) last
       ∧ currentQuestionIndex (st (run (replicate k Previous) s))
         = Z.max (i - Z.of_nat k) 0).
Proof.
  intros Hreach Hin i last. pose proof (reachable_stable _ _ _ Hreach) as Hs.
  unfold inRange in Hin. fold i last in Hin.
  assert (∀ j, questions (st (step (QuestionJump j) s)) = questions (st s)
               ∧ currentQuestionIndex (st (step (QuestionJump j) s)) = j)
    as Hjump by done.
  split; [|split; [|split; [|split]]].
  - intros Hlt. rewrite (step_next s Hs). fold i last.
    destruct (Z.ltb_spec i last); [|lia].
    rewrite step_previous by by apply step_stable.
    destruct (Hjump (i + 1)) as [_ ->].
    destruct (Z.gtb_spec (i + 1) 0); [|lia].
    rewrite step_jump_jump by done.
    replace (i + 1 - 1) with i by lia. by apply step_jump_here.
  - intros Hgt. rewrite (step_previous s Hs). fold i.
    destruct (Z.gtb_spec i 0); [|lia].
    rewrite step_next by by apply step_stable.
    destruct (Hjump (i - 1)) as [-> ->]. fold last.
    destruct (Z.ltb_spec (i - 1) last); [|lia].
    rewrite step_jump_jump by done.
    replace (i - 1 + 1) with i by lia. by apply step_jump_here.
  - intros Heq. rewrite (step_next s Hs). fold i last.
    destruct (Z.ltb_spec i last); [lia|done].
  - intros Heq. rewrite (step_previous s Hs). fold i.
    destruct (Z.gtb_spec i 0); [lia|done].
  - intros k. split; [by apply run_next_index|by apply run_previous_index].
Qed.

Lemma X4_witness :
  reachable "42" sampleTest sampleSession ∧ inRange (st sampleSession)
  ∧ step Previous (step Next sampleSession) = sampleSession
  ∧ currentQuestionIndex (st (run (replicate 7 Next) sampleSession)) = 2.
Proof.
  assert (reachable "42" sampleTest sampleSession) as Hs
    by apply reachable_mount.
  assert (inRange (st sampleSession)) as Hin
    by (vm_compute; split; discriminate).
  destruct (X4_next_and_previous "42" sampleTest sampleSession Hs Hin)
    as (Hnp & _ & _ & _ & Hk).
  split; [exact Hs|]. split; [exact Hin|].
  split; [apply Hnp; reflexivity|exact (proj1 (Hk 7%nat))].
Defined.

(** ** Submissions of a mounted page *)

(** X5.  Until the awaited call settles, no run of page events (selecting
    and clearing answers, navigation, clicks on Submit, timer expiry, focus
    events) makes more than one [testAPI.submitTest] call; once
    [submissionStartedRef] is set it makes none.  A freshly mounted page
    therefore sends at most one call before the first response. *)
Theorem X5_one_call_until_settled evs s tid currentTest :
  Forall (λ e, settles e = false) evs →
  (length (submitCalls (run evs s)) ≤ S (length (submitCalls s)))%nat
  ∧ (submissionStartedRef s = true → submitCalls (run evs s) = submitCalls s)
  ∧ (length (submitCalls (run evs (mount tid currentTest))) ≤ 1)%nat.
Proof.
  intros Hevs. destruct (run_calls evs s Hevs) as [H1 H2].
  split; [exact H1|]. split; [exact H2|].
  apply (run_calls evs (mount tid currentTest) Hevs).
Qed.

Lemma X5_witness :
  Forall (λ e, settles e = false)
    [AnswerSelect 0 5000 "A"; Blur false; SubmitClick true; TimeUp;
     VisibilityChange true; SubmitClick true]
  ∧ (length (submitCalls
       (run [AnswerSelect 0 5000 "A"; Blur false; SubmitClick true; TimeUp;
             VisibilityChange true; SubmitClick true] sampleSession)) ≤ 1)%nat.
Proof.
  assert (Forall (λ e, settles e = false)
    [AnswerSelect 0 5000 "A"; Blur false; SubmitClick true; TimeUp;
     VisibilityChange true; SubmitClick true]) as H by (repeat constructor).
  split; [exact H|].
  apply (X5_one_call_until_settled _ sampleSession "42" sampleTest H).
Defined.

Lemma handleSubmitTest_frame c autoSubmit confirmed s :
  testId (st (handleSubmitTest c autoSubmit confirmed s)) = testId (st s)
  ∧ route (handleSubmitTest c autoSubmit confirmed s) = route s
  ∧ contextResults (handleSubmitTest c autoSubmit confirmed s)
    = contextResults s.
Proof.
  unfold handleSubmitTest.
  destruct (isSubmitting c || testSubmitted c || submissionStartedRef s);
    [done|].
  destruct (negb autoSubmit && (size (answers c) =? 0)%nat); [done|].
  by destruct (negb autoSubmit && negb confirmed).
Qed.

(** The test id of the page never changes. *)
Lemma handle_testId ev s : testId (st (handle ev s)) = testId (st s).
Proof.
  destruct ev; simpl.
  - unfold handleAnswerSelect. by destruct (currentQuestion _).
  - unfold handleClearAnswer. by destruct (currentQuestion _).
  - unfold handleNext. by destruct (_ <? _).
  - unfold handlePrevious. by destruct (_ >? _).
  - done.
  - apply handleSubmitTest_frame.
  - unfold handleTimeUp. destruct (_ || _); [done|].
    by rewrite (proj1 (handleSubmitTest_frame _ _ _ _)).
  - destruct (listener s) as [c|]; [|done]. unfold handleVisibilityChange.
    destruct (_ && _); [|done]. destruct (_ =? 1); [done|].
    destruct (_ =? 2); [done|]. destruct (_ >? _); [|done].
    by rewrite (proj1 (handleSubmitTest_frame _ _ _ _)).
  - destruct (listener s) as [c|]; [|done]. unfold handleBlur.
    destruct (_ && _); [|done]. destruct (_ =? 1); [done|].
    destruct (_ =? 2); [done|]. destruct (_ >? _); [|done].
    by rewrite (proj1 (handleSubmitTest_frame _ _ _ _)).
  - destruct (awaiting s) as [|a rest]; [done|]. unfold resumeSubmitTest.
    destruct r as [d|]; [destruct (success d)|destruct a]; done.
Qed.

(** Only the settling of the promise leaves the page or stores results. *)
Lemma handle_route ev s :
  settles ev = false →
  route (handle ev s) = route s
  ∧ contextResults (handle ev s) = contextResults s.
Proof.
  intros Hev. destruct ev; try done; simpl.
  - unfold handleAnswerSelect. by destruct (currentQuestion _).
  - unfold handleClearAnswer. by destruct (currentQuestion _).
  - unfold handleNext. by destruct (_ <? _).
  - unfold handlePrevious. by destruct (_ >? _).
  - apply handleSubmitTest_frame.
  - unfold handleTimeUp. destruct (_ || _); [done|].
    destruct (handleSubmitTest_frame (rendered s) true false
      (toast (ToastError MsgTimeIsUp)
         (write (setIsSubmitting true) (write (setTimeUp true) s))))
      as (_ & -> & ->). done.
  - destruct (listener s) as [c|]; [|done]. unfold handleVisibilityChange.
    destruct (_ && _); [|done]. destruct (_ =? 1); [done|].
    destruct (_ =? 2); [done|]. destruct (_ >? _); [|done].
    match goal with |- context [handleSubmitTest c true false ?s0] =>
      destruct (handleSubmitTest_frame c true false s0) as (_ & -> & ->) end.
    done.
  - destruct (listener s) as [c|]; [|done]. unfold handleBlur.
    destruct (_ && _); [|done]. destruct (_ =? 1); [done|].
    destruct (_ =? 2); [done|]. destruct (_ >? _); [|done].
    match goal with |- context [handleSubmitTest c true false ?s0] =>
      destruct (handleSubmitTest_frame c true false s0) as (_ & -> & ->) end.
    done.
Qed.

(** On a mounted page: the test id is the one of the address, the results
    page is shown exactly when the test is marked submitted, and the focus
    listeners stem from the first render or from a render that had the
    questions of the test. *)
Lemma reachable_page tid currentTest s :
  reachable tid currentTest s →
  testId (st s) = tid
  ∧ route s = (if testSubmitted (st s) then ResultsPage tid else TestPage)
  ∧ match listener s with
    | Some c => testId c = tid
                ∧ (questions c = td_questions currentTest
                   ∨ warningCount c = 0)
    | None => True
    end.
Proof.
  induction 1 as [|ev s Hreach (IHid & IHroute & IHl)].
  - split; [done|]. split; [done|]. simpl. split; [done|by right].
  - pose proof (reachable_stable _ _ _ Hreach) as [Hc Hrs].
    pose proof (reachable_answers_within _ _ _ Hreach) as [Hq _].
    unfold step.
    change (st (commit ?x)) with (st x). change (route (commit ?x)) with (route x).
    split; [by rewrite handle_testId|]. split.
    + destruct (settles ev) eqn:Hev.
      * destruct ev; try done. simpl.
        destruct (awaiting s) as [|a rest] eqn:Ha; [done|].
        pose proof (coherent_awaiting s Hc) as Hlen. rewrite Ha in Hlen.
        destruct (isSubmitting (st s)); [|done].
        destruct (testSubmitted (st s)) eqn:Ht; [done|].
        unfold resumeSubmitTest. rewrite Hrs, IHid.
        destruct r as [d|]; [destruct (success d)|destruct a]; simpl;
          rewrite ?Ht; done.
      * rewrite handle_testSubmitted by done.
        by rewrite (proj1 (handle_route ev s Hev)).
    + unfold commit. cbn [listener].
      destruct (handle_rendered ev s) as [-> ->].
      case_decide; [done|]. unfold installListeners.
      destruct (_ || _); [done|]. rewrite handle_testId, handle_questions.
      split; [done|by left].
Qed.

Lemma handle_request_origin ev s :
  submitCalls (handle ev s) = submitCalls s
  ∨ submitCalls (handle ev s) = submitCalls s ++ [requestOf (rendered s)]
  ∨ ∃ c, listener s = Some c ∧ MAX_WARNINGS < warningCount c + 1
         ∧ submitCalls (handle ev s) = submitCalls s ++ [requestOf c].
Proof.
  destruct ev; simpl.
  - unfold handleAnswerSelect. destruct (currentQuestion _); by left.
  - unfold handleClearAnswer. destruct (currentQuestion _); by left.
  - unfold handleNext. destruct (_ <? _); by left.
  - unfold handlePrevious. destruct (_ >? _); by left.
  - by left.
  - destruct (handleSubmitTest_request (rendered s) false confirmed s) as [H|H];
      [by left|by right; left].
  - unfold handleTimeUp. destruct (_ || _); [by left|].
    match goal with |- context [handleSubmitTest ?c true false ?s0] =>
      destruct (handleSubmitTest_request c true false s0) as [H|H] end;
      [by left|by right; left].
  - destruct (listener s) as [c|] eqn:El; [|by left].
    unfold handleVisibilityChange.
    destruct (_ && _); [|by left]. destruct (_ =? 1); [by left|].
    destruct (_ =? 2); [by left|].
    destruct (Z.gtb_spec (warningCount c + 1) MAX_WARNINGS) as [Hgt|Hle];
      [|by left].
    match goal with |- context [handleSubmitTest c true false ?s0] =>
      destruct (handleSubmitTest_request c true false s0) as [Hr|Hr] end;
      [by left|right; right; eauto].
  - destruct (listener s) as [c|] eqn:El; [|by left].
    unfold handleBlur.
    destruct (_ && _); [|by left]. destruct (_ =? 1); [by left|].
    destruct (_ =? 2); [by left|].
    destruct (Z.gtb_spec (warningCount c + 1) MAX_WARNINGS) as [Hgt|Hle];
      [|by left].
    match goal with |- context [handleSubmitTest c true false ?s0] =>
      destruct (handleSubmitTest_request c true false s0) as [Hr|Hr] end;
      [by left|right; right; eauto].
  - destruct (awaiting s) as [|autoSubmit rest]; [by left|].
    unfold resumeSubmitTest. left.
    destruct r as [d|]; [destruct (success d)|destruct autoSubmit]; done.
Qed.

(** X7.  Every call a mounted page has made, whatever happened on it,
    carries the test id of the address and the questions of the test, and
    its payload has exactly one entry per question of the test, in the order
    of the questions, each with the identifier of its question. *)
Theorem X7_every_call_covers_the_test tid currentTest s :
  reachable tid currentTest s →
  Forall (λ req,
            req_testId req = tid
            ∧ req_questions req = td_questions currentTest
            ∧ length (req_answers req) = length (td_questions currentTest)
            ∧ ans_question_id <$> req_answers req
              = questionIdOf <$> td_questions currentTest)
         (submitCalls s).
Proof.
  induction 1 as [|ev s Hreach IH]; [by constructor|].
  pose proof (reachable_stable _ _ _ Hreach) as [Hc Hrs].
  destruct (reachable_page _ _ _ Hreach) as (Hid & _ & Hl).
  destruct (reachable_answers_within _ _ _ Hreach) as [Hq _].
  unfold step. change (submitCalls (commit ?x)) with (submitCalls x).
  assert (∀ c, testId c = tid → questions c = td_questions currentTest →
               answers_keyed (answers c) →
               Forall (λ req,
                 req_testId req = tid
                 ∧ req_questions req = td_questions currentTest
                 ∧ length (req_answers req) = length (td_questions currentTest)
                 ∧ ans_question_id <$> req_answers req
                   = questionIdOf <$> td_questions currentTest)
                 (submitCalls s ++ [requestOf c])) as Hadd.
  { intros c Hcid Hcq Hck. apply Forall_app. split; [done|].
    constructor; [|constructor]. unfold requestOf. simpl.
    rewrite answersArray_ids by done. unfold answersArray.
    by rewrite length_fmap, Hcq. }
  destruct (handle_request_origin ev s) as [->|[->|(c & Hlc & Hw & ->)]].
  - done.
  - apply Hadd; rewrite Hrs; [done|done|apply Hc].
  - rewrite Hlc in Hl. destruct Hl as [Hcid [Hcq|H0]].
    + apply Hadd; [done|done|].
      pose proof (coherent_listener s Hc) as Hcl. rewrite Hlc in Hcl.
      apply Hcl.
    + unfold MAX_WARNINGS in Hw. lia.
Qed.

Lemma X7_witness :
  reachable "42" sampleTest forcedSession
  ∧ Forall (λ req, req_testId req = "42"
                   ∧ length (req_answers req) = 3%nat)
      (submitCalls forcedSession).
Proof.
  assert (reachable "42" sampleTest forcedSession) as Hr.
  { repeat apply reachable_step. apply reachable_mount. }
  split; [exact Hr|].
  eapply Forall_impl;
    [apply (X7_every_call_covers_the_test "42" sampleTest forcedSession Hr)|].
  intros req (Hid & _ & Hlen & _). split; [exact Hid|exact Hlen].
Defined.

Lemma reachable_run tid currentTest evs s :
  reachable tid currentTest s → reachable tid currentTest (run evs s).
Proof.
  revert s. induction evs as [|ev evs IH]; intros s H; [done|].
  change (run (ev :: evs) s) with (run evs (step ev s)).
  by apply IH, reachable_step.
Qed.

(** X6.  On a mounted page at most one submission is awaited at any time,
    and the results page is shown exactly when the test is marked submitted.
    Once it is, whatever events follow (further clicks, timer expiry, focus
    losses, late responses), no further call is made and the page stays the
    results page of this test. *)
Theorem X6_submitted_is_terminal tid currentTest s :
  reachable tid currentTest s →
  (length (awaiting s) ≤ 1)%nat
  ∧ (route s = ResultsPage tid ↔ testSubmitted (st s) = true)
  ∧ (testSubmitted (st s) = true →
     ∀ evs, submitCalls (run evs s) = submitCalls s
            ∧ testSubmitted (st (run evs s)) = true
            ∧ route (run evs s) = ResultsPage tid).
Proof.
  intros Hreach. split; [by eapply awaiting_at_most_one|].
  destruct (reachable_page _ _ _ Hreach) as (_ & Hroute & _). split.
  - rewrite Hroute. by destruct (testSubmitted (st s)).
  - intros Ht evs.
    destruct (submitted_is_final s evs (reachable_stable _ _ _ Hreach) Ht)
      as [Hc Ht'].
    split; [exact Hc|]. split; [exact Ht'|].
    destruct (reachable_page _ _ _ (reachable_run _ _ evs _ Hreach))
      as (_ & -> & _).
    by rewrite Ht'.
Qed.

Lemma X6_witness :
  reachable "42" sampleTest submittedSession
  ∧ testSubmitted (st submittedSession) = true
  ∧ submitCalls (run [SubmitClick true; TimeUp; Blur false; Settled Thrown]
                     submittedSession)
    = submitCalls submittedSession.
Proof.
  assert (reachable "42" sampleTest submittedSession) as Hr.
  { repeat apply reachable_step. apply reachable_mount. }
  destruct (X6_submitted_is_terminal "42" sampleTest submittedSession Hr)
    as (_ & _ & Hfinal).
  split; [exact Hr|]. split; [reflexivity|].
  apply (Hfinal eq_refl
           [SubmitClick true; TimeUp; Blur false; Settled Thrown]).
Defined.

(** ** The answers a submission carries *)

(** What an idle page is: nothing awaited, the flag down, not submitted,
    the last render current. *)
Lemma idle_facts s :
  stable s → isSubmitting (st s) = false →
  rendered s = st s ∧ submissionStartedRef s = false
  ∧ testSubmitted (st s) = false ∧ awaiting s = [].
Proof.
  intros [Hc Hrs] Hi.
  pose proof (coherent_ref s Hc) as Hr.
  pose proof (coherent_submitted s Hc) as Hs.
  pose proof (coherent_awaiting s Hc) as Ha.
  rewrite Hi in Hr, Hs, Ha. simpl in Ha.
  repeat split; try done.
  - destruct (testSubmitted (st s)); [by specialize (Hs eq_refl)|done].
  - by destruct (awaiting s).
Qed.

Lemma setIsSubmitting_back (r : RState) :
  isSubmitting r = false →
  setIsSubmitting false (setIsSubmitting true r) = r.
Proof. destruct r; simpl. by intros ->. Qed.

(** X8.  A manual submission that fails, because the call throws or because
    the server answers [success: false], leaves the page as it was before the
    click, with the same answers and cursor, not submitting, on the test
    page, and with one error toast more; clicking Submit again sends the same
    request a second time. *)
Theorem X8_failed_manual_submit_can_be_retried
    tid currentTest s (r : Response) :
  reachable tid currentTest s →
  isSubmitting (st s) = false →
  size (answers (st s)) ≠ 0%nat →
  (∀ d, r = Resolved d → success d = false) →
  let s1 := step (SubmitClick true) s in
  let s2 := step (Settled r) s1 in
  let s3 := step (SubmitClick true) s2 in
  submitCalls s1 = submitCalls s ++ [requestOf (st s)]
  ∧ isSubmitting (st s1) = true
  ∧ st s2 = st s
  ∧ submissionStartedRef s2 = false
  ∧ awaiting s2 = []
  ∧ route s2 = TestPage
  ∧ toasts s2
    = toasts s ++ [ToastError match r with
                              | Resolved d => failureMessage d
                              | Thrown => MsgFailedToSubmit
                              end]
  ∧ submitCalls s3 = submitCalls s ++ [requestOf (st s); requestOf (st s)].
Proof.
  intros Hreach Hi Hsize Hfail.
  pose proof (reachable_stable _ _ _ Hreach) as Hs.
  destruct (idle_facts s Hs Hi) as (Hrs & Hr & Ht & Ha).
  destruct (reachable_page _ _ _ Hreach) as (_ & Hroute & _).
  rewrite Ht in Hroute.
  apply Nat.eqb_neq in Hsize.
  assert (step (SubmitClick true) s
          = commit (submitTest (requestOf (st s)) false
              (write (setIsSubmitting true) (setSubmissionStarted true s))))
    as Hs1.
  { unfold step. cbn [handle]. unfold handleSubmitTest.
    rewrite Hrs, Hi, Ht, Hr, Hsize. done. }
  intros s1 s2 s3. subst s1 s2 s3. rewrite Hs1.
  set (s1 := commit _).
  assert (st s1 = setIsSubmitting true (st s)
          ∧ rendered s1 = setIsSubmitting true (st s)
          ∧ submissionStartedRef s1 = true ∧ awaiting s1 = [false]
          ∧ route s1 = TestPage ∧ toasts s1 = toasts s
          ∧ submitCalls s1 = submitCalls s ++ [requestOf (st s)])
    as (Hst1 & Hrd1 & Hr1 & Ha1 & Hro1 & Hto1 & Hc1).
  { subst s1. simpl. by rewrite Ha. }
  clearbody s1.
  set (s2 := step (Settled r) s1).
  assert (st s2 = st s ∧ rendered s2 = st s ∧ submissionStartedRef s2 = false
          ∧ awaiting s2 = [] ∧ route s2 = TestPage
          ∧ toasts s2 = toasts s ++ [ToastError match r with
                                     | Resolved d => failureMessage d
                                     | Thrown => MsgFailedToSubmit
                                     end]
          ∧ submitCalls s2 = submitCalls s ++ [requestOf (st s)])
    as (Hst2 & Hrd2 & Hr2 & Ha2 & Hro2 & Hto2 & Hc2).
  { subst s2. unfold step. cbn [handle]. rewrite Ha1.
    unfold resumeSubmitTest.
    destruct r as [d|]; [rewrite (Hfail d eq_refl)|]; simpl;
      rewrite Hst1, Hto1, Hc1, Hro1, (setIsSubmitting_back _ Hi); done. }
  clearbody s2.
  split; [exact Hc1|]. split; [by rewrite Hst1|].
  split; [exact Hst2|]. split; [exact Hr2|]. split; [exact Ha2|].
  split; [exact Hro2|]. split; [exact Hto2|].
  unfold step. cbn [handle]. unfold handleSubmitTest.
  rewrite Hrd2, Hi, Ht, Hr2, Hsize. simpl. rewrite Hc2, <- app_assoc. done.
Qed.

Lemma X8_witness :
  reachable "42" sampleTest answeredSession
  ∧ isSubmitting (st answeredSession) = false
  ∧ size (answers (st answeredSession)) ≠ 0%nat
  ∧ st (run [SubmitClick true; Settled Thrown] answeredSession)
    = st answeredSession
  ∧ length (submitCalls (run [SubmitClick true; Settled Thrown;
                              SubmitClick true] answeredSession)) = 2%nat.
Proof.
  assert (reachable "42" sampleTest answeredSession) as Hr.
  { apply reachable_step, reachable_mount. }
  assert (size (answers (st answeredSession)) ≠ 0%nat) as Hsize
    by (vm_compute; discriminate).
  destruct (X8_failed_manual_submit_can_be_retried "42" sampleTest
              answeredSession Thrown Hr eq_refl Hsize)
    as (_ & _ & Hst & _ & _ & _ & _ & Hc3); [discriminate|].
  split; [exact Hr|]. split; [reflexivity|]. split; [exact Hsize|].
  split; [exact Hst|].
  change (run [SubmitClick true; Settled Thrown; SubmitClick true]
              answeredSession)
    with (step (SubmitClick true)
            (step (Settled Thrown) (step (SubmitClick true) answeredSession))).
  rewrite Hc3. reflexivity.
Defined.

(** Selecting, clearing and navigating leave alone everything the focus
    effect depends on, so the listeners of the earlier render stay. *)
Lemma quiet_step_frame ev s :
  stable s → quiet ev = true →
  listener (step ev s) = listener s
  ∧ focusDeps (st (step ev s)) = focusDeps (st s)
  ∧ submissionStartedRef (step ev s) = submissionStartedRef s
  ∧ submitCalls (step ev s) = submitCalls s
  ∧ toasts (step ev s) = toasts s.
Proof.
  intros [_ Hrs] Hev.
  assert (focusDeps (st (handle ev s)) = focusDeps (st s)
          ∧ submissionStartedRef (handle ev s) = submissionStartedRef s
          ∧ submitCalls (handle ev s) = submitCalls s
          ∧ toasts (handle ev s) = toasts s) as (Hd & Hr & Hc & Ht).
  { destruct ev; try done; simpl.
    - unfold handleAnswerSelect. by destruct (currentQuestion _).
    - unfold handleClearAnswer. by destruct (currentQuestion _).
    - unfold handleNext. by destruct (_ <? _).
    - unfold handlePrevious. by destruct (_ >? _). }
  unfold step.
  change (st (commit ?x)) with (st x).
  change (submissionStartedRef (commit ?x)) with (submissionStartedRef x).
  change (submitCalls (commit ?x)) with (submitCalls x).
  change (toasts (commit ?x)) with (toasts x).
  split; [|done]. unfold commit. cbn [listener].
  destruct (handle_rendered ev s) as [-> ->].
  by rewrite Hd, Hrs, decide_True.
Qed.

Lemma quiet_run_frame evs s :
  stable s → Forall (λ e, quiet e = true) evs →
  stable (run evs s)
  ∧ listener (run evs s) = listener s
  ∧ focusDeps (st (run evs s)) = focusDeps (st s)
  ∧ submissionStartedRef (run evs s) = submissionStartedRef s
  ∧ submitCalls (run evs s) = submitCalls s
  ∧ toasts (run evs s) = toasts s.
Proof.
  intros Hs Hevs. revert s Hs.
  induction Hevs as [|ev evs Hev _ IH]; intros s Hs; [done|].
  change (run (ev :: evs) s) with (run evs (step ev s)).
  destruct (quiet_step_frame ev s Hs Hev) as (Hl & Hd & Hr & Hc & Ht).
  destruct (IH (step ev s) (step_stable ev s Hs)) as (? & -> & -> & -> & -> & ->).
  done.
Qed.

(** A focus loss that takes the count past the limit sends the request of
    the render that registered the listeners. *)
Lemma focus_loss_request s ev c :
  stable s → focusLoss ev = true → listener s = Some c →
  MAX_WARNINGS < warningCount c + 1 →
  submitCalls (step ev s) = submitCalls s ++ [requestOf c].
Proof.
  intros Hs Hev Hl Hw. pose proof Hs as [Hc Hrs].
  pose proof (coherent_listener s Hc) as Hlis. rewrite Hl, Hrs in Hlis.
  destruct Hlis as (Hdeps & Hic & Htc & _).
  assert (isSubmitting (st s) = false) as Hi
    by (unfold focusDeps in Hdeps; congruence).
  destruct (idle_facts s Hs Hi) as (_ & Hr & _ & _).
  unfold MAX_WARNINGS in Hw.
  unfold step. change (submitCalls (commit ?x)) with (submitCalls x).
  destruct ev; try done; simpl in *; rewrite Hl;
    unfold handleVisibilityChange, handleBlur, handleSubmitTest;
    rewrite Hev, Hic, Htc; simpl;
    destruct (Z.eqb_spec (warningCount c + 1) 1); [lia| |lia|];
    destruct (Z.eqb_spec (warningCount c + 1) 2); try lia;
    unfold MAX_WARNINGS;
    destruct (Z.gtb_spec (warningCount c + 1) 2); try lia;
    simpl; by rewrite Hr.
Qed.

(** X9.  The forced submission carries the answers as they were at the
    final warning.  After the focus loss that takes the warning count to 2,
    whatever the user selects, clears or navigates to, the next focus loss
    sends the request built from the questions and answers of the render
    that followed the final warning: the payload is the one the page would
    have sent at that moment. *)
Theorem X9_forced_submit_sends_answers_of_final_warning
    tid currentTest s ev1 evs ev3 :
  reachable tid currentTest s →
  isSubmitting (st s) = false →
  warningCount (st s) + 1 = 2 →
  focusLoss ev1 = true → Forall (λ e, quiet e = true) evs →
  focusLoss ev3 = true →
  let s1 := step ev1 s in
  let s3 := step ev3 (run evs s1) in
  submitCalls s3 = submitCalls s ++ [requestOf (st s1)]
  ∧ answers (st s1) = answers (st s)
  ∧ questions (st s1) = td_questions currentTest
  ∧ req_answers (requestOf (st s1))
    = answersArray (td_questions currentTest) (answers (st s)).
Proof.
  intros Hreach Hi Hw Hev1 Hevs Hev3 s1 s3.
  pose proof (reachable_stable _ _ _ Hreach) as Hs.
  destruct (idle_facts s Hs Hi) as (Hrs & Hr & Ht & Ha).
  destruct (reachable_answers_within _ _ _ Hreach) as [Hq _].
  destruct (focus_loss_step s ev1 Hs Hev1 Hi Ht) as (Hw1 & _ & H2 & _).
  destruct (H2 Hw) as (_ & Hc1 & Hi1 & Ht1). fold s1 in Hw1, Hc1, Hi1, Ht1.
  pose proof (step_stable ev1 s Hs) as Hs1. fold s1 in Hs1.
  assert (answers (st s1) = answers (st s)) as Hans.
  { subst s1. unfold step. change (st (commit ?x)) with (st x).
    apply handle_answers; by destruct ev1. }
  assert (questions (st s1) = td_questions currentTest) as Hqs.
  { subst s1. unfold step. change (st (commit ?x)) with (st x).
    by rewrite handle_questions. }
  assert (listener s1 = Some (st s1)) as Hl1.
  { subst s1. unfold step at 1. unfold commit at 1. cbn [listener].
    destruct (handle_rendered ev1 s) as [-> _]. rewrite Hrs.
    fold (step ev1 s). change (st (handle ev1 s)) with (st (step ev1 s)).
    rewrite decide_False.
    - unfold installListeners.
      change (st (handle ev1 s)) with (st (step ev1 s)).
      by rewrite Hi1, Ht1.
    - unfold focusDeps. rewrite Hw1. intros [= _ Hbad _]. lia. }
  destruct (quiet_run_frame evs s1 Hs1 Hevs) as (Hs2 & Hl2 & _ & _ & Hc2 & _).
  subst s3.
  rewrite (focus_loss_request (run evs s1) ev3 (st s1) Hs2 Hev3);
    [| by rewrite Hl2 | rewrite Hw1; unfold MAX_WARNINGS; lia].
  rewrite Hc2, Hc1. split; [done|]. split; [done|]. split; [done|].
  unfold requestOf. cbn [req_answers]. by rewrite Hqs, Hans.
Qed.

Lemma X9_witness :
  reachable "42" sampleTest (step (Blur false) sampleSession)
  ∧ (req_answers <$>
       submitCalls
         (step (Blur false)
            (run [AnswerSelect 0 5000 "A"; Next; AnswerSelect 0 9000 "C"]
               (step (VisibilityChange true)
                  (step (Blur false) sampleSession)))))
    = [unanswered <$> td_questions sampleTest].
Proof.
  assert (reachable "42" sampleTest (step (Blur false) sampleSession)) as Hr.
  { apply reachable_step, reachable_mount. }
  destruct (X9_forced_submit_sends_answers_of_final_warning "42" sampleTest
              (step (Blur false) sampleSession) (VisibilityChange true)
              [AnswerSelect 0 5000 "A"; Next; AnswerSelect 0 9000 "C"]
              (Blur false) Hr eq_refl eq_refl eq_refl)
    as (Hc & _); [repeat constructor|reflexivity|].
  split; [exact Hr|]. rewrite Hc. reflexivity.
Defined.

(** X10.  The Submit button and the timer send the answers as they are at
    that moment: on an idle page a confirmed click with at least one answer,
    and the expiry of the timer, each make one call whose request is built
    from the current questions and answers.  A click whose confirmation is
    declined changes nothing at all. *)
Theorem X10_button_and_timer_send_current_answers tid currentTest s :
  reachable tid currentTest s →
  isSubmitting (st s) = false →
  (size (answers (st s)) ≠ 0%nat →
   submitCalls (step (SubmitClick true) s)
   = submitCalls s ++ [requestOf (st s)]
   ∧ step (SubmitClick false) s = s)
  ∧ (timeUp (st s) = false →
     submitCalls (step TimeUp s) = submitCalls s ++ [requestOf (st s)]
     ∧ timeUp (st (step TimeUp s)) = true
     ∧ isSubmitting (st (step TimeUp s)) = true).
Proof.
  intros Hreach Hi.
  pose proof (reachable_stable _ _ _ Hreach) as Hs.
  destruct (idle_facts s Hs Hi) as (Hrs & Hr & Ht & Ha).
  split.
  - intros Hsize. apply Nat.eqb_neq in Hsize.
    unfold step. cbn [handle]. unfold handleSubmitTest.
    rewrite Hrs, Hi, Ht, Hr, Hsize. simpl. split; [done|].
    by apply commit_id.
  - intros Hup. unfold step. cbn [handle].
    unfold handleTimeUp, handleSubmitTest.
    rewrite Hrs, Hi, Ht, Hr, Hup. simpl. by rewrite Hr.
Qed.

Lemma X10_witness :
  reachable "42" sampleTest answeredSession
  ∧ (req_answers <$> submitCalls (step TimeUp answeredSession))
    = [answersArray (questions (st answeredSession))
                    (answers (st answeredSession))]
  ∧ step (SubmitClick false) answeredSession = answeredSession.
Proof.
  assert (reachable "42" sampleTest answeredSession) as Hr.
  { apply reachable_step, reachable_mount. }
  destruct (X10_button_and_timer_send_current_answers "42" sampleTest
              answeredSession Hr eq_refl) as [Hclick Htime].
  destruct (Htime eq_refl) as (Hc & _).
  split; [exact Hr|]. split; [by rewrite Hc|].
  apply Hclick. vm_compute. discriminate.
Defined.

(** ** How a test gets marked submitted *)

(** X11.  On a mounted page the test is marked submitted only by the
    settling of an awaited call, and only when the server accepted the
    submission or the call of an automatic submission threw; never by a
    refused response or a failed manual submission.  An accepted response
    stores the response in the context, raises the success toast and shows
    the results page; a thrown automatic call shows the results page with the
    error toast and stores nothing in the context. *)
Theorem X11_marked_submitted_only_by_settling tid currentTest s ev :
  reachable tid currentTest s →
  testSubmitted (st s) = false →
  (testSubmitted (st (step ev s)) = true →
   ∃ autoSubmit,
     awaiting s = [autoSubmit]
     ∧ ((∃ d, ev = Settled (Resolved d) ∧ success d = true)
        ∨ (ev = Settled Thrown ∧ autoSubmit = true)))
  ∧ (∀ autoSubmit d,
       awaiting s = [autoSubmit] → success d = true →
       let s' := step (Settled (Resolved d)) s in
       testSubmitted (st s') = true ∧ route s' = ResultsPage tid
       ∧ contextResults s' = Some d
       ∧ toasts s' = toasts s ++ [ToastSuccess MsgSubmitted])
  ∧ (awaiting s = [true] →
     let s' := step (Settled Thrown) s in
     testSubmitted (st s') = true ∧ route s' = ResultsPage tid
     ∧ contextResults s' = contextResults s
     ∧ toasts s' = toasts s ++ [ToastError MsgAutoSubmitFailed]).
Proof.
  intros Hreach Ht.
  pose proof (reachable_stable _ _ _ Hreach) as [Hc Hrs].
  destruct (reachable_page _ _ _ Hreach) as (Hid & _ & _).
  split; [|split].
  - unfold step. change (st (commit ?x)) with (st x).
    destruct (settles ev) eqn:Hev.
    + destruct ev; try done. cbn [handle].
      destruct (awaiting s) as [|a rest] eqn:Ha; [by rewrite Ht|].
      pose proof (coherent_awaiting s Hc) as Hlen. rewrite Ha in Hlen.
      assert (rest = []) as ->.
      { destruct (_ && _); simpl in Hlen; [by destruct rest|done]. }
      unfold resumeSubmitTest.
      destruct r as [d|]; [destruct (success d) eqn:Hd|destruct a]; simpl;
        rewrite ?Ht; intros Hsub; try done; eexists; split; eauto.
    + rewrite handle_testSubmitted by done. by rewrite Ht.
  - intros a d Ha Hd. unfold step. cbn [handle]. rewrite Ha.
    unfold resumeSubmitTest. rewrite Hd, Hrs, Hid. done.
  - intros Ha. unfold step. cbn [handle]. rewrite Ha.
    unfold resumeSubmitTest. rewrite Hrs, Hid. done.
Qed.

Lemma X11_witness :
  reachable "42" sampleTest submittingSession
  ∧ testSubmitted (st submittingSession) = false
  ∧ testSubmitted (st (step (Settled accepted) submittingSession)) = true
  ∧ route (step (Settled accepted) submittingSession) = ResultsPage "42".
Proof.
  assert (reachable "42" sampleTest submittingSession) as Hr.
  { repeat apply reachable_step. apply reachable_mount. }
  destruct (X11_marked_submitted_only_by_settling "42" sampleTest
              submittingSession (Settled accepted) Hr eq_refl)
    as (_ & Hacc & _).
  destruct (Hacc false {| success := true; message := None |}
              eq_refl eq_refl) as (Ht & Hro & _).
  split; [exact Hr|]. split; [reflexivity|]. split; [exact Ht|exact Hro].
Defined.

(** ** The clock of the timer *)

Section TimerViewFacts.
Import TimerView.

Lemma string_length_app (s t : string) :
  String.length (s +:+ t) = (String.length s + String.length t)%nat.
Proof. induction s as [|a s IH]; simpl; [done|by rewrite IH]. Qed.

Lemma string_app_inj_length (s1 s2 t1 t2 : string) :
  String.length s1 = String.length s2 →
  s1 +:+ t1 = s2 +:+ t2 → s1 = s2 ∧ t1 = t2.
Proof.
  revert s2. induction s1 as [|a s1 IH]; intros [|b s2] Hlen Heq;
    simpl in *; try done.
  injection Heq as -> Heq. destruct (IH s2) as [-> ->]; [lia|done|done].
Qed.

Lemma pad2_below_100 (n : Z) : 0 ≤ n < 100 → pad2 n = twoDigits n.
Proof.
  intros Hn.
  assert (forallb (λ k, bool_decide (pad2 (Z.of_nat k) = twoDigits (Z.of_nat k)))
            (seq 0 100) = true) as Hall by (vm_compute; reflexivity).
  rewrite forallb_forall in Hall.
  specialize (Hall (Z.to_nat n)). rewrite Z2Nat.id in Hall by lia.
  eapply bool_decide_eq_true_1, Hall, in_seq. lia.
Qed.

Lemma digit_inj (a b : Z) :
  0 ≤ a < 10 → 0 ≤ b < 10 → digit a = digit b → a = b.
Proof.
  intros Ha Hb H. apply pretty_N_char_inj in H; lia.
Qed.

Lemma twoDigits_inj (a b : Z) :
  0 ≤ a < 100 → 0 ≤ b < 100 → twoDigits a = twoDigits b → a = b.
Proof.
  intros Ha Hb [= H1 H2].
  apply digit_inj in H1; [|split..];
    try (apply Z.div_pos; lia); try (apply Z.div_lt_upper_bound; lia).
  apply digit_inj in H2; try (apply Z.mod_pos_bound; lia).
  rewrite (Z.div_mod a 10), (Z.div_mod b 10) by lia. lia.
Qed.

Lemma pretty_N_go_length (x : N) (s : string) :
  (String.length s ≤ String.length (pretty_N_go x s))%nat
  ∧ ((0 < x)%N →
     (S (String.length s) ≤ String.length (pretty_N_go x s))%nat)
  ∧ ((10 ≤ x)%N →
     (S (S (String.length s)) ≤ String.length (pretty_N_go x s))%nat).
Proof.
  revert s. induction (N.lt_wf_0 x) as [x _ IH]; intros s.
  destruct (decide (x = 0)%N) as [->|Hx].
  { rewrite pretty_N_go_0. repeat split; lia. }
  rewrite pretty_N_go_step by lia.
  destruct (IH (x `div` 10)%N (N.div_lt x 10 ltac:(lia) ltac:(lia))
              (String (pretty_N_char (x `mod` 10)) s)) as (H0 & H1 & _).
  simpl in *. repeat split; try lia.
  intros Hten. apply H1. apply N.div_str_pos. lia.
Qed.

Lemma pad2_long (n : Z) : 100 ≤ n → pad2 n = pretty n.
Proof.
  intros Hn. unfold pad2, padStart2.
  destruct n as [|p|p]; try lia.
  unfold pretty at 1, pretty_Z, pretty, pretty_positive, pretty, pretty_N.
  rewrite decide_False by done.
  destruct (pretty_N_go_length (N.pos p) "") as (_ & _ & H10).
  specialize (H10 ltac:(lia)). simpl in H10.
  destruct (String.length (pretty_N_go (N.pos p) "")) as [|[|k]]; (lia || done).
Qed.

Lemma pad2_length (n : Z) :
  0 ≤ n →
  (n < 100 → String.length (pad2 n) = 2%nat)
  ∧ (100 ≤ n → (3 ≤ String.length (pad2 n))%nat).
Proof.
  intros Hn. split.
  - intros Hlt. by rewrite pad2_below_100.
  - intros Hge. rewrite pad2_long by done.
    destruct n as [|p|p]; try lia.
    unfold pretty, pretty_Z, pretty, pretty_positive, pretty, pretty_N.
    rewrite decide_False by done.
    destruct (pretty_N_go_length (N.pos p) "") as (_ & _ & H10).
    specialize (H10 ltac:(lia)).
    rewrite pretty_N_go_step by lia.
    destruct (pretty_N_go_length (N.pos p `div` 10)
                (String (pretty_N_char (N.pos p `mod` 10)) ""))
      as (_ & _ & H100).
    apply H100. apply N.div_le_lower_bound; lia.
Qed.

Lemma pad2_inj (a b : Z) : 0 ≤ a → 0 ≤ b → pad2 a = pad2 b → a = b.
Proof.
  intros Ha Hb Heq.
  destruct (pad2_length a Ha) as [Ha2 Ha3].
  destruct (pad2_length b Hb) as [Hb2 Hb3].
  destruct (Z.lt_ge_cases a 100) as [Hal|Hag],
           (Z.lt_ge_cases b 100) as [Hbl|Hbg].
  - rewrite !pad2_below_100 in Heq by lia. apply twoDigits_inj in Heq; lia.
  - specialize (Ha2 Hal). specialize (Hb3 Hbg). rewrite Heq in Ha2. lia.
  - specialize (Ha3 Hag). specialize (Hb2 Hbl). rewrite Heq in Ha3. lia.
  - rewrite !pad2_long in Heq by done. by apply (inj pretty).
Qed.

Lemma time_parts (seconds : Z) :
  0 ≤ seconds →
  hours seconds * 3600 + minutes seconds * 60 + secs seconds = seconds
  ∧ 0 ≤ hours seconds
  ∧ 0 ≤ minutes seconds < 60
  ∧ 0 ≤ secs seconds < 60.
Proof.
  intros H. unfold hours, minutes, secs.
  rewrite !Z.rem_mod_nonneg by lia.
  pose proof (Z.div_mod seconds 3600 ltac:(lia)).
  pose proof (Z.mod_pos_bound seconds 3600 ltac:(lia)).
  pose proof (Z.div_mod (seconds mod 3600) 60 ltac:(lia)).
  pose proof (Z.mod_pos_bound (seconds mod 3600) 60 ltac:(lia)).
  pose proof (Z.mod_pos_bound seconds 60 ltac:(lia)).
  assert ((seconds mod 3600) mod 60 = seconds mod 60) as Hmm.
  { apply Z.mod_mod_divide. exists 60. lia. }
  assert (0 ≤ seconds / 3600) by (apply Z.div_pos; lia).
  assert (0 ≤ seconds mod 3600 / 60) by (apply Z.div_pos; lia).
  assert (seconds mod 3600 / 60 < 60) by (apply Z.div_lt_upper_bound; lia).
  lia.
Qed.

Lemma formatTime_short (seconds : Z) :
  0 ≤ seconds < 3600 →
  formatTime seconds
  = twoDigits (minutes seconds) +:+ ":" +:+ twoDigits (secs seconds).
Proof.
  intros Hs. destruct (time_parts seconds ltac:(lia)) as (Hsum & Hh & Hm & Hsec).
  unfold formatTime.
  assert (hours seconds = 0) as -> by (unfold hours; apply Z.div_small; lia).
  simpl. by rewrite !pad2_below_100 by lia.
Qed.

Lemma formatTime_long (seconds : Z) :
  3600 ≤ seconds →
  formatTime seconds
  = pad2 (hours seconds) +:+ ":" +:+ twoDigits (minutes seconds)
      +:+ ":" +:+ twoDigits (secs seconds).
Proof.
  intros Hs. destruct (time_parts seconds ltac:(lia)) as (Hsum & Hh & Hm & Hsec).
  unfold formatTime.
  assert (0 < hours seconds) as Hpos.
  { unfold hours. apply Z.div_str_pos. lia. }
  destruct (Z.gtb_spec (hours seconds) 0); [|lia].
  by rewrite !(pad2_below_100 (minutes _)), !(pad2_below_100 (secs _)) by lia.
Qed.

Lemma formatTime_inj (a b : Z) :
  0 ≤ a → 0 ≤ b → formatTime a = formatTime b → a = b.
Proof.
  intros Ha Hb Heq.
  destruct (time_parts a Ha) as (Hsa & Hha & Hma & Hseca).
  destruct (time_parts b Hb) as (Hsb & Hhb & Hmb & Hsecb).
  assert (∀ x, 0 ≤ x → 3600 ≤ x →
            (8 ≤ String.length (formatTime x))%nat
            ∧ String.length (formatTime x)
              = (String.length (pad2 (hours x)) + 6)%nat) as Hlong.
  { intros x Hx0 Hx. rewrite formatTime_long by done.
    rewrite string_length_app. simpl.
    destruct (pad2_length (hours x)) as [H2 H3].
    { unfold hours. apply Z.div_pos; lia. }
    destruct (Z.lt_ge_cases (hours x) 100) as [Hl|Hg];
      [rewrite (H2 Hl)|specialize (H3 Hg)]; lia. }
  assert (∀ x, 0 ≤ x < 3600 → String.length (formatTime x) = 5%nat) as Hshort.
  { intros x Hx. by rewrite formatTime_short. }
  destruct (Z.lt_ge_cases a 3600) as [Hal|Hag],
           (Z.lt_ge_cases b 3600) as [Hbl|Hbg].
  - rewrite !formatTime_short in Heq by lia.
    apply string_app_inj_length in Heq as [Hm Hrest]; [|done].
    apply string_app_inj_length in Hrest as [_ Hs]; [|done].
    apply twoDigits_inj in Hm; [|lia..].
    apply twoDigits_inj in Hs; [|lia..].
    assert (hours a = 0) by (unfold hours; apply Z.div_small; lia).
    assert (hours b = 0) by (unfold hours; apply Z.div_small; lia).
    lia.
  - pose proof (Hshort a ltac:(lia)). destruct (Hlong b Hb Hbg).
    rewrite Heq in *. lia.
  - pose proof (Hshort b ltac:(lia)). destruct (Hlong a Ha Hag).
    rewrite Heq in *. lia.
  - destruct (Hlong a Ha Hag) as [_ Hla]. destruct (Hlong b Hb Hbg) as [_ Hlb].
    rewrite Heq in Hla. rewrite !formatTime_long in Heq by done.
    apply string_app_inj_length in Heq as [Hh Hrest]; [|lia].
    apply string_app_inj_length in Hrest as [_ Hrest]; [|done].
    apply string_app_inj_length in Hrest as [Hm Hrest]; [|done].
    apply string_app_inj_length in Hrest as [_ Hs]; [|done].
    apply pad2_inj in Hh; [|done..].
    apply twoDigits_inj in Hm; [|lia..].
    apply twoDigits_inj in Hs; [|lia..].
    lia.
Qed.

End TimerViewFacts.

(** X12.  For a non-negative number of seconds the clock splits the time
    into hours, minutes below 60 and seconds below 60 that add up to it
    again.  Below one hour it shows exactly two digits of minutes, a colon
    and two digits of seconds; from one hour on the hours, padded to two
    digits, come first.  Two different times are never shown alike. *)
Theorem X12_clock_shows_the_time (seconds : Z) :
  0 ≤ seconds →
  TimerView.hours seconds * 3600 + TimerView.minutes seconds * 60
    + TimerView.secs seconds = seconds
  ∧ 0 ≤ TimerView.minutes seconds < 60
  ∧ 0 ≤ TimerView.secs seconds < 60
  ∧ (seconds < 3600 →
     TimerView.formatTime seconds
     = TimerView.twoDigits (TimerView.minutes seconds) +:+ ":"
         +:+ TimerView.twoDigits (TimerView.secs seconds))
  ∧ (3600 ≤ seconds →
     TimerView.formatTime seconds
     = TimerView.pad2 (TimerView.hours seconds) +:+ ":"
         +:+ TimerView.twoDigits (TimerView.minutes seconds) +:+ ":"
         +:+ TimerView.twoDigits (TimerView.secs seconds))
  ∧ (∀ other, 0 ≤ other →
       TimerView.formatTime other = TimerView.formatTime seconds →
       other = seconds).
Proof.
  intros Hs. destruct (time_parts seconds Hs) as (Hsum & _ & Hm & Hsec).
  split; [exact Hsum|]. split; [exact Hm|]. split; [exact Hsec|].
  split; [intros; by apply formatTime_short|].
  split; [apply formatTime_long|].
  intros other Ho Heq. by apply formatTime_inj.
Qed.

Lemma X12_witness :
  0 ≤ 754
  ∧ TimerView.formatTime 754 = "12:34"
  ∧ TimerView.formatTime 3725 = "01:02:05".
Proof.
  assert (0 ≤ 754) as H1 by lia. assert (0 ≤ 3725) as H2 by lia.
  destruct (X12_clock_shows_the_time 754 H1) as (_ & _ & _ & Hshort & _).
  destruct (X12_clock_shows_the_time 3725 H2) as (_ & _ & _ & _ & Hlong & _).
  split; [exact H1|]. split.
  - rewrite Hshort by lia. reflexivity.
  - rewrite Hlong by lia. reflexivity.
Defined.

(** X13.  While the timer counts down from a duration [d >= 0], what it
    shows depends only on the time left, [max 0 (d - n)] after [n] ticks: no
    hint above five minutes, 'Hurry up!' from five minutes down to just above
    one, 'Time almost up!' with the alert icon from one minute on.  The hint
    never goes back: once shown it stays, and once it says 'Time almost up!'
    it keeps saying so. *)
Theorem X13_hints_only_get_more_urgent (d : Z) (n m : nat) :
  0 ≤ d → (n ≤ m)%nat →
  let left k := Timer.timeLeft (fst (Timer.ticks k (Timer.mount d))) in
  (TimerView.hint (left n) = TimerView.NoHint ↔ 300 < d - Z.of_nat n)
  ∧ (TimerView.hint (left n) = TimerView.HurryUp
     ↔ 60 < d - Z.of_nat n ≤ 300)
  ∧ (TimerView.hint (left n) = TimerView.TimeAlmostUp ↔ d - Z.of_nat n ≤ 60)
  ∧ (TimerView.icon (left n) = TimerView.AlertTriangle
     ↔ TimerView.hint (left n) = TimerView.TimeAlmostUp)
  ∧ (TimerView.hint (left n) ≠ TimerView.NoHint →
     TimerView.hint (left m) ≠ TimerView.NoHint)
  ∧ (TimerView.hint (left n) = TimerView.TimeAlmostUp →
     TimerView.hint (left m) = TimerView.TimeAlmostUp).
Proof.
  intros Hd Hnm left.
  assert (∀ k : nat, left k = Z.max 0 (d - Z.of_nat k)) as Hleft.
  { intros k. subst left. simpl.
    by rewrite (ticks_timeLeft k (Timer.mount d)). }
  unfold TimerView.hint, TimerView.icon, TimerView.isWarning,
    TimerView.isCritical.
  rewrite (Hleft n), (Hleft m).
  destruct (Z.leb_spec (Z.max 0 (d - Z.of_nat n)) 300),
           (Z.leb_spec (Z.max 0 (d - Z.of_nat n)) 60),
           (Z.leb_spec (Z.max 0 (d - Z.of_nat m)) 300),
           (Z.leb_spec (Z.max 0 (d - Z.of_nat m)) 60);
    repeat split; intros; try done; try lia.
Qed.

Lemma X13_witness :
  0 ≤ 600 ∧ (300 ≤ 540)%nat
  ∧ TimerView.hint
      (Timer.timeLeft (fst (Timer.ticks 300 (Timer.mount 600))))
    = TimerView.HurryUp
  ∧ TimerView.hint
      (Timer.timeLeft (fst (Timer.ticks 540 (Timer.mount 600))))
    = TimerView.TimeAlmostUp.
Proof.
  assert (0 ≤ 600) as Hd by lia. assert (300 ≤ 540)%nat as Hnm by lia.
  destruct (X13_hints_only_get_more_urgent 600 300 540 Hd Hnm)
    as (_ & Hh & _).
  destruct (X13_hints_only_get_more_urgent 600 540 540 Hd (le_n _))
    as (_ & _ & Ha & _).
  split; [exact Hd|]. split; [exact Hnm|].
  split; [apply Hh; lia|apply Ha; lia].
Defined.

(** ** The page with its timer *)

Lemma inRange_currentQuestion (r : RState) :
  inRange r → is_Some (currentQuestion r).
Proof.
  intros [Hlo Hhi]. unfold currentQuestion.
  destruct (Z.leb_spec 0 (currentQuestionIndex r)); [|lia].
  apply lookup_lt_is_Some_2. lia.
Qed.

Lemma timerDuration_armed (r : RState) (currentTest : TestData) :
  inRange r → testData r = Some currentTest → timeUp r = false →
  td_timer_seconds currentTest ≠ 0 →
  timerDuration r = Some (td_timer_seconds currentTest).
Proof.
  intros Hin Htd Hu Hd. unfold timerDuration.
  destruct (inRange_currentQuestion r Hin) as [q ->]. rewrite Htd, Hu.
  by destruct (Z.eqb_spec (td_timer_seconds currentTest) 0).
Qed.

(** The three ways in which the page has no [Timer]. *)
Lemma timerDuration_gone (r : RState) :
  timeUp r = true ∨ questions r = []
  ∨ (∃ currentTest, testData r = Some currentTest
                    ∧ td_timer_seconds currentTest = 0) →
  timerDuration r = None.
Proof.
  unfold timerDuration. intros [Hu|[Hq|(currentTest & Htd & Hd)]].
  - destruct (currentQuestion r); [|done]. destruct (testData r); [|done].
    by rewrite Hu, andb_false_r.
  - unfold currentQuestion. rewrite Hq.
    by destruct (0 <=? currentQuestionIndex r).
  - destruct (currentQuestion r); [|done]. by rewrite Htd, Hd.
Qed.

Lemma quiet_step_timer ev s :
  quiet ev = true →
  testData (st (step ev s)) = testData (st s)
  ∧ timeUp (st (step ev s)) = timeUp (st s)
  ∧ questions (st (step ev s)) = questions (st s).
Proof.
  intros Hev. unfold step. change (st (commit ?x)) with (st x).
  rewrite handle_questions.
  assert (testData (st (handle ev s)) = testData (st s)
          ∧ timeUp (st (handle ev s)) = timeUp (st s)) as [Htd Htu].
  { destruct ev; try done; simpl.
    - unfold handleAnswerSelect. by destruct (currentQuestion _).
    - unfold handleClearAnswer. by destruct (currentQuestion _).
    - unfold handleNext. by destruct (_ <? _).
    - unfold handlePrevious. by destruct (_ >? _). }
  done.
Qed.

(** What the page offers moves the cursor only to questions of the test. *)
Lemma calm_step_inRange ev s :
  stable s → calm (length (questions (st s))) (OnPage ev) = true →
  inRange (st s) →
  quiet ev = true ∧ inRange (st (step ev s)).
Proof.
  intros [_ Hrs] Hcalm Hin. unfold step.
  change (st (commit ?x)) with (st x).
  destruct ev; try done; cbn [calm quiet handle] in *;
    (split; [done|]); rewrite ?Hrs.
  - unfold handleAnswerSelect. by destruct (currentQuestion _).
  - unfold handleClearAnswer. by destruct (currentQuestion _).
  - by apply handleNext_inRange.
  - by apply handlePrevious_inRange.
  - apply andb_true_iff in Hcalm as [Hlo Hhi].
    apply Z.leb_le in Hlo. apply Z.ltb_lt in Hhi.
    unfold inRange, handleQuestionJump. cbn. lia.
Qed.

(** The page before the timer has run out: idle, nothing sent, the cursor
    on a question, the timer mounted with [n] ticks gone. *)
Lemma armed_step (currentTest : TestData) (p : Page) (n : nat) pev :
  let d := td_timer_seconds currentTest in
  calm (length (td_questions currentTest)) pev = true →
  Z.of_nat n + 1 < d ∨ pev ≠ Tick →
  stable (session p) → isSubmitting (st (session p)) = false →
  timeUp (st (session p)) = false →
  testData (st (session p)) = Some currentTest →
  questions (st (session p)) = td_questions currentTest →
  inRange (st (session p)) →
  submitCalls (session p) = [] →
  timer p = Some (d, {| Timer.timeLeft := d - Z.of_nat n;
                        Timer.timeUpCalledRef := false |}) →
  d ≠ 0 →
  let p' := pageStep pev p in
  let n' := match pev with Tick => S n | OnPage _ => n end in
  stable (session p') ∧ isSubmitting (st (session p')) = false
  ∧ timeUp (st (session p')) = false
  ∧ testData (st (session p')) = Some currentTest
  ∧ questions (st (session p')) = td_questions currentTest
  ∧ inRange (st (session p'))
  ∧ submitCalls (session p') = []
  ∧ timer p' = Some (d, {| Timer.timeLeft := d - Z.of_nat n';
                           Timer.timeUpCalledRef := false |}).
Proof.
  intros d Hcalm Hroom Hs Hi Hu Htd Hq Hin Hc Ht Hd0 p' n'.
  pose proof Hs as [_ Hrs].
  destruct pev as [|ev]; subst p' n';
    [replace (Z.of_nat (S n)) with (Z.of_nat n + 1) by lia; simpl
    |cbn [pageStep session timer]].
  - rewrite Ht, Hrs, Hi. unfold Timer.tick. simpl.
    destruct (Z.leb_spec (d - Z.of_nat n) 1) as [Hle|Hgt].
    { destruct Hroom; [lia|done]. }
    simpl. unfold renderTimer.
    rewrite Hrs, (timerDuration_armed _ currentTest Hin Htd Hu Hd0).
    fold d. rewrite Z.eqb_refl.
    do 7 (split; [done|]). do 3 f_equal. lia.
  - rewrite <- Hq in Hcalm.
    destruct (calm_step_inRange ev _ Hs Hcalm Hin) as [Hquiet Hin'].
    destruct (quiet_step_frame ev _ Hs Hquiet) as (_ & Hdeps & _ & Hcalls & _).
    destruct (quiet_step_timer ev (session p) Hquiet) as (Htd' & Hu' & Hq').
    pose proof (step_stable ev _ Hs) as Hs'. pose proof Hs' as [_ Hrs'].
    rewrite Htd in Htd'. rewrite Hu in Hu'. rewrite Hq in Hq'.
    unfold renderTimer.
    rewrite Hrs', (timerDuration_armed _ currentTest Hin' Htd' Hu' Hd0), Ht.
    fold d. rewrite Z.eqb_refl.
    split; [done|]. split; [unfold focusDeps in Hdeps; congruence|].
    split; [done|]. split; [done|]. split; [done|]. split; [done|].
    split; [congruence|done].
Qed.

Lemma armed_run (currentTest : TestData) (pevs : list PageEvent) (p : Page)
    (n : nat) :
  let d := td_timer_seconds currentTest in
  Forall (λ pev, calm (length (td_questions currentTest)) pev = true) pevs →
  Z.of_nat (n + ticksIn pevs) < d →
  stable (session p) → isSubmitting (st (session p)) = false →
  timeUp (st (session p)) = false →
  testData (st (session p)) = Some currentTest →
  questions (st (session p)) = td_questions currentTest →
  inRange (st (session p)) →
  submitCalls (session p) = [] →
  timer p = Some (d, {| Timer.timeLeft := d - Z.of_nat n;
                        Timer.timeUpCalledRef := false |}) →
  d ≠ 0 →
  let p' := runPage pevs p in
  stable (session p') ∧ isSubmitting (st (session p')) = false
  ∧ timeUp (st (session p')) = false
  ∧ testData (st (session p')) = Some currentTest
  ∧ questions (st (session p')) = td_questions currentTest
  ∧ inRange (st (session p'))
  ∧ submitCalls (session p') = []
  ∧ timer p' = Some (d, {| Timer.timeLeft := d - Z.of_nat (n + ticksIn pevs);
                           Timer.timeUpCalledRef := false |}).
Proof.
  intros d Hcalm. revert p n.
  induction Hcalm as [|pev pevs Hpev _ IH];
    intros p n Hroom Hs Hi Hu Htd Hq Hin Hc Ht Hd0.
  { simpl. rewrite Nat.add_0_r. done. }
  change (runPage (pev :: pevs) p) with (runPage pevs (pageStep pev p)).
  destruct (armed_step currentTest p n pev Hpev)
    as (Hs' & Hi' & Hu' & Htd' & Hq' & Hin' & Hc' & Ht'); try done.
  { destruct pev; [left; simpl in Hroom; lia|by right]. }
  destruct pev as [|ev]; simpl in *.
  - replace (n + S (ticksIn pevs))%nat with (S n + ticksIn pevs)%nat by lia.
    apply IH; try done. lia.
  - by apply IH.
Qed.

(** The page without a timer, because the time is up, because the test has
    no question or because it has no duration: nothing calm brings the timer
    back or sends anything. *)
Lemma expired_run (n : nat) (pevs : list PageEvent) (p : Page) :
  Forall (λ pev, calm n pev = true) pevs →
  stable (session p) → timer p = None →
  timeUp (st (session p)) = true ∨ questions (st (session p)) = []
  ∨ (∃ currentTest, testData (st (session p)) = Some currentTest
                    ∧ td_timer_seconds currentTest = 0) →
  submitCalls (session (runPage pevs p)) = submitCalls (session p)
  ∧ timer (runPage pevs p) = None
  ∧ timeUp (st (session (runPage pevs p))) = timeUp (st (session p))
  ∧ isSubmitting (st (session (runPage pevs p)))
    = isSubmitting (st (session p)).
Proof.
  intros Hcalm. revert p.
  induction Hcalm as [|pev pevs Hpev _ IH]; intros p Hs Ht Hgone; [done|].
  change (runPage (pev :: pevs) p) with (runPage pevs (pageStep pev p)).
  destruct pev as [|ev].
  - assert (pageStep Tick p = p) as -> by (simpl; by rewrite Ht).
    by apply IH.
  - assert (quiet ev = true) as Hquiet.
    { destruct ev; try done. }
    destruct (quiet_step_frame ev _ Hs Hquiet) as (_ & Hdeps & _ & Hcalls & _).
    destruct (quiet_step_timer ev (session p) Hquiet) as (Htd' & Hu' & Hq').
    pose proof (step_stable ev _ Hs) as Hs'. pose proof Hs' as [_ Hrs'].
    assert (timeUp (st (step ev (session p))) = true
            ∨ questions (st (step ev (session p))) = []
            ∨ (∃ currentTest,
                 testData (st (step ev (session p))) = Some currentTest
                 ∧ td_timer_seconds currentTest = 0)) as Hgone'.
    { by rewrite Htd', Hu', Hq'. }
    destruct (IH (pageStep (OnPage ev) p)) as (H1 & H2 & H3 & H4).
    + exact Hs'.
    + cbn [pageStep timer]. unfold renderTimer.
      by rewrite Hrs', (timerDuration_gone _ Hgone').
    + exact Hgone'.
    + rewrite H1, H3, H4. split; [exact Hcalls|]. split; [exact H2|].
      split; [exact Hu'|].
      change (isSubmitting (st (step ev (session p)))
              = isSubmitting (st (session p))).
      unfold focusDeps in Hdeps. congruence.
Qed.

(** X14.  The page with its timer, under ticks and under what the page
    offers besides submitting: selecting, clearing, Next, Previous and the
    palette buttons of the questions.  The page renders the timer only when
    it has a current question and [timer_seconds] is not 0: a test without
    questions, and a test whose [timer_seconds] is 0, gets no timer at all
    and is never submitted by time.  For a test with questions and
    [timer_seconds = d >= 1], as long as fewer than [d] ticks have happened
    nothing is sent and the timer shows [d] minus the ticks; the [d]-th tick
    sends exactly one request, built from the questions and answers as they
    are at that moment, sets [timeUp] and [isSubmitting] and removes the
    timer; whatever of these events follow, nothing more is sent. *)
Theorem X14_timer_expiry_submits_once tid currentTest :
  let d := td_timer_seconds currentTest in
  let k := length (td_questions currentTest) in
  let start := mountPage tid currentTest in
  (d = 0 ∨ k = 0%nat →
   ∀ pevs, Forall (λ pev, calm k pev = true) pevs →
     timer (runPage pevs start) = None
     ∧ submitCalls (session (runPage pevs start)) = [])
  ∧ (1 ≤ d → k ≠ 0%nat →
     (∀ pevs, Forall (λ pev, calm k pev = true) pevs →
        Z.of_nat (ticksIn pevs) < d →
        submitCalls (session (runPage pevs start)) = []
        ∧ timeUp (st (session (runPage pevs start))) = false
        ∧ timer (runPage pevs start)
          = Some (d, {| Timer.timeLeft := d - Z.of_nat (ticksIn pevs);
                        Timer.timeUpCalledRef := false |}))
     ∧ (∀ before after,
          Forall (λ pev, calm k pev = true) before →
          Forall (λ pev, calm k pev = true) after →
          Z.of_nat (ticksIn before) = d - 1 →
          let p0 := runPage before start in
          let p := runPage (before ++ Tick :: after) start in
          submitCalls (session p) = [requestOf (st (session p0))]
          ∧ timeUp (st (session p)) = true
          ∧ isSubmitting (st (session p)) = true
          ∧ timer p = None)).
Proof.
  intros d k start.
  assert (stable (session start)) as Hs0 by apply mount_stable.
  assert (rendered (mount tid currentTest) = st (session start)) as Hr0
    by apply mount_stable.
  assert (testData (st (session start)) = Some currentTest) as Htd0 by done.
  assert (questions (st (session start)) = td_questions currentTest) as Hq0
    by done.
  assert (timer start = renderTimer (mount tid currentTest) None) as Htimer
    by done.
  split.
  - intros Hnone pevs Hcalm.
    assert (timeUp (st (session start)) = true
            ∨ questions (st (session start)) = []
            ∨ (∃ ct, testData (st (session start)) = Some ct
                     ∧ td_timer_seconds ct = 0)) as Hgone.
    { destruct Hnone as [Hd|Hk].
      - right. right. by exists currentTest.
      - right. left. rewrite Hq0. by apply nil_length_inv. }
    destruct (expired_run k pevs start Hcalm Hs0) as (Hc & Ht & _);
      [|exact Hgone|].
    + rewrite Htimer. unfold renderTimer.
      by rewrite Hr0, (timerDuration_gone _ Hgone).
    + split; [exact Ht|]. by rewrite Hc.
  - intros Hd Hk.
    assert (d ≠ 0) as Hd0 by lia.
    assert (inRange (st (session start))) as Hin0.
    { unfold inRange. rewrite Hq0. fold k.
      change (currentQuestionIndex (st (session start))) with 0. lia. }
    assert (timer start
            = Some (d, {| Timer.timeLeft := d - Z.of_nat 0;
                          Timer.timeUpCalledRef := false |})) as Ht0.
    { rewrite Htimer. unfold renderTimer.
      rewrite Hr0, (timerDuration_armed _ currentTest Hin0 Htd0 eq_refl Hd0).
      unfold Timer.mount. fold d. do 3 f_equal. simpl. lia. }
    assert (∀ pevs, Forall (λ pev, calm k pev = true) pevs →
              Z.of_nat (ticksIn pevs) < d →
              let p' := runPage pevs start in
              stable (session p') ∧ isSubmitting (st (session p')) = false
              ∧ timeUp (st (session p')) = false
              ∧ testData (st (session p')) = Some currentTest
              ∧ questions (st (session p')) = td_questions currentTest
              ∧ inRange (st (session p'))
              ∧ submitCalls (session p') = []
              ∧ timer p'
                = Some (d, {| Timer.timeLeft := d - Z.of_nat (ticksIn pevs);
                              Timer.timeUpCalledRef := false |})) as Harmed.
    { intros pevs Hcalm Hroom.
      apply (armed_run currentTest pevs start 0 Hcalm); try done. }
    split.
    + intros pevs Hcalm Hroom.
      destruct (Harmed pevs Hcalm Hroom) as (_ & _ & Hu & _ & _ & _ & Hc & Ht).
      done.
    + intros before after Hb Ha Hn p0 p.
      destruct (Harmed before Hb ltac:(lia))
        as (Hs & Hi & Hu & Htd & Hq & Hin & Hc & Ht).
      fold p0 in Hs, Hi, Hu, Htd, Hq, Hin, Hc, Ht.
      destruct (idle_facts _ Hs Hi) as (Hrs & Hr & Hts & Haw).
      assert (p = runPage after (pageStep Tick p0)) as ->.
      { subst p p0. unfold runPage. by rewrite foldl_app. }
      clearbody p0.
      assert (submitCalls (step TimeUp (session p0))
              = [requestOf (st (session p0))]
              ∧ timeUp (st (step TimeUp (session p0))) = true
              ∧ isSubmitting (st (step TimeUp (session p0))) = true)
        as (Hc1 & Hu1 & Hi1).
      { unfold step. cbn [handle]. unfold handleTimeUp, handleSubmitTest.
        rewrite Hrs, Hi, Hts, Hr, Hu. simpl. rewrite Hr. simpl.
        by rewrite Hc. }
      pose proof (step_stable TimeUp _ Hs) as Hs1.
      assert (pageStep Tick p0
              = {| session := step TimeUp (session p0); timer := None |})
        as Hfire.
      { cbn [pageStep]. rewrite Ht, Hrs, Hi. unfold Timer.tick.
        cbn [Timer.timeLeft Timer.timeUpCalledRef]. rewrite Hn.
        replace (d - (d - 1)) with 1 by lia. simpl negb.
        change (1 <=? 1) with true. cbn [andb]. f_equal.
        unfold renderTimer. destruct Hs1 as [_ ->].
        by rewrite (timerDuration_gone _ (or_introl Hu1)). }
      rewrite Hfire.
      destruct (expired_run k after
                  {| session := step TimeUp (session p0); timer := None |} Ha)
        as (H1 & H2 & H3 & H4).
      * exact Hs1.
      * done.
      * by left.
      * cbn [session] in H1, H3, H4. by rewrite H1, H2, H3, H4.
Qed.

Lemma X14_witness :
  1 ≤ td_timer_seconds sampleTest
  ∧ length (td_questions sampleTest) ≠ 0%nat
  ∧ (req_answers <$>
       submitCalls (session
         (runPage ((replicate 100 Tick ++ OnPage (AnswerSelect 0 5000 "A")
                      :: replicate 79 Tick)
                   ++ Tick :: [Tick; OnPage (QuestionJump 2); Tick])
            (mountPage "42" sampleTest))))
    = [answersArray (td_questions sampleTest)
         (answers (st answeredSession))].
Proof.
  assert (1 ≤ td_timer_seconds sampleTest) as Hd by (vm_compute; discriminate).
  assert (length (td_questions sampleTest) ≠ 0%nat) as Hk by discriminate.
  destruct (X14_timer_expiry_submits_once "42" sampleTest) as [_ Hrun].
  destruct (Hrun Hd Hk) as [_ Hfire].
  split; [exact Hd|]. split; [exact Hk|].
  destruct (Hfire
    (replicate 100 Tick ++ OnPage (AnswerSelect 0 5000 "A")
       :: replicate 79 Tick)
    [Tick; OnPage (QuestionJump 2); Tick]) as (Hc & _).
  - apply Forall_app. split; [|constructor; [reflexivity|]];
      apply Forall_replicate; reflexivity.
  - repeat constructor.
  - vm_compute. reflexivity.
  - rewrite Hc. vm_compute. reflexivity.
Defined.

(** ** The reducer of the context *)

Section TestContextFacts.

Import TestContext.

Lemma dispatchAll_snoc (actions : list Action) (a : Action) (s : State) :
  dispatchAll (actions ++ [a]) s = testReducer (dispatchAll actions s) a.
Proof. unfold dispatchAll. by rewrite foldl_app. Qed.

Lemma reset_determined (s s' : State) :
  user s = user s' → subjects s = subjects s' → topics s = topics s' →
  testReducer s RESET_TEST = testReducer s' RESET_TEST.
Proof. intros H1 H2 H3. cbn [testReducer]. by rewrite H1, H2, H3. Qed.

Lemma catalogue_frame (s : State) (a : Action) :
  catalogue a = false →
  user (testReducer s a) = user s
  ∧ subjects (testReducer s a) = subjects s
  ∧ topics (testReducer s a) = topics s.
Proof. by destruct a. Qed.

Lemma catalogue_determined (s s' : State) (a : Action) :
  user s = user s' → subjects s = subjects s' → topics s = topics s' →
  user (testReducer s a) = user (testReducer s' a)
  ∧ subjects (testReducer s a) = subjects (testReducer s' a)
  ∧ topics (testReducer s a) = topics (testReducer s' a).
Proof. intros H1 H2 H3. by destruct a. Qed.

Lemma dispatchAll_catalogue (actions : list Action) (s : State) :
  let kept := filter (λ a, catalogue a = true) actions in
  user (dispatchAll actions s) = user (dispatchAll kept s)
  ∧ subjects (dispatchAll actions s) = subjects (dispatchAll kept s)
  ∧ topics (dispatchAll actions s) = topics (dispatchAll kept s).
Proof.
  induction actions as [|a actions IH] using rev_ind; [done|].
  cbn zeta in *. destruct IH as (H1 & H2 & H3).
  rewrite filter_app, dispatchAll_snoc.
  destruct (catalogue a) eqn:Ha.
  - rewrite filter_cons_True, filter_nil by done.
    rewrite dispatchAll_snoc. by apply catalogue_determined.
  - rewrite filter_cons_False, filter_nil, app_nil_r by (by rewrite Ha).
    destruct (catalogue_frame (dispatchAll actions s) a Ha) as (-> & -> & ->).
    done.
Qed.

(** X15.  [RESET_TEST] forgets every earlier action except those that set
    the user, the subjects or the topics: dispatching it after a list of
    actions gives the same state as dispatching it after these three kinds
    of action alone.  In particular, after actions of the other kinds it
    brings the initial state back. *)
Theorem X15_reset_forgets_the_selection (actions : list Action) (s : State) :
  testReducer (dispatchAll actions s) RESET_TEST
  = testReducer
      (dispatchAll (filter (λ a, catalogue a = true) actions) s) RESET_TEST
  ∧ (Forall (λ a, catalogue a = false) actions →
     dispatchAll (actions ++ [RESET_TEST]) initialState = initialState).
Proof.
  destruct (dispatchAll_catalogue actions s) as (H1 & H2 & H3).
  split; [by apply reset_determined|].
  intros Hnone. rewrite dispatchAll_snoc.
  destruct (dispatchAll_catalogue actions initialState) as (G1 & G2 & G3).
  assert (filter (λ a, catalogue a = true) actions = []) as Hf.
  { clear -Hnone. induction Hnone as [|a l Ha _ IH]; [done|].
    rewrite filter_cons_False by (by rewrite Ha). done. }
  rewrite Hf in G1, G2, G3. cbn [testReducer]. rewrite G1, G2, G3. done.
Qed.

Lemma X15_witness :
  Forall (λ a, catalogue a = false)
    [SET_SELECTED_SUBJECT (Some Selection.physics);
     SET_SELECTED_TOPIC (Some Selection.optics); SET_QUESTION_COUNT 25;
     SET_TEST_RESULTS (Some {| success := true; message := None |})]
  ∧ dispatchAll
      ([SET_SELECTED_SUBJECT (Some Selection.physics);
        SET_SELECTED_TOPIC (Some Selection.optics); SET_QUESTION_COUNT 25;
        SET_TEST_RESULTS (Some {| success := true; message := None |})]
       ++ [RESET_TEST]) initialState
    = initialState.
Proof.
  assert (Forall (λ a, catalogue a = false)
    [SET_SELECTED_SUBJECT (Some Selection.physics);
     SET_SELECTED_TOPIC (Some Selection.optics); SET_QUESTION_COUNT 25;
     SET_TEST_RESULTS (Some {| success := true; message := None |})]) as H
    by (repeat constructor).
  split; [exact H|].
  exact (proj2 (X15_reset_forgets_the_selection _ initialState) H).
Defined.

(** ** The user and the stored token *)

Lemma dispatch_token (a : Action) (p : Provider) :
  token (dispatch a p) = token p.
Proof. done. Qed.

Lemma applyOp_keeps_user_with_token (op : Op) (p : Provider) :
  byComponent op = true →
  (is_Some (user (state p)) → is_Some (token p)) →
  is_Some (user (state (applyOp op p))) → is_Some (token (applyOp op p)).
Proof.
  intros Hop Hinv.
  destruct op as [userData tok| |a]; cbn [applyOp].
  - intros _. by eexists.
  - cbn. by intros [? ?].
  - destruct a; try done; cbn; exact Hinv.
Qed.

Lemma applyOp_loading (op : Op) (p : Provider) :
  loading (applyOp op p) = loading p.
Proof. by destruct op. Qed.

(** X16.  The user of the context and the stored token.  When the
    application starts, [validateToken] leaves a user in the context only if
    a non-empty token was stored and the back end accepted it and named the
    user; the token then stays stored.  In every other case the user is
    [null], and the token is gone from the storage unless it is the empty
    string, which is never looked up.  From then on, whatever the components
    do ([login], [logout], dispatching actions other than [SET_USER]), a user
    in the context means a token in the storage, and [loading] stays
    false. *)
Theorem X16_user_only_with_a_token (tok : option string) (reply : AuthReply)
    (ops : list Op) :
  let started := validateToken reply (boot tok) in
  (∀ u, user (state started) = Some u →
        tokenFound tok = true ∧ reply = Authenticated (Some u)
        ∧ token started = tok)
  ∧ (user (state started) = None →
     token started = None ∨ tok = Some "")
  ∧ (Forall (λ op, byComponent op = true) ops →
     loading (applyAll ops started) = false
     ∧ (is_Some (user (state (applyAll ops started))) →
        is_Some (token (applyAll ops started)))).
Proof.
  intros started. subst started. unfold validateToken, boot.
  cbn [token]. split; [|split].
  - intros u. destruct (tokenFound tok); [|done].
    destruct reply as [[u'|]| |]; cbn; try done.
    intros Hu. by simplify_eq.
  - intros Hu. destruct (tokenFound tok) eqn:Hfound.
    + left. by destruct reply as [[u'|]| |].
    + destruct tok as [t|]; [|by left]. right. cbn in Hfound.
      apply negb_false_iff, bool_decide_eq_true_1 in Hfound. by subst.
  - intros Hops.
    set (p0 := setLoading false _).
    assert (loading p0 = false
            ∧ (is_Some (user (state p0)) → is_Some (token p0))) as Hp0.
    { subst p0. split; [done|].
      destruct (tokenFound tok) eqn:Hf.
      - destruct reply as [[u'|]| |]; cbn; try by intros [? ?].
        intros _. destruct tok; [by eexists|done].
      - cbn. by intros [? ?]. }
    clearbody p0. revert p0 Hp0.
    induction Hops as [|op ops Hop _ IH]; intros p0 [Hl Hinv]; [done|].
    cbn [applyAll foldl]. apply IH. split.
    + by rewrite applyOp_loading.
    + by apply applyOp_keeps_user_with_token.
Qed.

Lemma X16_witness :
  Forall (λ op, byComponent op = true)
    [Logout; Login (Some {| username := "asha" |}) "t0k3n";
     Dispatch RESET_TEST]
  ∧ is_Some (token (applyAll
                      [Logout; Login (Some {| username := "asha" |}) "t0k3n";
                       Dispatch RESET_TEST]
                      (validateToken Rejected (boot (Some "stale"))))).
Proof.
  assert (Forall (λ op, byComponent op = true)
    [Logout; Login (Some {| username := "asha" |}) "t0k3n";
     Dispatch RESET_TEST]) as H by (repeat constructor).
  split; [exact H|].
  destruct (X16_user_only_with_a_token (Some "stale") Rejected
              [Logout; Login (Some {| username := "asha" |}) "t0k3n";
               Dispatch RESET_TEST])
    as (_ & _ & Hrun).
  destruct (Hrun H) as [_ Htok].
  apply Htok. vm_compute. eexists. reflexivity.
Defined.

End TestContextFacts.

(** ** Configuring a test *)

Section SelectionFacts.

Import TestContext Selection.

Lemma initialState_consistent : consistent initialState.
Proof.
  split; [by left| |].
  - unfold questionCounts. cbn. apply list_elem_of_further, list_elem_of_here.
  - cbn. by intros [? ?].
Qed.

Lemma perform_consistent (s : State) (ev : SelEvent) :
  consistent s → offered s ev = true → consistent (perform ev s).
Proof.
  intros [Hty Hcount Htopic] Hoff.
  destruct ev as [l|l|subject|ty|topic|count]; cbn [perform offered] in *.
  - by split.
  - by split.
  - split; cbn; [by left|done|]. by intros [? ?].
  - apply andb_true_iff in Hoff as [Hsub Hin].
    apply bool_decide_eq_true_1 in Hsub, Hin.
    unfold handleTestTypeChange.
    assert (ty = "topic" ∨ ty = "subject") as Hty'.
    { apply elem_of_cons in Hin as [->|Hin]; [by left|].
      apply list_elem_of_singleton in Hin. by right. }
    destruct Hty' as [-> | ->].
    + rewrite bool_decide_eq_false_2 by (intros H; by apply H).
      split; cbn; [by left|done|].
      intros Hsel. by destruct (Htopic Hsel).
    + rewrite bool_decide_eq_true_2 by done.
      split; cbn; [by right|done|]. by intros [? ?].
  - apply andb_true_iff in Hoff as [Hoff _].
    apply andb_true_iff in Hoff as [Hsub Hty'].
    apply bool_decide_eq_true_1 in Hsub, Hty'.
    split; cbn; [done|done|]. done.
  - apply andb_true_iff in Hoff as [_ Hin].
    apply bool_decide_eq_true_1 in Hin.
    split; cbn; done.
Qed.

Lemma elsewhere_consistent (s : State) (a : Action) :
  consistent s → elsewhere a = true → consistent (testReducer s a).
Proof.
  intros Hc Ha. destruct a; try done; try (by destruct Hc).
  destruct initialState_consistent as [Hty Hcount Htopic].
  by split.
Qed.

Lemma attainable_consistent (s : State) : attainable s → consistent s.
Proof.
  induction 1 as [|s ev _ IH Hoff|s a _ IH Ha].
  - apply initialState_consistent.
  - by apply perform_consistent.
  - by apply elsewhere_consistent.
Qed.

(** X17.  In every state the application can reach, the test type is
    ['topic'] or ['subject'], the question count is one of the counts of the
    buttons, and a topic is selected only together with a subject and the
    test type ['topic']. *)
Theorem X17_selection_stays_consistent (s : State) :
  attainable s →
  (testType s = "topic" ∨ testType s = "subject")
  ∧ questionCount s ∈ questionCounts
  ∧ (is_Some (selectedTopic s) →
     is_Some (selectedSubject s) ∧ testType s = "topic").
Proof.
  intros Hs. by destruct (attainable_consistent s Hs).
Qed.

Lemma physicsChosen_attainable : attainable physicsChosen.
Proof.
  unfold physicsChosen.
  repeat (apply attainable_event; [|vm_compute; reflexivity]).
  apply attainable_initial.
Qed.

Lemma X17_witness :
  attainable physicsChosen
  ∧ questionCount physicsChosen ∈ questionCounts
  ∧ selectedTopic physicsChosen = None.
Proof.
  split; [apply physicsChosen_attainable|].
  split; [|reflexivity].
  exact (proj1 (proj2 (X17_selection_stays_consistent physicsChosen
                         physicsChosen_attainable))).
Defined.

(** X18.  The Start button against the validation of [startTest].  In
    every state the application can reach, the button is rendered exactly
    when [startTest] would send a request rather than toast a validation
    message, so a click never produces either message.  The request names
    the selected subject and the question count, and it has a [topic_id],
    the selected topic's, exactly when the test type is ['topic']. *)
Theorem X18_start_button_passes_validation (s : State) :
  attainable s →
  (startShown s = true ↔ ∃ r, startTest s = Requested r)
  ∧ (∀ r, startTest s = Requested r →
       Some (subject_id r) = sb_id <$> selectedSubject s
       ∧ question_count r = questionCount s
       ∧ topic_id r = tp_id <$> selectedTopic s
       ∧ (is_Some (topic_id r) ↔ testType s = "topic")).
Proof.
  intros Hs. destruct (attainable_consistent s Hs) as [Hty _ Htopic].
  unfold startShown, startTest.
  destruct (selectedSubject s) as [subject|] eqn:Hsub.
  2:{ split; [split; [done|by intros [? ?]]|done]. }
  rewrite bool_decide_eq_true_2 by (by eexists). cbn [andb].
  destruct (selectedTopic s) as [topic|] eqn:Htop.
  - destruct (Htopic ltac:(by eexists)) as [_ Htype].
    rewrite Htype.
    rewrite !(bool_decide_eq_true_2 ("topic" = "topic")) by done.
    rewrite (bool_decide_eq_true_2 (is_Some (Some topic))) by (by eexists).
    rewrite orb_true_r. cbn [negb andb].
    split; [split; [by eexists|done]|].
    intros r [= <-]. cbn. repeat split; done.
  - rewrite (bool_decide_eq_false_2 (is_Some None)) by (by intros [? ?]).
    rewrite orb_false_r. cbn [negb]. rewrite andb_true_r.
    destruct Hty as [Hty|Hty]; rewrite Hty.
    + rewrite bool_decide_eq_false_2 by done.
      rewrite bool_decide_eq_true_2 by done.
      split; [split; [done|by intros [? ?]]|done].
    + rewrite bool_decide_eq_true_2 by done.
      rewrite bool_decide_eq_false_2 by done.
      split; [split; [by eexists|done]|].
      intros r [= <-]. cbn. repeat split; try done; by intros [? ?].
Qed.

Lemma X18_witness :
  attainable (perform (TopicClick optics) physicsChosen)
  ∧ startShown (perform (TopicClick optics) physicsChosen) = true
  ∧ startTest (perform (TopicClick optics) physicsChosen)
    = Requested {| subject_id := 1; question_count := 10;
                   topic_id := Some 11 |}.
Proof.
  assert (attainable (perform (TopicClick optics) physicsChosen)) as Hs.
  { apply attainable_event; [apply physicsChosen_attainable|].
    vm_compute. reflexivity. }
  split; [exact Hs|].
  destruct (X18_start_button_passes_validation _ Hs) as [Hshown _].
  split; [|vm_compute; reflexivity].
  apply Hshown. eexists. vm_compute. reflexivity.
Defined.

(** X19.  The topic buttons after the subject is changed.  Selecting a
    subject clears the selected topic but not the list of topics, which is
    replaced only when the topics of the new subject arrive.  Until then the
    page still offers the topics that were listed before, and when one of
    them is clicked and the test is started, the request carries the new
    subject together with that topic. *)
Theorem X19_topic_of_the_previous_list (s : State) (subject : Subject)
    (topic : Topic) :
  subject ∈ subjects s → topic ∈ topics s →
  let s1 := perform (SubjectClick subject) s in
  let s2 := perform (TopicClick topic) s1 in
  offered s (SubjectClick subject) = true
  ∧ selectedTopic s1 = None ∧ topics s1 = topics s
  ∧ offered s1 (TopicClick topic) = true
  ∧ startShown s2 = true
  ∧ startTest s2
    = Requested {| subject_id := sb_id subject;
                   question_count := questionCount s;
                   topic_id := Some (tp_id topic) |}.
Proof.
  intros Hsub Htop. cbn zeta.
  cbn [perform offered handleSubjectSelect handleTopicSelect testReducer
       selectedTopic topics selectedSubject testType].
  rewrite (bool_decide_eq_true_2 _ Hsub), (bool_decide_eq_true_2 _ Htop).
  repeat split; try done.
Qed.

Lemma X19_witness :
  chemistry ∈ subjects physicsChosen ∧ optics ∈ topics physicsChosen
  ∧ startTest
      (perform (TopicClick optics)
         (perform (SubjectClick chemistry) physicsChosen))
    = Requested {| subject_id := 2; question_count := 10;
                   topic_id := Some 11 |}.
Proof.
  assert (chemistry ∈ subjects physicsChosen) as H1
    by (apply (bool_decide_unpack _); vm_compute; exact I).
  assert (optics ∈ topics physicsChosen) as H2
    by (apply (bool_decide_unpack _); vm_compute; exact I).
  split; [exact H1|]. split; [exact H2|].
  exact (proj2 (proj2 (proj2 (proj2 (proj2
    (X19_topic_of_the_previous_list physicsChosen chemistry optics
       H1 H2)))))).
Defined.

End SelectionFacts.

(** ** Colours of a percentage *)

Lemma atLeast_mono (p : option Q) (a b : Z) :
  a ≤ b → atLeast p b = true → atLeast p a = true.
Proof.
  destruct p as [q|]; [|done]. cbn [atLeast]. intros Hab Hb.
  apply Qle_bool_iff. apply Qle_bool_iff in Hb.
  apply Qle_trans with (inject_Z b); [|done]. by rewrite <- Zle_Qle.
Qed.

Ltac thresholds p :=
  repeat match goal with
  | Ht : atLeast p ?b = true, Hf : atLeast p ?a = false |- _ =>
      exfalso; rewrite (atLeast_mono p a b) in Hf;
      [discriminate | lia | exact Ht]
  end.

Section ResultsViewFacts.

Import ResultsView.

(** X20.  The header of the results page against [getScoreColor].  The
    icon is the trophy exactly when the circle is green, which is exactly
    when the score is written in green or blue; the circle is yellow exactly
    when the score is written in yellow, and red exactly when the score is
    written in orange or red.  This includes a missing percentage, which is
    shown in red with the target icon. *)
Theorem X20_results_header_follows_score_colour (p : option Q) :
  (headerIcon p = Trophy ↔ headerBackground p = "bg-green-100")
  ∧ (headerBackground p = "bg-green-100"
     ↔ getScoreColor p = "text-green-600" ∨ getScoreColor p = "text-blue-600")
  ∧ (headerBackground p = "bg-yellow-100"
     ↔ getScoreColor p = "text-yellow-600")
  ∧ (headerBackground p = "bg-red-100"
     ↔ getScoreColor p = "text-orange-600" ∨ getScoreColor p = "text-red-600")
  ∧ (p = None →
     headerIcon p = Target ∧ getScoreColor p = "text-red-600").
Proof.
  unfold headerIcon, headerBackground, getScoreColor.
  split; [|split; [|split; [|split]]].
  5:{ by intros ->. }
  all: destruct (atLeast p 90) eqn:H90, (atLeast p 75) eqn:H75,
         (atLeast p 60) eqn:H60, (atLeast p 40) eqn:H40;
    try (thresholds p; fail);
    split; intros H; try done; try (by left); try (by right);
    try (by destruct H).
Qed.

End ResultsViewFacts.

Section HistoryFacts.

Import History.

(** X21.  The history page and the results page colour the same percentage
    by different thresholds.  The class the history page gives a percentage
    is the one the results page gives it exactly when the percentage is at
    least 80, or at least 70 and below 75, or below 40 or missing.  In every
    other case the results page shows the next better colour. *)
Theorem X21_history_and_results_colours (p : option Q) :
  (scoreClass p = ResultsView.getScoreColor p
   ↔ atLeast p 80 = true
     ∨ (atLeast p 70 = true ∧ atLeast p 75 = false)
     ∨ atLeast p 40 = false)
  ∧ (scoreClass p ≠ ResultsView.getScoreColor p →
     (scoreClass p = "text-yellow-600"
      ∧ ResultsView.getScoreColor p = "text-blue-600")
     ∨ (scoreClass p = "text-orange-600"
        ∧ ResultsView.getScoreColor p = "text-yellow-600")
     ∨ (scoreClass p = "text-red-600"
        ∧ ResultsView.getScoreColor p = "text-orange-600")).
Proof.
  unfold scoreClass, getGradeColor, ResultsView.getScoreColor.
  destruct (atLeast p 90) eqn:H90, (atLeast p 80) eqn:H80,
    (atLeast p 75) eqn:H75, (atLeast p 70) eqn:H70,
    (atLeast p 60) eqn:H60, (atLeast p 40) eqn:H40;
    try (thresholds p; fail); cbn.
  all: split; [split|]; intros H; try done;
    try (by left); try (by right; left); try (by right; right);
    try (by destruct H as [?|[[? ?]|?]]).
Qed.

(** ** The recent trend *)







(** A rise from 99.96 to 100 is shown as [+0.0%], in green. *)
Example trend_of_a_small_rise :
  getPerformanceTrend (Some {| recent_scores := Some [9996 # 100; 100 # 1] |})
  = Some {| value := "0.0"; direction := "up"; color := "text-green-600" |}.
Proof. vm_compute. reflexivity. Qed.

(** ** The list of tests *)

Lemma includes_empty (s : string) : includes s "" = true.
Proof. by destruct s. Qed.

(** X23.  The filtered list of tests, whatever [toLowerCase] does.  A test
    that has neither a name nor a subject is never listed, not even with the
    filter ['all'] and an empty search.  With a filter other than ['all']
    every listed test has a subject that equals the filter up to case.  And
    with the filter ['all'] and a search term whose lower case is empty, the
    listed tests are exactly those with a name or a subject, in their
    order. *)
Theorem X23_tests_listed (toLowerCase : string → string)
    (filter searchTerm : string) (testHistory : list HistoryTest) :
  (∀ test, In test (filteredTests toLowerCase filter searchTerm testHistory) →
     In test testHistory
     ∧ (is_Some (test_name test) ∨ is_Some (subject test))
     ∧ (filter ≠ "all" →
        ∃ sj, subject test = Some sj
              ∧ toLowerCase sj = toLowerCase filter))
  ∧ (toLowerCase searchTerm = "" →
     filteredTests toLowerCase "all" searchTerm testHistory
     = List.filter
         (λ test, bool_decide (is_Some (test_name test))
                  || bool_decide (is_Some (subject test)))
         testHistory).
Proof.
  split.
  - intros test Hin. unfold filteredTests in Hin.
    apply filter_In in Hin as [Hin Hok].
    apply andb_true_iff in Hok as [Hf Hs].
    split; [done|]. split.
    + unfold matchesSearch in Hs.
      destruct (test_name test); [left; by eexists|].
      destruct (subject test); [right; by eexists|done].
    + intros Hall. unfold matchesFilter in Hf.
      rewrite bool_decide_eq_false_2 in Hf by done. cbn [orb] in Hf.
      destruct (subject test) as [sj|]; [|done].
      exists sj. split; [done|]. by apply bool_decide_eq_true_1 in Hf.
  - intros Hempty. unfold filteredTests.
    induction testHistory as [|test rest IH]; [done|].
    cbn [List.filter]. rewrite IH.
    unfold matchesFilter, matchesSearch. rewrite Hempty.
    rewrite bool_decide_eq_true_2 by done. cbn [orb andb].
    destruct (test_name test), (subject test);
      rewrite ?includes_empty; cbn [orb];
      rewrite ?(bool_decide_eq_true_2 (is_Some (Some _))) by (by eexists);
      rewrite ?(bool_decide_eq_false_2 (is_Some None)) by (by intros [? ?]);
      cbn [orb]; done.
Qed.

Lemma X23_witness :
  asciiLowerCase "" = ""
  ∧ length (filteredTests asciiLowerCase "all" "" sampleHistory) = 2%nat.
Proof.
  assert (asciiLowerCase "" = "") as H by reflexivity.
  split; [exact H|].
  rewrite (proj2 (X23_tests_listed asciiLowerCase "all" "" sampleHistory) H).
  vm_compute. reflexivity.
Defined.

End HistoryFacts.
